(** * WinPR thread objects (winpr/libwinpr/thread/thread.c)

    A shallow embedding of the POSIX implementation of the Win32 thread
    API of WinPR: thread objects, the start-up rendezvous between the
    creating thread and the launcher, exit codes, termination, closing
    and user APC submission.

    Every C function of thread.c that the properties below talk about is
    a state transformer over [World].  A world holds the heap of thread
    objects, the process-wide statics of thread.c (among them the thread
    object [mainThread], which a pointer reaches as it reaches an object
    of the heap) and the trace of the calls made to the host (pthread,
    the event primitive, the APC queue, the log).  What the host answers to a call is not decided by
    thread.c: it is given by an oracle [host], applied to the trace so
    far and to the call. *)

From Stdlib Require Import ZArith List Bool Lia.
From stdpp Require Import base gmap list strings.

Local Open Scope Z_scope.

(** ** Constants of the WinPR headers *)

Definition NULL : Z := 0.
Definition TRUE : Z := 1.
Definition FALSE : Z := 0.

(** Modelled from the spec: the numeric values below come from headers
    (winpr/handle.h, winpr/error.h, winpr/synch.h, winpr/thread.h) that
    are not part of thread.c; the spec treats them as an external
    compatibility matter, the usual Win32 / WinPR values are used. *)
Definition INVALID_HANDLE_VALUE : Z := -1.
Definition HANDLE_TYPE_THREAD : Z := 2.
Definition WINPR_FD_READ : Z := 1.
Definition CREATE_SUSPENDED : Z := 4.
Definition ERROR_INVALID_HANDLE : Z := 6.
Definition ERROR_INVALID_PARAMETER : Z := 87.
Definition ERROR_CALL_NOT_IMPLEMENTED : Z := 120.
Definition WAIT_OBJECT_0 : Z := 0.
Definition WAIT_TIMEOUT : Z := 258.
Definition WAIT_FAILED : Z := 4294967295.
Definition TLS_OUT_OF_INDEXES : Z := 4294967295.
Definition APC_TYPE_USER : Z := 1.

(** [(DWORD)-1]: a 32-bit unsigned conversion. *)
Definition DWORD_of (z : Z) : Z := z mod 2 ^ 32.

(** ** Build options ([#if defined(...)] of thread.c) *)

Record Config := {
  WITH_THREAD_LIST : bool;
  ANDROID : bool
}.

(** ** The thread object *)

(** The bridge item of [QueueUserAPC] ([UserApcItem], with the fields of
    the embedded [WINPR_APC_ITEM] that thread.c sets). *)
Record UserApcItem := {
  apc_type : Z;
  markedForFree : bool;
  alwaysSignaled : bool;
  markedForRemove : bool;
  completion : Z;          (* PAPCFUNC *)
  completionArg : Z        (* ULONG_PTR *)
}.

(** [WINPR_THREAD] (thread.h).  The mutexes and condition variables of
    the object have no state of their own here: calls on them appear in
    the trace.  [event] is the latch of [thread->event], [apc] the items
    queued in [thread->apc]. *)
Record WINPR_THREAD := {
  Type_ : Z;
  Mode : Z;
  started : bool;
  event : bool;
  detached : bool;
  joined : bool;
  exited : bool;
  dwExitCode : Z;
  thread : Z;              (* pthread_t *)
  dwStackSize : Z;
  lpParameter : Z;
  lpStartAddress : Z;      (* LPTHREAD_START_ROUTINE *)
  lpThreadAttributes : Z;
  apc : list UserApcItem
}.

(** What [calloc(1, sizeof(WINPR_THREAD))] returns. *)
Definition zeroed : WINPR_THREAD :=
  {| Type_ := 0; Mode := 0; started := false; event := false;
     detached := false; joined := false; exited := false;
     dwExitCode := 0; thread := 0; dwStackSize := 0; lpParameter := 0;
     lpStartAddress := 0; lpThreadAttributes := 0; apc := [] |}.

#[global] Instance WINPR_THREAD_inhabited : Inhabited WINPR_THREAD :=
  populate zeroed.

Inductive field :=
| F_Type | F_Mode | F_started | F_detached | F_joined | F_exited
| F_dwExitCode | F_dwStackSize | F_lpParameter | F_lpStartAddress
| F_lpThreadAttributes.

(** The truth value of a C integer. *)
Definition truth (v : Z) : bool := negb (v =? 0).

(** [thread-><field> = v]. *)
Definition set_field (f : field) (v : Z) (t : WINPR_THREAD) : WINPR_THREAD :=
  match f with
  | F_Type =>
      {| Type_ := v; Mode := Mode t; started := started t; event := event t;
         detached := detached t; joined := joined t; exited := exited t;
         dwExitCode := dwExitCode t; thread := thread t;
         dwStackSize := dwStackSize t; lpParameter := lpParameter t;
         lpStartAddress := lpStartAddress t;
         lpThreadAttributes := lpThreadAttributes t; apc := apc t |}
  | F_Mode =>
      {| Type_ := Type_ t; Mode := v; started := started t; event := event t;
         detached := detached t; joined := joined t; exited := exited t;
         dwExitCode := dwExitCode t; thread := thread t;
         dwStackSize := dwStackSize t; lpParameter := lpParameter t;
         lpStartAddress := lpStartAddress t;
         lpThreadAttributes := lpThreadAttributes t; apc := apc t |}
  | F_started =>
      {| Type_ := Type_ t; Mode := Mode t; started := truth v; event := event t;
         detached := detached t; joined := joined t; exited := exited t;
         dwExitCode := dwExitCode t; thread := thread t;
         dwStackSize := dwStackSize t; lpParameter := lpParameter t;
         lpStartAddress := lpStartAddress t;
         lpThreadAttributes := lpThreadAttributes t; apc := apc t |}
  | F_detached =>
      {| Type_ := Type_ t; Mode := Mode t; started := started t; event := event t;
         detached := truth v; joined := joined t; exited := exited t;
         dwExitCode := dwExitCode t; thread := thread t;
         dwStackSize := dwStackSize t; lpParameter := lpParameter t;
         lpStartAddress := lpStartAddress t;
         lpThreadAttributes := lpThreadAttributes t; apc := apc t |}
  | F_joined =>
      {| Type_ := Type_ t; Mode := Mode t; started := started t; event := event t;
         detached := detached t; joined := truth v; exited := exited t;
         dwExitCode := dwExitCode t; thread := thread t;
         dwStackSize := dwStackSize t; lpParameter := lpParameter t;
         lpStartAddress := lpStartAddress t;
         lpThreadAttributes := lpThreadAttributes t; apc := apc t |}
  | F_exited =>
      {| Type_ := Type_ t; Mode := Mode t; started := started t; event := event t;
         detached := detached t; joined := joined t; exited := truth v;
         dwExitCode := dwExitCode t; thread := thread t;
         dwStackSize := dwStackSize t; lpParameter := lpParameter t;
         lpStartAddress := lpStartAddress t;
         lpThreadAttributes := lpThreadAttributes t; apc := apc t |}
  | F_dwExitCode =>
      {| Type_ := Type_ t; Mode := Mode t; started := started t; event := event t;
         detached := detached t; joined := joined t; exited := exited t;
         dwExitCode := v; thread := thread t;
         dwStackSize := dwStackSize t; lpParameter := lpParameter t;
         lpStartAddress := lpStartAddress t;
         lpThreadAttributes := lpThreadAttributes t; apc := apc t |}
  | F_dwStackSize =>
      {| Type_ := Type_ t; Mode := Mode t; started := started t; event := event t;
         detached := detached t; joined := joined t; exited := exited t;
         dwExitCode := dwExitCode t; thread := thread t;
         dwStackSize := v; lpParameter := lpParameter t;
         lpStartAddress := lpStartAddress t;
         lpThreadAttributes := lpThreadAttributes t; apc := apc t |}
  | F_lpParameter =>
      {| Type_ := Type_ t; Mode := Mode t; started := started t; event := event t;
         detached := detached t; joined := joined t; exited := exited t;
         dwExitCode := dwExitCode t; thread := thread t;
         dwStackSize := dwStackSize t; lpParameter := v;
         lpStartAddress := lpStartAddress t;
         lpThreadAttributes := lpThreadAttributes t; apc := apc t |}
  | F_lpStartAddress =>
      {| Type_ := Type_ t; Mode := Mode t; started := started t; event := event t;
         detached := detached t; joined := joined t; exited := exited t;
         dwExitCode := dwExitCode t; thread := thread t;
         dwStackSize := dwStackSize t; lpParameter := lpParameter t;
         lpStartAddress := v;
         lpThreadAttributes := lpThreadAttributes t; apc := apc t |}
  | F_lpThreadAttributes =>
      {| Type_ := Type_ t; Mode := Mode t; started := started t; event := event t;
         detached := detached t; joined := joined t; exited := exited t;
         dwExitCode := dwExitCode t; thread := thread t;
         dwStackSize := dwStackSize t; lpParameter := lpParameter t;
         lpStartAddress := lpStartAddress t;
         lpThreadAttributes := v; apc := apc t |}
  end.

Definition set_event_latch (b : bool) (t : WINPR_THREAD) : WINPR_THREAD :=
  {| Type_ := Type_ t; Mode := Mode t; started := started t; event := b;
     detached := detached t; joined := joined t; exited := exited t;
     dwExitCode := dwExitCode t; thread := thread t;
     dwStackSize := dwStackSize t; lpParameter := lpParameter t;
     lpStartAddress := lpStartAddress t;
     lpThreadAttributes := lpThreadAttributes t; apc := apc t |}.

Definition set_thread (tid : Z) (t : WINPR_THREAD) : WINPR_THREAD :=
  {| Type_ := Type_ t; Mode := Mode t; started := started t; event := event t;
     detached := detached t; joined := joined t; exited := exited t;
     dwExitCode := dwExitCode t; thread := tid;
     dwStackSize := dwStackSize t; lpParameter := lpParameter t;
     lpStartAddress := lpStartAddress t;
     lpThreadAttributes := lpThreadAttributes t; apc := apc t |}.

Definition set_apc (q : list UserApcItem) (t : WINPR_THREAD) : WINPR_THREAD :=
  {| Type_ := Type_ t; Mode := Mode t; started := started t; event := event t;
     detached := detached t; joined := joined t; exited := exited t;
     dwExitCode := dwExitCode t; thread := thread t;
     dwStackSize := dwStackSize t; lpParameter := lpParameter t;
     lpStartAddress := lpStartAddress t;
     lpThreadAttributes := lpThreadAttributes t; apc := q |}.

(** ** Calls to the host and the trace *)

Inductive mutex_id := mutex | threadIsReadyMutex | threadReadyMutex.
Inductive cond_id := threadIsReady | threadReady.
Inductive log_level := WLOG_DBG | WLOG_WARN | WLOG_ERR.
Inductive alloc_kind := sizeof_WINPR_THREAD | sizeof_UserApcItem.

(** One constructor per host function thread.c calls, with the thread
    object (or the pthread identity) the call is made on.  [Store] is an
    assignment to a field of a thread object and [Call_start] the call
    [fkt(thread->lpParameter)] of the launcher: they are in the trace so
    that the order of the steps of one function can be stated. *)
Inductive Event :=
| calloc (k : alloc_kind)
| free (h : Z)
| Store (h : Z) (f : field) (v : Z)
| SetLastError (code : Z)
| WLog (lvl : log_level) (msg : string)
| winpr_event_init (h : Z)
| winpr_event_set (h : Z)
| winpr_event_reset (h : Z)
| winpr_event_uninit (h : Z)
| poll_event (h : Z) (dwMilliseconds : Z)
| apc_init (h : Z)
| apc_uninit (h : Z)
| apc_cleanupThread (h : Z)
| apc_register (h : Z) (item : UserApcItem)
| pthread_mutex_init (h : Z) (m : mutex_id)
| pthread_mutex_lock (h : Z) (m : mutex_id)
| pthread_mutex_unlock (h : Z) (m : mutex_id)
| pthread_mutex_destroy (h : Z) (m : mutex_id)
| pthread_cond_init (h : Z) (c : cond_id)
| pthread_cond_signal (h : Z) (c : cond_id)
| pthread_cond_timedwait (h : Z) (c : cond_id) (m : mutex_id) (tv_sec tv_nsec : Z)
| pthread_cond_destroy (h : Z) (c : cond_id)
| pthread_attr_init
| pthread_attr_setdetachstate_JOINABLE
| pthread_attr_setstacksize (sz : Z)
| pthread_attr_destroy
| pthread_create (h : Z)
| pthread_join (tid : Z)
| pthread_detach (tid : Z)
| pthread_cancel (tid : Z)
| pthread_exit (rc : Z)
| TlsAlloc
| TlsSetValue (idx : Z) (v : Z)
| ListDictionary_New
| ListDictionary_Add (h : Z)
| ListDictionary_Remove (tid : Z)
| ListDictionary_Lock
| ListDictionary_Unlock
| Call_start (fkt : Z) (param : Z).

(** ** The world *)

Record World := {
  heap : gmap Z WINPR_THREAD;        (* live objects, by address *)
  brk : positive;                    (* next address [calloc] hands out *)
  next_tid : positive;               (* next identity [pthread_create] hands out *)
  trace : list Event;                (* calls made so far, oldest first *)
  last_error : Z;                    (* GetLastError() *)
  self : Z;                          (* pthread_self() of the running thread *)
  tls : gmap Z Z;                    (* the currentThread slot, per thread *)
  thread_list : option (list Z);     (* static thread_list: None is NULL *)
  threads_InitOnce : bool;
  mainThread : WINPR_THREAD;         (* the static object of the main thread *)
  mainThreadId : Z;
  currentThreadTlsIndex : Z
}.

Definition with_heap (f : gmap Z WINPR_THREAD -> gmap Z WINPR_THREAD) (w : World) : World :=
  {| heap := f (heap w); brk := brk w; next_tid := next_tid w; trace := trace w;
     last_error := last_error w; self := self w; tls := tls w;
     thread_list := thread_list w; threads_InitOnce := threads_InitOnce w;
     mainThread := mainThread w; mainThreadId := mainThreadId w;
     currentThreadTlsIndex := currentThreadTlsIndex w |}.

Definition with_trace (f : list Event -> list Event) (w : World) : World :=
  {| heap := heap w; brk := brk w; next_tid := next_tid w; trace := f (trace w);
     last_error := last_error w; self := self w; tls := tls w;
     thread_list := thread_list w; threads_InitOnce := threads_InitOnce w;
     mainThread := mainThread w; mainThreadId := mainThreadId w;
     currentThreadTlsIndex := currentThreadTlsIndex w |}.

Definition with_brk (p : positive) (w : World) : World :=
  {| heap := heap w; brk := p; next_tid := next_tid w; trace := trace w;
     last_error := last_error w; self := self w; tls := tls w;
     thread_list := thread_list w; threads_InitOnce := threads_InitOnce w;
     mainThread := mainThread w; mainThreadId := mainThreadId w;
     currentThreadTlsIndex := currentThreadTlsIndex w |}.

Definition with_next_tid (p : positive) (w : World) : World :=
  {| heap := heap w; brk := brk w; next_tid := p; trace := trace w;
     last_error := last_error w; self := self w; tls := tls w;
     thread_list := thread_list w; threads_InitOnce := threads_InitOnce w;
     mainThread := mainThread w; mainThreadId := mainThreadId w;
     currentThreadTlsIndex := currentThreadTlsIndex w |}.

Definition with_last_error (e : Z) (w : World) : World :=
  {| heap := heap w; brk := brk w; next_tid := next_tid w; trace := trace w;
     last_error := e; self := self w; tls := tls w;
     thread_list := thread_list w; threads_InitOnce := threads_InitOnce w;
     mainThread := mainThread w; mainThreadId := mainThreadId w;
     currentThreadTlsIndex := currentThreadTlsIndex w |}.

Definition with_tls (f : gmap Z Z -> gmap Z Z) (w : World) : World :=
  {| heap := heap w; brk := brk w; next_tid := next_tid w; trace := trace w;
     last_error := last_error w; self := self w; tls := f (tls w);
     thread_list := thread_list w; threads_InitOnce := threads_InitOnce w;
     mainThread := mainThread w; mainThreadId := mainThreadId w;
     currentThreadTlsIndex := currentThreadTlsIndex w |}.

Definition with_thread_list (l : option (list Z)) (w : World) : World :=
  {| heap := heap w; brk := brk w; next_tid := next_tid w; trace := trace w;
     last_error := last_error w; self := self w; tls := tls w;
     thread_list := l; threads_InitOnce := threads_InitOnce w;
     mainThread := mainThread w; mainThreadId := mainThreadId w;
     currentThreadTlsIndex := currentThreadTlsIndex w |}.

Definition with_statics (once : bool) (mt : WINPR_THREAD) (mid idx : Z) (w : World) : World :=
  {| heap := heap w; brk := brk w; next_tid := next_tid w; trace := trace w;
     last_error := last_error w; self := self w; tls := tls w;
     thread_list := thread_list w; threads_InitOnce := once;
     mainThread := mt; mainThreadId := mid;
     currentThreadTlsIndex := idx |}.

Definition with_self (tid : Z) (w : World) : World :=
  {| heap := heap w; brk := brk w; next_tid := next_tid w; trace := trace w;
     last_error := last_error w; self := tid; tls := tls w;
     thread_list := thread_list w; threads_InitOnce := threads_InitOnce w;
     mainThread := mainThread w; mainThreadId := mainThreadId w;
     currentThreadTlsIndex := currentThreadTlsIndex w |}.

(** [&mainThread]: the address of the static object of thread.c, which
    is no address of the heap ([calloc] hands out positive ones). *)
Definition mainThread_addr : Z := -2.

(** What a pointer [h] to a thread object points to: the live object of
    the heap at [h], or the static [mainThread] when [h] is its address.
    A pointer to neither reads as the zeroed object (thread.c never does
    that on a handle it accepted). *)
Definition read (hp : gmap Z WINPR_THREAD) (mt : WINPR_THREAD) (h : Z) : WINPR_THREAD :=
  match hp !! h with
  | Some t => t
  | None => if h =? mainThread_addr then mt else zeroed
  end.

(** Reading [thread->...] through the pointer [h]. *)
Definition obj (w : World) (h : Z) : WINPR_THREAD :=
  read (heap w) (mainThread w) h.

(** What a write [f] through the pointer [h] leaves of the static
    [mainThread]: it changes when [h] is its address. *)
Definition poke (hp : gmap Z WINPR_THREAD) (h : Z)
           (f : WINPR_THREAD -> WINPR_THREAD) (mt : WINPR_THREAD) : WINPR_THREAD :=
  match hp !! h with
  | Some _ => mt
  | None => if h =? mainThread_addr then f mt else mt
  end.

(** Writing through the pointer [h]: [f] is applied to the object [h]
    points to, in the heap or in the static. *)
Definition update (h : Z) (f : WINPR_THREAD -> WINPR_THREAD) (w : World) : World :=
  with_statics (threads_InitOnce w) (poke (heap w) h f (mainThread w))
    (mainThreadId w) (currentThreadTlsIndex w)
    (with_heap (alter f h) w).

(** New calls of a run: what [w1] has in its trace after the trace of
    [w0]. *)
Definition since (w0 w1 : World) : list Event :=
  drop (length (trace w0)) (trace w1).

(** ** A state monad over worlds *)

Definition M (A : Type) : Type := World -> A * World.

Definition ret {A} (a : A) : M A := fun w => (a, w).

Definition bind {A B} (m : M A) (k : A -> M B) : M B :=
  fun w => let '(a, w1) := m w in k a w1.

Declare Scope thread_scope.
Delimit Scope thread_scope with thread.
Notation "x <- m ;; k" := (bind m (fun x => k))
  (at level 100, m at next level, right associativity) : thread_scope.
Notation "m ;; k" := (bind m (fun _ => k))
  (at level 100, right associativity) : thread_scope.

Definition get {A} (f : World -> A) : M A := fun w => (f w, w).
Definition modify (f : World -> World) : M unit := fun w => (tt, f w).
Definition when (b : bool) (m : M unit) : M unit := if b then m else ret tt.

(** How a thread leaves a function that may call [pthread_exit]. *)
Inductive control := Returns | ThreadExits (rc : Z).

(** The value with which each host call reports success. *)
Definition host_success (e : Event) : Z :=
  match e with
  | calloc _ | winpr_event_init _ | winpr_event_set _ | winpr_event_reset _
  | winpr_event_uninit _ | apc_init _ | apc_uninit _ | TlsSetValue _ _
  | ListDictionary_New | ListDictionary_Add _ => 1
  | _ => 0
  end.

Section Model.

Local Open Scope thread_scope.

Variable cfg : Config.

(** The host: what a call returns, given the calls made before it. *)
Variable host : list Event -> Event -> Z.

(** The code behind start-routine pointers: [user_code fkt param w] runs
    the routine at [fkt] on [param] in world [w]; [None] when the routine
    does not return (the thread ended inside it). *)
Variable user_code : Z -> Z -> World -> option Z * World.

Definition emit (e : Event) : M unit :=
  modify (with_trace (fun tr => tr ++ [e])).

Definition call (e : Event) : M Z :=
  fun w => (host (trace w) e, with_trace (fun tr => tr ++ [e]) w).

Definition load {A} (h : Z) (f : WINPR_THREAD -> A) : M A :=
  get (fun w => f (obj w h)).

Definition store (h : Z) (f : field) (v : Z) : M unit :=
  emit (Store h f v) ;; modify (update h (set_field f v)).

Definition WLog_ERR (msg : string) : M unit := emit (WLog WLOG_ERR msg).
Definition WLog_WARN (msg : string) : M unit := emit (WLog WLOG_WARN msg).
Definition WLog_DBG (msg : string) : M unit := emit (WLog WLOG_DBG msg).

Definition do_SetLastError (code : Z) : M unit :=
  emit (SetLastError code) ;; modify (with_last_error code).

(** *** External collaborators *)

(** Modelled from the spec: handle.h is not part of thread.c.  A handle
    is accepted when it is neither NULL nor INVALID_HANDLE_VALUE and
    refers to an object: a live object of the heap, or the static
    [mainThread], whose address [_GetCurrentThread] hands out.  The call
    then yields the object's type and the object. *)
Definition winpr_Handle_GetInfo (hnd : Z) : M (option (Z * Z)) :=
  fun w =>
    if (hnd =? NULL) || (hnd =? INVALID_HANDLE_VALUE) then (None, w)
    else match heap w !! hnd with
         | Some t => (Some (Type_ t, hnd), w)
         | None =>
             if hnd =? mainThread_addr
             then (Some (Type_ (mainThread w), hnd), w)
             else (None, w)
         end.

(** Modelled from the spec: the signal primitive is a boolean latch; a
    successful [winpr_event_set] sets it, a successful
    [winpr_event_reset] clears it. *)
Definition do_winpr_event_set (h : Z) : M bool :=
  r <- call (winpr_event_set h) ;;
  when (truth r) (modify (update h (set_event_latch true))) ;;
  ret (truth r).

Definition do_winpr_event_reset (h : Z) : M bool :=
  r <- call (winpr_event_reset h) ;;
  when (truth r) (modify (update h (set_event_latch false))) ;;
  ret (truth r).

(** Modelled from the spec: the callback-queue subsystem (apc.c) is not
    part of thread.c.  [apc_register] appends the item to the queue of
    the target, [apc_cleanupThread] is the drain at thread exit and
    leaves the queue empty. *)
Definition do_apc_register (h : Z) (item : UserApcItem) : M unit :=
  emit (apc_register h item) ;;
  modify (update h (fun t => set_apc (apc t ++ [item]) t)).

Definition do_apc_cleanupThread (h : Z) : M unit :=
  emit (apc_cleanupThread h) ;;
  modify (update h (set_apc [])).

(** [calloc(1, sizeof(WINPR_THREAD))]: NULL when the host refuses, else a
    zeroed object at the next address. *)
Definition calloc_WINPR_THREAD : M Z :=
  r <- call (calloc sizeof_WINPR_THREAD) ;;
  if truth r then
    p <- get brk ;;
    modify (fun w => with_brk (Pos.succ p) (with_heap (insert (Zpos p) zeroed) w)) ;;
    ret (Zpos p)
  else ret NULL.

(** [free(thread)] ends the life of an object of the heap.  (Freeing
    the static [mainThread] is undefined in C; the model leaves it.) *)
Definition do_free (h : Z) : M unit :=
  emit (free h) ;; modify (with_heap (delete h)).

(** [pthread_create(&thread->thread, &attr, thread_launcher, thread)]:
    on success the new identity is written to [thread->thread]. *)
Definition do_pthread_create (h : Z) : M Z :=
  r <- call (pthread_create h) ;;
  when (r =? 0)
    (tid <- get next_tid ;;
     modify (fun w => with_next_tid (Pos.succ tid)
                        (update h (set_thread (Zpos tid)) w))) ;;
  ret r.

Definition do_TlsSetValue (idx v : Z) : M bool :=
  r <- call (TlsSetValue idx v) ;;
  when (truth r) (modify (fun w => with_tls (insert (self w) v) w)) ;;
  ret (truth r).

(** Modelled from the spec: the diagnostic registry (a [wListDictionary]
    keyed by the address of [thread->thread], compared with
    [pthread_equal]) is kept as the list of the registered objects. *)
Definition ListDictionary_Contains (tid : Z) : M bool :=
  get (fun w => match thread_list w with
                | Some l => existsb (fun h => thread (obj w h) =? tid) l
                | None => false
                end).

Definition ListDictionary_GetItemValue (tid : Z) : M Z :=
  get (fun w => match thread_list w with
                | Some l => hd NULL (List.filter (fun h => thread (obj w h) =? tid) l)
                | None => NULL
                end).

Definition do_ListDictionary_Add (h : Z) : M bool :=
  r <- call (ListDictionary_Add h) ;;
  l <- get thread_list ;;
  match l with
  | Some l =>
      when (truth r) (modify (with_thread_list (Some (l ++ [h])))) ;;
      ret (truth r)
  | None => ret false
  end.

Fixpoint remove_first (p : Z -> bool) (l : list Z) : list Z :=
  match l with
  | [] => []
  | x :: l' => if p x then l' else x :: remove_first p l'
  end.

Definition do_ListDictionary_Remove (tid : Z) : M unit :=
  emit (ListDictionary_Remove tid) ;;
  modify (fun w => match thread_list w with
                   | Some l => with_thread_list
                       (Some (remove_first (fun h => thread (obj w h) =? tid) l)) w
                   | None => w
                   end).

(** *** thread.c *)

Definition ThreadIsHandled (handle : Z) : M bool :=
  ty <- load handle Type_ ;;
  if (handle =? NULL) || negb (ty =? HANDLE_TYPE_THREAD) then
    do_SetLastError ERROR_INVALID_HANDLE ;; ret false
  else ret true.

Definition ThreadCleanupHandle (handle : Z) : M Z :=
  ok <- ThreadIsHandled handle ;;
  if negb ok then ret WAIT_FAILED else
  r <- call (pthread_mutex_lock handle mutex) ;;
  if truth r then ret WAIT_FAILED else
  j <- load handle joined ;;
  let unlock_and_return :=
    r <- call (pthread_mutex_unlock handle mutex) ;;
    if truth r then ret WAIT_FAILED else ret WAIT_OBJECT_0 in
  if negb j then
    tid <- load handle thread ;;
    status <- call (pthread_join tid) ;;
    if negb (status =? 0) then
      WLog_ERR "pthread_join failure" ;;
      call (pthread_mutex_unlock handle mutex) ;;
      ret WAIT_FAILED
    else
      store handle F_joined TRUE ;;
      unlock_and_return
  else unlock_and_return.

(** [dump_thread] only logs under WITH_DEBUG_THREADS, which is taken
    undefined. *)
Definition dump_thread (h : Z) : M unit := ret tt.

Definition set_event (h : Z) : M bool := do_winpr_event_set h.
Definition reset_event (h : Z) : M bool := do_winpr_event_reset h.

(** The source jumps to a label [error_thread_list] that thread.c does
    not define when the registry cannot be created; the function is read
    as returning TRUE there, as on every other path. *)
Definition initializeThreads : M bool :=
  r <- call (apc_init mainThread_addr) ;;
  if negb (truth r) then
    WLog_ERR "failed to initialize APC" ;; ret true
  else
    modify (fun w => with_statics (threads_InitOnce w)
                       (set_field F_Type HANDLE_TYPE_THREAD (mainThread w))
                       (self w) (currentThreadTlsIndex w) w) ;;
    idx <- call TlsAlloc ;;
    modify (fun w => with_statics (threads_InitOnce w) (mainThread w)
                       (mainThreadId w) idx w) ;;
    when (idx =? TLS_OUT_OF_INDEXES)
      (WLog_ERR "Major bug, unable to allocate a TLS value for currentThread") ;;
    if WITH_THREAD_LIST cfg then
      r <- call ListDictionary_New ;;
      if truth r then modify (with_thread_list (Some [])) ;; ret true
      else
        modify (with_thread_list None) ;;
        WLog_ERR "Couldn't create global thread list" ;; ret true
    else ret true.

(** [InitOnceExecuteOnce(&threads_InitOnce, initializeThreads, NULL, NULL)]. *)
Definition InitOnceExecuteOnce_initializeThreads : M unit :=
  done_ <- get threads_InitOnce ;;
  if done_ then ret tt
  else
    initializeThreads ;;
    modify (fun w => with_statics true (mainThread w) (mainThreadId w)
                       (currentThreadTlsIndex w) w).

Definition cleanup_handle (h : Z) : M unit :=
  if h =? NULL then ret tt else
  r <- call (apc_uninit h) ;;
  when (negb (truth r)) (WLog_ERR "failed to destroy APC") ;;
  rc <- call (pthread_cond_destroy h threadIsReady) ;;
  when (truth rc) (WLog_ERR "failed to destroy thread->threadIsReady") ;;
  rc <- call (pthread_cond_destroy h threadReady) ;;
  when (truth rc) (WLog_ERR "failed to destroy thread->threadReady") ;;
  rc <- call (pthread_mutex_destroy h threadIsReadyMutex) ;;
  when (truth rc) (WLog_ERR "failed to destroy thread->threadIsReadyMutex") ;;
  rc <- call (pthread_mutex_destroy h threadReadyMutex) ;;
  when (truth rc) (WLog_ERR "failed to destroy thread->threadReadyMutex") ;;
  rc <- call (pthread_mutex_destroy h mutex) ;;
  when (truth rc) (WLog_ERR "failed to destroy thread->mutex") ;;
  call (winpr_event_uninit h) ;;
  when (WITH_THREAD_LIST cfg)
    (tid <- load h thread ;; do_ListDictionary_Remove tid) ;;
  do_free h.

(** The call [fkt(thread->lpParameter)] of the launcher. *)
Definition call_start (fkt param : Z) : M (option Z) :=
  emit (Call_start fkt param) ;; user_code fkt param.

(** The code of [thread_launcher] from the label [exit] on, for a
    non-NULL [thread]. *)
Definition thread_launcher_exit (h : Z) (rc : Z) : M unit :=
  do_apc_cleanupThread h ;;
  ex <- load h exited ;;
  when (negb ex) (store h F_dwExitCode rc) ;;
  set_event h ;;
  call (pthread_cond_signal h threadReady) ;;
  d <- load h detached ;;
  s <- load h started ;;
  when (d || negb s) (cleanup_handle h).

Definition thread_launcher (arg : Z) : M unit :=
  let h := arg in
  let rc := 0 in
  if h =? NULL then
    WLog_ERR "Called with invalid argument" ;; ret tt
  else
  idx <- get currentThreadTlsIndex ;;
  ok <- do_TlsSetValue idx h ;;
  if negb ok then
    WLog_ERR "unable to set current thread value" ;; thread_launcher_exit h rc
  else
  fkt <- load h lpStartAddress ;;
  if fkt =? NULL then
    WLog_ERR "Thread function argument is NULL" ;; thread_launcher_exit h rc
  else
  r <- call (pthread_mutex_lock h threadIsReadyMutex) ;;
  if truth r then thread_launcher_exit h rc else
  r <- call (pthread_cond_signal h threadReady) ;;
  if negb (r =? 0) then
    WLog_ERR "The thread could not be made ready" ;;
    call (pthread_mutex_unlock h threadIsReadyMutex) ;;
    thread_launcher_exit h rc
  else
  call (pthread_cond_timedwait h threadIsReady threadIsReadyMutex 1 0) ;;
  tid <- load h thread ;;
  listed <- (if WITH_THREAD_LIST cfg then ListDictionary_Contains tid else ret true) ;;
  if negb listed then
    WLog_ERR "Thread not in thread_list, startup failed!" ;;
    call (pthread_mutex_unlock h threadIsReadyMutex) ;;
    thread_launcher_exit h rc
  else
  r <- call (pthread_mutex_unlock h threadIsReadyMutex) ;;
  if truth r then thread_launcher_exit h rc else
  param <- load h lpParameter ;;
  res <- call_start fkt param ;;
  match res with
  | Some rc => thread_launcher_exit h rc
  | None => ret tt
  end.

Definition winpr_StartThread (h : Z) : M bool :=
  let error := emit pthread_attr_destroy ;; ret false in
  emit pthread_attr_init ;;
  emit pthread_attr_setdetachstate_JOINABLE ;;
  sz <- load h dwStackSize ;;
  when (0 <? sz) (emit (pthread_attr_setstacksize sz)) ;;
  store h F_started TRUE ;;
  reset_event h ;;
  r <- call (pthread_mutex_lock h threadReadyMutex) ;;
  if truth r then error else
  added <- (if WITH_THREAD_LIST cfg then do_ListDictionary_Add h else ret true) ;;
  if negb added then
    WLog_ERR "failed to add the thread to the thread list" ;;
    call (pthread_mutex_unlock h threadReadyMutex) ;;
    error
  else
  r <- do_pthread_create h ;;
  if truth r then
    call (pthread_mutex_unlock h threadReadyMutex) ;; error
  else
  call (pthread_cond_timedwait h threadReady threadReadyMutex 1 0) ;;
  r <- call (pthread_mutex_unlock h threadReadyMutex) ;;
  if truth r then error else
  r <- call (pthread_cond_signal h threadIsReady) ;;
  if negb (r =? 0) then
    WLog_ERR "failed to signal the thread was ready" ;; error
  else
  emit pthread_attr_destroy ;;
  dump_thread h ;;
  ret true.

Definition CreateThread (lpThreadAttributes dwStackSize lpStartAddress
                           lpParameter dwCreationFlags lpThreadId : Z) : M Z :=
  h <- calloc_WINPR_THREAD ;;
  if h =? NULL then ret NULL else
  let fail := cleanup_handle h ;; ret NULL in
  store h F_dwStackSize dwStackSize ;;
  store h F_lpParameter lpParameter ;;
  store h F_lpStartAddress lpStartAddress ;;
  store h F_lpThreadAttributes lpThreadAttributes ;;
  r <- call (winpr_event_init h) ;;
  if negb (truth r) then WLog_ERR "failed to create event" ;; fail else
  r <- call (pthread_mutex_init h mutex) ;;
  if negb (r =? 0) then WLog_ERR "failed to initialize thread mutex" ;; fail else
  r <- call (apc_init h) ;;
  if negb (truth r) then WLog_ERR "failed to initialize APC" ;; fail else
  r <- call (pthread_mutex_init h threadIsReadyMutex) ;;
  if negb (r =? 0) then
    WLog_ERR "failed to initialize a mutex for a condition variable" ;; fail else
  r <- call (pthread_mutex_init h threadReadyMutex) ;;
  if negb (r =? 0) then
    WLog_ERR "failed to initialize a mutex for a condition variable" ;; fail else
  r <- call (pthread_cond_init h threadIsReady) ;;
  if negb (r =? 0) then
    WLog_ERR "failed to initialize a condition variable" ;; fail else
  r <- call (pthread_cond_init h threadReady) ;;
  if negb (r =? 0) then
    WLog_ERR "failed to initialize a condition variable" ;; fail else
  store h F_Type HANDLE_TYPE_THREAD ;;
  store h F_Mode WINPR_FD_READ ;;
  InitOnceExecuteOnce_initializeThreads ;;
  if Z.land dwCreationFlags CREATE_SUSPENDED =? 0 then
    ok <- winpr_StartThread h ;;
    if negb ok then fail else ret h
  else
    ok <- set_event h ;;
    if negb ok then fail else ret h.

(** Modelled from the spec: the generic wait (synch/wait.c) is not part
    of thread.c.  With a thread handle it polls the descriptor of the
    signal latch for at most [dwMilliseconds]; an unset latch gives
    WAIT_TIMEOUT, a set one hands over to the handle's
    [ThreadCleanupHandle] hook, which joins the thread on first use. *)
Definition WaitForSingleObject (hHandle dwMilliseconds : Z) : M Z :=
  info <- winpr_Handle_GetInfo hHandle ;;
  match info with
  | None => do_SetLastError ERROR_INVALID_HANDLE ;; ret WAIT_FAILED
  | Some _ =>
      emit (poll_event hHandle dwMilliseconds) ;;
      signalled <- load hHandle event ;;
      if signalled then ThreadCleanupHandle hHandle else ret WAIT_TIMEOUT
  end.

Definition ThreadCloseHandle (handle : Z) : M bool :=
  let h := handle in
  let body :=
    dump_thread h ;;
    s <- load h started ;;
    running <- (if s then
                  r <- WaitForSingleObject h 0 ;; ret (negb (r =? WAIT_OBJECT_0))
                else ret false) ;;
    if running then
      WLog_DBG "Thread running, setting to detached state!" ;;
      store h F_detached TRUE ;;
      tid <- load h thread ;;
      emit (pthread_detach tid)
    else cleanup_handle h in
  if WITH_THREAD_LIST cfg then
    l <- get thread_list ;;
    match l with
    | None =>
        WLog_ERR "Thread list does not exist, check call!" ;;
        dump_thread h ;; ret true
    | Some _ =>
        tid <- load h thread ;;
        listed <- ListDictionary_Contains tid ;;
        if negb listed then
          WLog_ERR "Thread list does not contain this thread! check call!" ;;
          dump_thread h ;; ret true
        else
          emit ListDictionary_Lock ;;
          body ;;
          emit ListDictionary_Unlock ;;
          ret true
    end
  else body ;; ret true.

Definition ExitThread (dwExitCode_ : Z) : M control :=
  if WITH_THREAD_LIST cfg then
    tid <- get self ;;
    l <- get thread_list ;;
    match l with
    | None =>
        WLog_ERR "function called without existing thread list!" ;;
        emit (pthread_exit 0) ;; ret (ThreadExits 0)
    | Some _ =>
        listed <- ListDictionary_Contains tid ;;
        if negb listed then
          WLog_ERR "function called, but no matching entry in thread list!" ;;
          emit (pthread_exit 0) ;; ret (ThreadExits 0)
        else
          emit ListDictionary_Lock ;;
          h <- ListDictionary_GetItemValue tid ;;
          store h F_exited TRUE ;;
          store h F_dwExitCode dwExitCode_ ;;
          emit ListDictionary_Unlock ;;
          set_event h ;;
          rc <- load h dwExitCode ;;
          d <- load h detached ;;
          s <- load h started ;;
          when (d || negb s) (cleanup_handle h) ;;
          emit (pthread_exit rc) ;; ret (ThreadExits rc)
    end
  else ret Returns.

(** [None] is the result FALSE, with [*lpExitCode] left alone; [Some c]
    is TRUE with [*lpExitCode = c]. *)
Definition GetExitCodeThread (hThread : Z) : M (option Z) :=
  info <- winpr_Handle_GetInfo hThread ;;
  match info with
  | None => ret None
  | Some (_, object) => c <- load object dwExitCode ;; ret (Some c)
  end.

Definition QueueUserAPC (pfnAPC hThread dwData : Z) : M Z :=
  if pfnAPC =? NULL then ret 1 else
  info <- winpr_Handle_GetInfo hThread ;;
  let invalid :=
    WLog_ERR "hThread is not a thread" ;;
    do_SetLastError ERROR_INVALID_PARAMETER ;; ret 0 in
  match info with
  | None => invalid
  | Some (_, object) =>
      ty <- load object Type_ ;;
      if negb (ty =? HANDLE_TYPE_THREAD) then invalid else
      apcItem <- call (calloc sizeof_UserApcItem) ;;
      if apcItem =? NULL then
        do_SetLastError ERROR_INVALID_PARAMETER ;; ret 0
      else
        do_apc_register hThread
          {| apc_type := APC_TYPE_USER; markedForFree := true;
             alwaysSignaled := true; markedForRemove := false;
             completion := pfnAPC; completionArg := dwData |} ;;
        ret 1
  end.

Definition ResumeThread (hThread : Z) : M Z :=
  info <- winpr_Handle_GetInfo hThread ;;
  match info with
  | None => ret (DWORD_of (-1))
  | Some (_, h) =>
      r <- call (pthread_mutex_lock h mutex) ;;
      if truth r then ret (DWORD_of (-1)) else
      s <- load h started ;;
      ok <- (if negb s then winpr_StartThread h
             else WLog_WARN "Thread already started!" ;; ret true) ;;
      if negb ok then
        call (pthread_mutex_unlock h mutex) ;; ret (DWORD_of (-1))
      else
        r <- call (pthread_mutex_unlock h mutex) ;;
        if truth r then ret (DWORD_of (-1)) else ret 0
  end.

Definition SuspendThread (hThread : Z) : M Z :=
  WLog_ERR "SuspendThread: not implemented" ;;
  do_SetLastError ERROR_CALL_NOT_IMPLEMENTED ;;
  ret (DWORD_of (-1)).

Definition TerminateThread (hThread dwExitCode_ : Z) : M bool :=
  info <- winpr_Handle_GetInfo hThread ;;
  match info with
  | None => ret false
  | Some (_, h) =>
      store h F_exited TRUE ;;
      store h F_dwExitCode dwExitCode_ ;;
      r <- call (pthread_mutex_lock h mutex) ;;
      if truth r then ret false else
      (if ANDROID cfg then WLog_ERR "Function not supported on this platform!"
       else tid <- load h thread ;; emit (pthread_cancel tid)) ;;
      r <- call (pthread_mutex_unlock h mutex) ;;
      if truth r then ret false else
      set_event h ;;
      ret true
  end.

Definition CreateRemoteThread (hProcess lpThreadAttributes dwStackSize
                                 lpStartAddress lpParameter dwCreationFlags
                                 lpThreadId : Z) : M Z :=
  WLog_ERR "CreateRemoteThread: not implemented" ;;
  do_SetLastError ERROR_CALL_NOT_IMPLEMENTED ;;
  ret NULL.

(** Modelled from the spec: the current-thread slot reads back, in the
    calling thread, what [TlsSetValue] bound there, and NULL when nothing
    was bound. *)
Definition do_TlsGetValue (idx : Z) : M Z :=
  get (fun w => default NULL (tls w !! self w)).

Definition winpr_GetCurrentThread : M Z :=
  InitOnceExecuteOnce_initializeThreads ;;
  mid <- get mainThreadId ;;
  tid <- get self ;;
  if mid =? tid then ret mainThread_addr else
  idx <- get currentThreadTlsIndex ;;
  r <- do_TlsGetValue idx ;;
  when (r =? NULL)
    (WLog_ERR "function called, but no matching entry in thread list!") ;;
  ret r.

Definition _GetCurrentThread : M Z := winpr_GetCurrentThread.

(** [(DWORD)tid & 0xffffffffUL], returned as a DWORD. *)
Definition GetCurrentThreadId : M Z :=
  tid <- get self ;;
  ret (DWORD_of (Z.land (DWORD_of tid) 4294967295)).

End Model.

Section Handle_operations.

Local Open Scope thread_scope.

(** Modelled from the spec: the signal primitive exposes a pollable
    descriptor; [event_fd h] is [thread->event.fds[0]] of the object at
    [h], as the primitive set it up. *)
Variable event_fd : Z -> Z.

Definition ThreadGetFd (handle : Z) : M Z :=
  ok <- ThreadIsHandled handle ;;
  if negb ok then ret (-1) else ret (event_fd handle).

End Handle_operations.

Section User_APC.

Local Open Scope thread_scope.

(** The code behind [PAPCFUNC] pointers: [apc_code fn data] runs the
    callback at [fn] on [data]. *)
Variable apc_code : Z -> Z -> M unit.

(** [userApc->apc.markedForRemove = TRUE]. *)
Definition mark_for_remove (item : UserApcItem) : UserApcItem :=
  {| apc_type := apc_type item; markedForFree := markedForFree item;
     alwaysSignaled := alwaysSignaled item; markedForRemove := true;
     completion := completion item; completionArg := completionArg item |}.

(** [userAPC(arg)], [arg] pointing to the item at position [i] of the
    queue of the thread object at [h].  A position that holds no item is
    a pointer to no item of the queue: nothing is modelled of it. *)
Definition userAPC (h : Z) (i : nat) : M unit :=
  q <- load h apc ;;
  match q !! i with
  | None => ret tt
  | Some userApc =>
      apc_code (completion userApc) (completionArg userApc) ;;
      modify (update h (fun t => set_apc (alter mark_for_remove i (apc t)) t))
  end.

End User_APC.

(** ** Reading traces *)

Definition is_release (e : Event) : bool :=
  match e with
  | apc_uninit _ | pthread_cond_destroy _ _ | pthread_mutex_destroy _ _
  | winpr_event_uninit _ | free _ => true
  | _ => false
  end.

(** The teardown order the specification announces: the mutexes (0), the
    rendezvous primitives (1), the signal primitive (2), the
    callback-queue context (3), the memory last. *)
Definition announced_rank (e : Event) : nat :=
  match e with
  | pthread_mutex_destroy _ mutex => 0
  | pthread_mutex_destroy _ _ | pthread_cond_destroy _ _ => 1
  | winpr_event_uninit _ => 2
  | apc_uninit _ => 3
  | _ => 4
  end%nat.

Fixpoint nondecreasing (l : list nat) : bool :=
  match l with
  | a :: (b :: _) as l' => (a <=? b)%nat && nondecreasing l'
  | _ => true
  end.

Definition announced_release_order (tr : list Event) : bool :=
  nondecreasing (map announced_rank (List.filter is_release tr)).

(** Calls that can make the caller wait for another thread. *)
Definition is_blocking (e : Event) : bool :=
  match e with
  | pthread_mutex_lock _ _ | pthread_join _
  | pthread_cond_timedwait _ _ _ _ _ => true
  | poll_event _ ms => negb (ms =? 0)
  | _ => false
  end.

Definition is_Call_start (e : Event) : bool :=
  match e with Call_start _ _ => true | _ => false end.


Definition is_pthread_create (h : Z) (e : Event) : bool :=
  match e with pthread_create h' => h' =? h | _ => false end.

Definition is_flag_store (h : Z) (e : Event) : bool :=
  match e with
  | Store h' F_exited _ | Store h' F_dwExitCode _ => h' =? h
  | _ => false
  end.

Definition is_apc_cleanupThread (e : Event) : bool :=
  match e with apc_cleanupThread _ => true | _ => false end.

Definition is_pthread_cancel (e : Event) : bool :=
  match e with pthread_cancel _ => true | _ => false end.

(** [at_depth want lock unlock p d tr]: replaying [tr] from lock depth
    [d], every call selected by [p] is made with a lock held
    ([want = true]) or with none held ([want = false]). *)
Fixpoint at_depth (want : bool) (lock unlock p : Event -> bool)
         (d : nat) (tr : list Event) : bool :=
  match tr with
  | [] => true
  | e :: tr' =>
      if lock e then at_depth want lock unlock p (S d) tr'
      else if unlock e then at_depth want lock unlock p (pred d) tr'
      else (if p e then eqb want (0 <? d)%nat else true)
           && at_depth want lock unlock p d tr'
  end.

Definition locks_mutex_of (h : Z) (e : Event) : bool :=
  match e with pthread_mutex_lock h' mutex => h' =? h | _ => false end.
Definition unlocks_mutex_of (h : Z) (e : Event) : bool :=
  match e with pthread_mutex_unlock h' mutex => h' =? h | _ => false end.
Definition locks_any (e : Event) : bool :=
  match e with pthread_mutex_lock _ _ => true | _ => false end.
Definition unlocks_any (e : Event) : bool :=
  match e with pthread_mutex_unlock _ _ => true | _ => false end.

(** The flag and exit-code stores to [h] happen under the mutex of [h]. *)
Definition flag_stores_under_mutex (h : Z) (tr : list Event) : bool :=
  at_depth true (locks_mutex_of h) (unlocks_mutex_of h) (is_flag_store h) 0 tr.

(** The cancellation request is issued with no mutex held. *)
Definition cancel_outside_any_lock (tr : list Event) : bool :=
  at_depth false locks_any unlocks_any is_pthread_cancel 0 tr.

(** The launcher's side of the rendezvous, read off a trace: it has
    signalled [threadReady] (launcherReady), then made its wait on
    [threadIsReady] (creatorReady), bounded by the timespec [{1, 0}],
    before the first call of a start routine.  The stage is 0, then 1
    after the signal, then 2 after the wait. *)
Fixpoint handshake_before_call (h : Z) (stage : nat) (tr : list Event) : bool :=
  match tr with
  | [] => true
  | Call_start _ _ :: _ => (stage =? 2)%nat
  | pthread_cond_signal h' threadReady :: tr' =>
      handshake_before_call h
        (if (h' =? h) && (stage =? 0)%nat then 1%nat else stage) tr'
  | pthread_cond_timedwait h' threadIsReady threadIsReadyMutex sec nsec :: tr' =>
      handshake_before_call h
        (if (h' =? h) && (stage =? 1)%nat && (sec =? 1) && (nsec =? 0)
         then 2%nat else stage) tr'
  | _ :: tr' => handshake_before_call h stage tr'
  end.

(** The releases [cleanup_handle] makes on the object at [h], in the
    order of the source. *)
Definition releases (h : Z) : list Event :=
  [apc_uninit h;
   pthread_cond_destroy h threadIsReady; pthread_cond_destroy h threadReady;
   pthread_mutex_destroy h threadIsReadyMutex;
   pthread_mutex_destroy h threadReadyMutex;
   pthread_mutex_destroy h mutex;
   winpr_event_uninit h;
   free h].

(** Calls that start, run, stop or wait for a thread; teardown makes
    none. *)
Definition is_thread_call (e : Event) : bool :=
  match e with
  | Call_start _ _ | pthread_create _ | pthread_join _ | pthread_cancel _
  | poll_event _ _
  | pthread_detach _ | pthread_exit _ | pthread_mutex_lock _ _
  | pthread_cond_timedwait _ _ _ _ _ | pthread_cond_signal _ _
  | Store _ _ _ | apc_cleanupThread _ | apc_register _ _ => true
  | _ => false
  end.

(** ** Concrete builds, hosts and worlds *)

Definition build_default : Config :=
  {| WITH_THREAD_LIST := false; ANDROID := false |}.

Definition build_thread_list : Config :=
  {| WITH_THREAD_LIST := true; ANDROID := false |}.

(** A host on which every call succeeds. *)
Definition host_ok : list Event -> Event -> Z := fun _ e => host_success e.

(** A host on which every call fails. *)
Definition host_failing : list Event -> Event -> Z :=
  fun _ e => 1 - host_success e.


(** Start routines that return 42 and touch nothing. *)
Definition returns_42 : Z -> Z -> World -> option Z * World :=
  fun _ _ w => (Some 42, w).

Definition boot : World :=
  {| heap := ∅; brk := 1%positive; next_tid := 100%positive; trace := [];
     last_error := 0; self := 1; tls := ∅; thread_list := None;
     threads_InitOnce := false; mainThread := zeroed; mainThreadId := 0;
     currentThreadTlsIndex := TLS_OUT_OF_INDEXES |}.

(** A running thread: [CreateThread(NULL, 0, 7, 9, 0, NULL)] on a host
    where everything succeeds.  The handle is 1. *)
Definition running (cfg : Config) : World :=
  (CreateThread cfg host_ok 0 0 7 9 0 0 boot).2.

(** A pending thread: the same call with CREATE_SUSPENDED. *)
Definition pending (cfg : Config) : World :=
  (CreateThread cfg host_ok 0 0 7 9 CREATE_SUSPENDED 0 boot).2.


(** The running thread, seen from the new thread itself. *)
Definition inside (cfg : Config) : World :=
  with_self (thread (obj (running cfg) 1)) (running cfg).

(** What a successful [QueueUserAPC] appends to the queue of its target. *)
Definition user_apc_item (pfnAPC dwData : Z) : UserApcItem :=
  {| apc_type := APC_TYPE_USER; markedForFree := true;
     alwaysSignaled := true; markedForRemove := false;
     completion := pfnAPC; completionArg := dwData |}.

(** The handle is one [QueueUserAPC] rejects: [winpr_Handle_GetInfo]
    fails on it (it is NULL or INVALID_HANDLE_VALUE, or points to no
    object: to no live object of the heap and not to the static
    [mainThread]), or the type of the object it points to is not
    HANDLE_TYPE_THREAD. *)
Definition not_a_thread (w : World) (hThread : Z) : Prop :=
  hThread = NULL \/ hThread = INVALID_HANDLE_VALUE \/
  (heap w !! hThread = None /\ hThread <> mainThread_addr) \/
  Type_ (obj w hThread) <> HANDLE_TYPE_THREAD.

(** The diagnostic registry, when it is compiled in, knows the thread of
    the object at [h]: what the guards of [ThreadCloseHandle] test. *)
Definition listed (w : World) (h : Z) : Prop :=
  exists l, thread_list w = Some l /\
            existsb (fun x => thread (obj w x) =? thread (obj w h)) l = true.

Definition registry_knows (cfg : Config) (w : World) (h : Z) : Prop :=
  WITH_THREAD_LIST cfg = false \/ listed w h.

(** What the start sequence may change in a thread object: it marks it
    started; the latch and the thread identity aside, the rest stays. *)
Definition start_marks (t t' : WINPR_THREAD) : Prop :=
  started t' = true /\ Type_ t' = Type_ t /\ Mode t' = Mode t /\
  detached t' = detached t /\ joined t' = joined t /\ exited t' = exited t /\
  dwExitCode t' = dwExitCode t /\ dwStackSize t' = dwStackSize t /\
  lpParameter t' = lpParameter t /\ lpStartAddress t' = lpStartAddress t /\
  lpThreadAttributes t' = lpThreadAttributes t /\ apc t' = apc t.

(** A start routine only adds to the trace: the calls already made stay
    made. *)
Definition appends_only (user : Z -> Z -> World -> option Z * World) : Prop :=
  forall f p w, exists sfx, trace (user f p w).2 = trace w ++ sfx.

(** Every call to the host succeeds. *)
Definition host_succeeds (host : list Event -> Event -> Z) : Prop :=
  forall tr e, host tr e = host_success e.

Definition is_pthread_join (e : Event) : bool :=
  match e with pthread_join _ => true | _ => false end.

(** Every call to the host succeeds, [pthread_join] aside: what joining
    a thread answers is left to the host. *)
Definition host_succeeds_but_join (host : list Event -> Event -> Z) : Prop :=
  forall tr e, is_pthread_join e = false -> host tr e = host_success e.

(** In a build with the diagnostic registry, the registry exists once
    the statics of thread.c have been initialised. *)
Definition registry_ready (cfg : Config) (w : World) : Prop :=
  WITH_THREAD_LIST cfg = false \/ threads_InitOnce w = false \/
  exists l, thread_list w = Some l.

(** The calls of [winpr_StartThread] on the object at [h] when each of
    them succeeds. *)
Definition start_sequence (cfg : Config) (h stack : Z) : list Event :=
  [pthread_attr_init; pthread_attr_setdetachstate_JOINABLE] ++
  (if 0 <? stack then [pthread_attr_setstacksize stack] else []) ++
  [Store h F_started TRUE; winpr_event_reset h;
   pthread_mutex_lock h threadReadyMutex] ++
  (if WITH_THREAD_LIST cfg then [ListDictionary_Add h] else []) ++
  [pthread_create h;
   pthread_cond_timedwait h threadReady threadReadyMutex 1 0;
   pthread_mutex_unlock h threadReadyMutex;
   pthread_cond_signal h threadIsReady;
   pthread_attr_destroy].

(** ** Notions for the further properties *)

(** The handle is one the handle operations of thread.c refuse: NULL, or
    an object whose type is not HANDLE_TYPE_THREAD. *)
Definition foreign_handle (w : World) (handle : Z) : Prop :=
  handle = NULL \/ Type_ (obj w handle) <> HANDLE_TYPE_THREAD.

(** The world after [SetLastError(ERROR_INVALID_HANDLE)] and nothing
    else. *)
Definition refused (w : World) : World :=
  with_last_error ERROR_INVALID_HANDLE
    (with_trace (fun tr => tr ++ [SetLastError ERROR_INVALID_HANDLE]) w).

(** The handle is one [winpr_Handle_GetInfo] fails on: NULL,
    INVALID_HANDLE_VALUE, or a pointer to no object (to no live object
    of the heap and not to the static [mainThread]). *)
Definition rejected_by_GetInfo (w : World) (hThread : Z) : Prop :=
  hThread = NULL \/ hThread = INVALID_HANDLE_VALUE \/
  (heap w !! hThread = None /\ hThread <> mainThread_addr).

(** What the code of the launcher from the label [exit] on leaves of the
    object [t], when it does not destroy it: an empty callback queue, the
    exit code [rc] unless an exit was recorded, and the latch set when
    [winpr_event_set] succeeded ([latch]). *)
Definition exit_object (rc : Z) (latch : bool) (t : WINPR_THREAD) : WINPR_THREAD :=
  let t1 := set_apc [] t in
  let t2 := if exited t then t1 else set_field F_dwExitCode rc t1 in
  if latch then set_event_latch true t2 else t2.

(** The calls of that code, before the teardown if there is one. *)
Definition exit_calls (h rc : Z) (t : WINPR_THREAD) : list Event :=
  [apc_cleanupThread h] ++
  (if exited t then [] else [Store h F_dwExitCode rc]) ++
  [winpr_event_set h; pthread_cond_signal h threadReady].

(** The start routine leaves the object at [h] alive, and its flags and
    exit code as they are. *)
Definition keeps_object (user : Z -> Z -> World -> option Z * World) (h : Z) : Prop :=
  forall f a wc t, heap wc !! h = Some t ->
    exists t', heap (user f a wc).2 !! h = Some t' /\
               exited t' = exited t /\ detached t' = detached t /\
               started t' = started t /\ dwExitCode t' = dwExitCode t.

(** The start routine returns to the launcher. *)
Definition returns (user : Z -> Z -> World -> option Z * World) : Prop :=
  forall f a wc, (user f a wc).1 <> None.

(** The calls the one-time initialisation and the start sequence are
    made of. *)
Definition is_setup_call (e : Event) : bool :=
  match e with
  | apc_init _ | TlsAlloc | ListDictionary_New | ListDictionary_Add _
  | WLog _ _ | Store _ _ _ | winpr_event_reset _
  | pthread_attr_init | pthread_attr_setdetachstate_JOINABLE
  | pthread_attr_setstacksize _ | pthread_attr_destroy
  | pthread_mutex_lock _ _ | pthread_mutex_unlock _ _
  | pthread_create _ | pthread_cond_timedwait _ _ _ _ _
  | pthread_cond_signal _ _ => true
  | _ => false
  end.

(** The object behind a handle [CreateThread] returns: it holds the
    arguments, has no exit recorded, is started unless CREATE_SUSPENDED
    was given, and in that case has its latch set. *)
Definition created (attrs stack fn arg flags : Z) (t : WINPR_THREAD) : Prop :=
  Type_ t = HANDLE_TYPE_THREAD /\ Mode t = WINPR_FD_READ /\
  lpThreadAttributes t = attrs /\ dwStackSize t = stack /\
  lpStartAddress t = fn /\ lpParameter t = arg /\
  dwExitCode t = 0 /\ exited t = false /\ detached t = false /\
  joined t = false /\ apc t = [] /\
  started t = (Z.land flags CREATE_SUSPENDED =? 0) /\
  (Z.land flags CREATE_SUSPENDED <> 0 -> event t = true).

Definition mutex_id_eqb (a b : mutex_id) : bool :=
  match a, b with
  | mutex, mutex | threadIsReadyMutex, threadIsReadyMutex
  | threadReadyMutex, threadReadyMutex => true
  | _, _ => false
  end.

(** [lock_run host h0 m pre tr held] replays the calls [tr], made after
    the calls [pre], on the mutex [m] of the object at [h0], [held]
    telling whether the caller holds it.  A lock the host answers with 0
    takes the mutex, an unlock gives it back.  The result is [None] when
    the mutex is locked while held, unlocked while not held, passed to
    [pthread_cond_timedwait] while not held, or held when a start
    routine is called; otherwise it tells whether the mutex is held at
    the end. *)
Fixpoint lock_run (host : list Event -> Event -> Z) (h0 : Z) (m : mutex_id)
         (pre tr : list Event) (held : bool) : option bool :=
  match tr with
  | [] => Some held
  | e :: tr' =>
      match e with
      | pthread_mutex_lock h m' =>
          if (h =? h0) && mutex_id_eqb m' m then
            if held then None
            else lock_run host h0 m (pre ++ [e]) tr' (host pre e =? 0)
          else lock_run host h0 m (pre ++ [e]) tr' held
      | pthread_mutex_unlock h m' =>
          if (h =? h0) && mutex_id_eqb m' m then
            if held then lock_run host h0 m (pre ++ [e]) tr' false else None
          else lock_run host h0 m (pre ++ [e]) tr' held
      | pthread_cond_timedwait h _ m' _ _ =>
          if (h =? h0) && mutex_id_eqb m' m && negb held then None
          else lock_run host h0 m (pre ++ [e]) tr' held
      | Call_start _ _ =>
          if held then None else lock_run host h0 m (pre ++ [e]) tr' false
      | _ => lock_run host h0 m (pre ++ [e]) tr' held
      end
  end.

(** The calls [tr] use the mutex in order and leave it released. *)
Definition lock_discipline (host : list Event -> Event -> Z) (h0 : Z)
           (m : mutex_id) (pre tr : list Event) : Prop :=
  lock_run host h0 m pre tr false = Some false.

(** What a run of the start sequence on [h] does to a mutex: it takes
    and gives back the [threadReadyMutex] of [h] and touches no other. *)
Definition start_effect (h h0 : Z) (m : mutex_id) (held : bool) : option bool :=
  if (h =? h0) && mutex_id_eqb threadReadyMutex m
  then (if held then None else Some false)
  else Some held.

(** Calls that take, give back or wait on a mutex. *)
Definition is_mutex_call (e : Event) : bool :=
  match e with
  | pthread_mutex_lock _ _ | pthread_mutex_unlock _ _
  | pthread_cond_timedwait _ _ _ _ _ => true
  | _ => false
  end.

(** The start routine only adds to the trace, and no call on a mutex of
    a thread object. *)
Definition leaves_mutexes_alone (user : Z -> Z -> World -> option Z * World) : Prop :=
  forall f a w, exists sfx,
    trace (user f a w).2 = trace w ++ sfx /\
    forallb (fun e => negb (is_mutex_call e)) sfx = true.

Definition is_attr_init (e : Event) : bool :=
  match e with pthread_attr_init => true | _ => false end.

Definition is_attr_destroy (e : Event) : bool :=
  match e with pthread_attr_destroy => true | _ => false end.

(** A start routine that asks [_GetCurrentThread] for the handle of
    the thread it runs in and compares it with the handle [expected]:
    it returns 1 when the two are equal and 0 when they are not. *)
Definition current_thread_is (expected : Z) (cfg : Config)
           (host : list Event -> Event -> Z) : Z -> Z -> World -> option Z * World :=
  fun _ _ w => let '(cur, w') := _GetCurrentThread cfg host w in
               (Some (if cur =? expected then 1 else 0), w').

(** The callback at [fn] leaves the thread object at [h] as it finds
    it. *)
Definition callback_keeps (apc_code : Z -> Z -> M unit) (fn h : Z) : Prop :=
  forall data w, heap (apc_code fn data w).2 !! h = heap w !! h.

(** The diagnostic registry is missing, or knows no object whose thread
    identity is [tid]. *)
Definition unlisted (w : World) (tid : Z) : Prop :=
  thread_list w = None \/
  exists l, thread_list w = Some l /\
            existsb (fun x => thread (obj w x) =? tid) l = false.

(** A host on which [pthread_create] fails and every other call
    succeeds. *)
Definition host_no_spawn : list Event -> Event -> Z :=
  fun _ e => match e with pthread_create _ => 11 | _ => host_success e end.

(** A callback that does nothing, and a descriptor table. *)
Definition idle_callback : Z -> Z -> M unit := fun _ _ w => (tt, w).
Definition fd_of_address : Z -> Z := fun h => 3 + h.

(** ** Evaluation lemmas and tactics *)

Lemma since_app (w w' : World) (evs : list Event) :
  trace w' = trace w ++ evs -> since w w' = evs.
Proof. intros H. unfold since. rewrite H. apply drop_app_length. Qed.

Lemma alter_live (m : gmap Z WINPR_THREAD) (h : Z) (t : WINPR_THREAD) f :
  m !! h = Some t -> alter f h m = <[h := f t]> m.
Proof.
  intros H. apply map_eq. intros i. rewrite lookup_alter, lookup_insert.
  case_decide; subst; [rewrite H|]; done.
Qed.

Lemma read_live (m : gmap Z WINPR_THREAD) (h : Z) (t : WINPR_THREAD) {mt} :
  m !! h = Some t -> read m mt h = t.
Proof. intros H. unfold read. by rewrite H. Qed.

Lemma read_insert (m : gmap Z WINPR_THREAD) (h : Z) (t : WINPR_THREAD) mt :
  read (<[h := t]> m) mt h = t.
Proof. unfold read. by rewrite lookup_insert_eq. Qed.

Lemma poke_live (m : gmap Z WINPR_THREAD) (h : Z) (t : WINPR_THREAD) f mt :
  m !! h = Some t -> poke m h f mt = mt.
Proof. intros H. unfold poke. by rewrite H. Qed.

Lemma poke_insert (m : gmap Z WINPR_THREAD) (h : Z) (t : WINPR_THREAD) f mt :
  poke (<[h := t]> m) h f mt = mt.
Proof. unfold poke. by rewrite lookup_insert_eq. Qed.

(** Writes to a live object of the heap leave the static alone. *)
Ltac statics :=
  rewrite ?poke_insert;
  repeat match goal with
         | H : ?m !! ?h = Some ?t |- context [poke ?m ?h ?f ?mt] =>
             rewrite (poke_live m h t f mt H)
         end;
  rewrite ?poke_insert.

Ltac statics_in E :=
  rewrite ?poke_insert in E;
  repeat match type of E with
         | context [poke ?m ?h ?f ?mt] =>
             match goal with
             | H : m !! h = Some ?t |- _ => rewrite (poke_live m h t f mt H) in E
             end
         end;
  rewrite ?poke_insert in E.

Lemma host_succeeds_weaken host :
  host_succeeds host -> host_succeeds_but_join host.
Proof. intros H tr e _. apply H. Qed.

Lemma truth_nonzero (z : Z) : z <> 0 -> truth z = true.
Proof. intros H. unfold truth. apply Z.eqb_neq in H. by rewrite H. Qed.

(** Unfolding of the monad and of the host-call wrappers, and
    projections out of explicit worlds. *)
Ltac unfold_monad :=
  unfold bind, ret, get, modify, emit, call, load, store, update,
    WLog_ERR, WLog_WARN, WLog_DBG, do_SetLastError, set_event, reset_event,
    do_winpr_event_set, do_winpr_event_reset, do_apc_register,
    do_apc_cleanupThread, do_free, dump_thread.

Ltac wsimpl :=
  unfold_monad;
  cbn [bind ret get modify when emit call load store
       WLog_ERR WLog_WARN WLog_DBG do_SetLastError set_event reset_event
       do_winpr_event_set do_winpr_event_reset do_apc_register
       do_apc_cleanupThread do_free dump_thread
       fst snd heap trace brk next_tid last_error self tls thread_list
       threads_InitOnce mainThread mainThreadId currentThreadTlsIndex
       with_heap with_trace with_brk with_next_tid with_last_error with_tls
       with_thread_list with_statics with_self update
       negb orb andb
       Type_ Mode started event detached joined exited dwExitCode thread
       dwStackSize lpParameter lpStartAddress lpThreadAttributes apc
       set_field set_event_latch set_thread set_apc].

Ltac wsimpl_in H :=
  cbn [bind ret get modify when emit call load store
       WLog_ERR WLog_WARN WLog_DBG do_SetLastError set_event reset_event
       do_winpr_event_set do_winpr_event_reset do_apc_register
       do_apc_cleanupThread do_free dump_thread
       fst snd heap trace brk next_tid last_error self tls thread_list
       threads_InitOnce mainThread mainThreadId currentThreadTlsIndex
       with_heap with_trace with_brk with_next_tid with_last_error with_tls
       with_thread_list with_statics with_self update
       negb orb andb
       Type_ Mode started event detached joined exited dwExitCode thread
       dwStackSize lpParameter lpStartAddress lpThreadAttributes apc
       set_field set_event_latch set_thread set_apc] in H.

Ltac trace_eq :=
  apply since_app; wsimpl; rewrite <- ?app_assoc; reflexivity.

Ltac since_norm :=
  erewrite since_app by (wsimpl; rewrite <- ?app_assoc; reflexivity).

(** The proofs about the longer functions run the function on an
    explicit world in a hypothesis [E : f ... w = (a, w')]: [wnorm_in]
    unfolds the monad and flattens the world, then the condition the
    evaluation is stuck on is settled (by an assumption on the host, or
    by cases) and the evaluation goes on. *)
Ltac wnorm_in E :=
  cbv beta iota delta
    [bind ret get modify when emit call load store
     WLog_ERR WLog_WARN WLog_DBG do_SetLastError set_event reset_event
     do_winpr_event_set do_winpr_event_reset do_apc_register
     do_apc_cleanupThread do_free dump_thread
     with_heap with_trace with_brk with_next_tid with_last_error
     with_tls with_thread_list with_statics with_self obj update
     heap trace brk next_tid last_error self tls thread_list
     threads_InitOnce mainThread mainThreadId currentThreadTlsIndex
     fst snd negb orb andb] in E.

Ltac wnorm :=
  cbv beta iota delta
    [bind ret get modify when emit call load store
     WLog_ERR WLog_WARN WLog_DBG do_SetLastError set_event reset_event
     do_winpr_event_set do_winpr_event_reset do_apc_register
     do_apc_cleanupThread do_free dump_thread
     with_heap with_trace with_brk with_next_tid with_last_error
     with_tls with_thread_list with_statics with_self obj update
     heap trace brk next_tid last_error self tls thread_list
     threads_InitOnce mainThread mainThreadId currentThreadTlsIndex
     fst snd negb orb andb].

(** Flattening of worlds only. *)
Ltac wflat_in E :=
  cbv beta iota delta
    [with_heap with_trace with_brk with_next_tid with_last_error
     with_tls with_thread_list with_statics with_self obj update
     heap trace brk next_tid last_error self tls thread_list
     threads_InitOnce mainThread mainThreadId currentThreadTlsIndex
     fst snd] in E;
  statics_in E.

Ltac wflat :=
  cbv beta iota delta
    [with_heap with_trace with_brk with_next_tid with_last_error
     with_tls with_thread_list with_statics with_self obj update
     heap trace brk next_tid last_error self tls thread_list
     threads_InitOnce mainThread mainThreadId currentThreadTlsIndex
     fst snd];
  statics.

(** The answer of the host to the call the evaluation has reached, as a
    fresh unknown. *)
Ltac forget_host E :=
  match type of E with
  | context [?host ?a ?b] =>
      match type of host with
      | list Event -> Event -> Z =>
          let r := fresh "r" in set (r := host a b) in E; clearbody r
      end
  end.

Lemma when_emit (b : bool) (e : Event) (w : World) :
  when b (emit e) w
  = (tt, with_trace (fun tr => tr ++ (if b then [e] else [])) w).
Proof.
  destruct w, b; unfold when, emit, modify, ret, with_trace; cbn;
    rewrite ?app_nil_r; reflexivity.
Qed.

Lemma bind_when_emit {B} (b : bool) (e : Event) (k : unit -> M B) (w : World) :
  bind (when b (emit e)) k w
  = k tt (with_trace (fun tr => tr ++ (if b then [e] else [])) w).
Proof. unfold bind. rewrite when_emit. reflexivity. Qed.

Lemma filter_release_log (b : bool) lvl msg :
  List.filter is_release (if b then [WLog lvl msg] else []) = [].
Proof. by destruct b. Qed.

Lemma no_thread_call_log (b : bool) lvl msg :
  forallb (fun e => negb (is_thread_call e))
    (if b then [WLog lvl msg] else []) = true.
Proof. by destruct b. Qed.

(** What [cleanup_handle] does on a non-NULL object, whatever the host
    answers: the object leaves the heap, nothing but the trace and the
    registry changes besides, and the calls made are the eight releases
    of [releases], in that order, with only log lines (and the registry
    removal) in between. *)
Lemma cleanup_handle_spec cfg host (h : Z) (w : World) :
  h <> NULL ->
  exists evs tl',
    cleanup_handle cfg host h w
    = (tt, with_heap (delete h)
             (with_thread_list tl' (with_trace (fun tr => tr ++ evs) w))) /\
    List.filter is_release evs = releases h /\
    forallb (fun e => negb (is_thread_call e)) evs = true.
Proof.
  intros Hn. apply Z.eqb_neq in Hn.
  destruct (cleanup_handle cfg host h w) as [u w'] eqn:E.
  destruct w as [hp bk nt tr0 le sf tl tlist once mt mid idx].
  unfold cleanup_handle in E. rewrite Hn in E. unfold WLog_ERR in E.
  repeat (first [ progress wsimpl_in E | forget_host E
                | rewrite bind_when_emit in E ]).
  wflat_in E.
  destruct (WITH_THREAD_LIST cfg);
    [unfold do_ListDictionary_Remove in E; destruct tlist |];
    wnorm_in E; inversion E; subst; clear E;
    eexists; eexists; wflat;
    (split; [rewrite <- ?app_assoc; reflexivity |]);
    rewrite ?List.filter_app, ?forallb_app, ?filter_release_log,
      ?no_thread_call_log;
    split; reflexivity.
Qed.

Ltac host_zero E H :=
  rewrite H in E; change (truth 0) with false in E; wnorm_in E.
Ltac host_nonzero E H :=
  rewrite (truth_nonzero _ (H _)) in E; wnorm_in E.

(** Replaces the call of [cleanup_handle] the evaluation in [E] has
    reached by its effect. *)
Ltac use_cleanup E Hn :=
  match type of E with
  | context [cleanup_handle ?cfg ?host ?h ?W] =>
      let evs := fresh "evs" in
      let tl' := fresh "tl'" in
      let EC := fresh "EC" in
      let Hrel := fresh "Hrel" in
      let Hq := fresh "Hq" in
      destruct (cleanup_handle_spec cfg host h W Hn)
        as (evs & tl' & EC & Hrel & Hq);
      rewrite EC in E; clear EC; wnorm_in E
  end.


(** The zero-timeout poll of a thread handle. *)
Lemma WaitForSingleObject_unset host (h ms : Z) (w : World) (t : WINPR_THREAD) :
  h <> NULL -> h <> INVALID_HANDLE_VALUE -> heap w !! h = Some t ->
  event t = false ->
  WaitForSingleObject host h ms w
  = (WAIT_TIMEOUT, with_trace (fun tr => tr ++ [poll_event h ms]) w).
Proof.
  intros Hn Hi Hl He. apply Z.eqb_neq in Hn, Hi.
  destruct w as [hp bk nt tr0 le sf tl tlist once mt mid idx].
  cbn [heap] in Hl.
  unfold WaitForSingleObject, winpr_Handle_GetInfo. wnorm.
  rewrite Hn, Hi, Hl. wnorm.
  rewrite (read_live _ _ _ Hl), He. reflexivity.
Qed.





(** The start of [ThreadCloseHandle] on a thread the registry knows: the
    registry guards pass and the body runs. *)
Ltac close_prelude E Hl Hreg :=
  unfold registry_knows, listed in Hreg; wflat_in Hreg;
  unfold ThreadCloseHandle in E;
  let l := fresh "l" in
  let Hex := fresh "Hex" in
  destruct (WITH_THREAD_LIST _) eqn:?;
    [ destruct Hreg as [Hreg | (l & -> & Hex)]; [discriminate Hreg |];
      unfold ListDictionary_Contains in E; wnorm_in E;
      rewrite Hex in E; wnorm_in E
    | clear Hreg; wnorm_in E ];
  rewrite (read_live _ _ _ Hl) in E.



Lemma ThreadCloseHandle_running cfg host (h : Z) (w : World) (t : WINPR_THREAD) :
  h <> NULL -> h <> INVALID_HANDLE_VALUE -> heap w !! h = Some t ->
  registry_knows cfg w h ->
  started t = true -> event t = false ->
  let r := ThreadCloseHandle cfg host h w in
  heap r.2 !! h = Some (set_field F_detached TRUE t) /\
  since w r.2 =
    (if WITH_THREAD_LIST cfg then [ListDictionary_Lock] else []) ++
    [poll_event h 0;
     WLog WLOG_DBG "Thread running, setting to detached state!";
     Store h F_detached TRUE;
     pthread_detach (thread t)] ++
    (if WITH_THREAD_LIST cfg then [ListDictionary_Unlock] else []) /\
  forallb (fun e => negb (is_blocking e)) (since w r.2) = true.
Proof.
  intros Hn Hi Hl Hreg Es Ee r. subst r.
  destruct (ThreadCloseHandle cfg host h w) as [ok w'] eqn:E.
  destruct w as [hp bk nt tr0 le sf tl tlist once mt mid idx].
  cbn [heap] in Hl.
  close_prelude E Hl Hreg; rewrite Es in E; wnorm_in E;
    (erewrite WaitForSingleObject_unset in E by eassumption);
    change (WAIT_TIMEOUT =? WAIT_OBJECT_0) with false in E; wnorm_in E;
    rewrite (alter_live _ _ _ _ Hl), ?read_insert in E;
    inversion E; subst; clear E; cbn [fst snd];
    (split; [wflat; apply lookup_insert_eq |]);
    erewrite since_app by (wflat; rewrite <- ?app_assoc; reflexivity);
    split; reflexivity.
Qed.

Lemma hd_filter_existsb (p : Z -> bool) (l : list Z) (h : Z) :
  hd_error (List.filter p l) = Some h -> existsb p l = true.
Proof.
  induction l as [|x l IH]; [discriminate |].
  cbn [List.filter existsb]. destruct (p x); [reflexivity | exact IH].
Qed.

Lemma hd_filter_hd (p : Z -> bool) (l : list Z) (h : Z) :
  hd_error (List.filter p l) = Some h -> hd NULL (List.filter p l) = h.
Proof. destruct (List.filter p l); [discriminate | by intros [= ->]]. Qed.

(** Cases on whether the answer of the host to the call [ev] is zero,
    for answers tested with [truth] or compared with 0. *)
Ltac case_zero E ev H :=
  match type of E with
  | context [?f ?a ev] =>
      let r := fresh "r" in
      set (r := f a ev) in E; clearbody r;
      unfold truth in E;
      destruct (r =? 0) eqn:H; try rewrite H in E
  end;
  wnorm_in E.

(** [winpr_StartThread] on a live object, whatever the host answers:
    the object is marked started, and a TRUE result comes after the
    spawn of the OS thread; the creator calls no start routine. *)
Lemma winpr_StartThread_spec cfg host (h : Z) (w : World) (t : WINPR_THREAD) :
  heap w !! h = Some t ->
  exists ok evs t' nt' tl',
    winpr_StartThread cfg host h w
    = (ok, with_heap (insert h t')
             (with_next_tid nt'
                (with_thread_list tl' (with_trace (fun tr => tr ++ evs) w)))) /\
    start_marks t t' /\
    forallb (fun e => negb (is_Call_start e)) evs = true /\
    (ok = true -> existsb (is_pthread_create h) evs = true).
Proof.
  intros Hl.
  destruct (winpr_StartThread cfg host h w) as [ok w'] eqn:E.
  destruct w as [hp bk nt tr0 le sf tl tlist once mt mid idx].
  cbn [heap] in Hl.
  unfold winpr_StartThread in E. wnorm_in E.
  rewrite (read_live _ _ _ Hl) in E.
  destruct (0 <? dwStackSize t); wnorm_in E.
  all: rewrite (alter_live _ _ _ _ Hl) in E.
  all: case_zero E (winpr_event_reset h) ER; rewrite ?alter_insert_eq in E.
  all: case_zero E (pthread_mutex_lock h threadReadyMutex) EL.
  all: try (inversion E; subst; clear E;
            eexists _, _, _, _, _; split; [wflat; rewrite <- ?app_assoc; reflexivity |];
            split; [repeat split; reflexivity |]; split; [reflexivity | discriminate]).
  all: destruct (WITH_THREAD_LIST cfg);
    [unfold do_ListDictionary_Add in E; wnorm_in E;
     destruct tlist as [l|]; wnorm_in E;
     [case_zero E (ListDictionary_Add h) EA |] |]; wnorm_in E.
  all: try (inversion E; subst; clear E;
            eexists _, _, _, _, _; split; [wflat; rewrite <- ?app_assoc; reflexivity |];
            split; [repeat split; reflexivity |]; split; [reflexivity | discriminate]).
  all: unfold do_pthread_create in E; wnorm_in E;
    case_zero E (pthread_create h) EC;
    rewrite ?alter_insert_eq in E.
  all: try (inversion E; subst; clear E;
            eexists _, _, _, _, _; split; [wflat; rewrite <- ?app_assoc; reflexivity |];
            split; [repeat split; reflexivity |]; split; [reflexivity | discriminate]).
  all: case_zero E (pthread_mutex_unlock h threadReadyMutex) EU.
  all: try (inversion E; subst; clear E;
            eexists _, _, _, _, _; split; [wflat; rewrite <- ?app_assoc; reflexivity |];
            split; [repeat split; reflexivity |]; split; [reflexivity | discriminate]).
  all: case_zero E (pthread_cond_signal h threadIsReady) ES.
  all: inversion E; subst; clear E;
            eexists _, _, _, _, _; (split; [wflat; rewrite <- ?app_assoc; reflexivity |]);
            (split; [repeat split; reflexivity |]); split; try reflexivity; try discriminate.
  all: intros _; apply existsb_exists; exists (pthread_create h);
    (split; [rewrite !in_app_iff; cbn [In]; tauto | cbn; apply Z.eqb_refl]).
Qed.

(** [InitOnceExecuteOnce] touches the statics, the registry and the
    trace only, and calls no start routine. *)
Lemma InitOnce_spec cfg host (w : World) :
  exists evs tl' once' mt' mid' idx',
    InitOnceExecuteOnce_initializeThreads cfg host w
    = (tt, with_statics once' mt' mid' idx'
             (with_thread_list tl' (with_trace (fun tr => tr ++ evs) w))) /\
    forallb (fun e => negb (is_thread_call e)) evs = true.
Proof.
  destruct (InitOnceExecuteOnce_initializeThreads cfg host w) as [u w'] eqn:E.
  destruct w as [hp bk nt tr0 le sf tl tlist once mt mid idx].
  unfold InitOnceExecuteOnce_initializeThreads, initializeThreads in E.
  wnorm_in E. destruct once; wnorm_in E.
  { inversion E; subst; clear E. exists [], tlist, true, mt, mid, idx.
    split; [wflat; rewrite app_nil_r; reflexivity | reflexivity]. }
  case_zero E (apc_init mainThread_addr) EA.
  { inversion E; subst; clear E. eexists _, _, _, _, _, _.
    split; [wflat; rewrite <- ?app_assoc; reflexivity | reflexivity]. }
  forget_host E.
  destruct (r0 =? TLS_OUT_OF_INDEXES); wnorm_in E;
    (destruct (WITH_THREAD_LIST cfg); wnorm_in E;
     [case_zero E ListDictionary_New EN |]);
    inversion E; subst; clear E; eexists _, _, _, _, _, _;
    (split; [wflat; rewrite <- ?app_assoc; reflexivity | reflexivity]).
Qed.

Lemma quiet_no_Call_start (evs : list Event) :
  forallb (fun e => negb (is_thread_call e)) evs = true ->
  forallb (fun e => negb (is_Call_start e)) evs = true.
Proof.
  induction evs as [|e evs IH]; [done |].
  cbn [forallb]. intros H. apply andb_prop in H as [He H].
  rewrite (IH H), andb_true_r. clear IH H.
  by destruct e.
Qed.

Ltac use_InitOnce E :=
  match type of E with
  | context [InitOnceExecuteOnce_initializeThreads ?cfg ?host ?W] =>
      let evs := fresh "evs" in
      let EI := fresh "EI" in
      let Hq := fresh "Hq" in
      destruct (InitOnce_spec cfg host W)
        as (evs & ? & ? & ? & ? & ? & EI & Hq);
      rewrite EI in E; clear EI; wnorm_in E
  end.

Ltac use_StartThread E Hl :=
  match type of E with
  | context [winpr_StartThread ?cfg ?host ?h ?W] =>
      let ok := fresh "ok" in
      let evs := fresh "evs" in
      let t' := fresh "t'" in
      let ES := fresh "ES" in
      let Hm := fresh "Hm" in
      let Hq := fresh "Hq" in
      let Hc := fresh "Hc" in
      destruct (winpr_StartThread_spec cfg host h W _ Hl)
        as (ok & evs & t' & ? & ? & ES & Hm & Hq & Hc);
      rewrite ES in E; clear ES; wnorm_in E
  end.

(** A failure path of [CreateThread]: the result is NULL. *)
Ltac create_failed E Hc :=
  match type of E with
  | context [cleanup_handle ?a ?b ?c ?d] =>
      destruct (cleanup_handle a b c d); wnorm_in E;
      inversion E; subst; exfalso; apply Hc; reflexivity
  end.

(** [CreateThread] without CREATE_SUSPENDED, whatever the host answers:
    a non-NULL result is the address of a live, started thread object
    that holds the start routine and its argument, and the OS thread
    spawn is among the calls made. *)
Lemma CreateThread_started_spec cfg host
      (attrs stack fn arg flags tidp : Z) (w : World) :
  Z.land flags CREATE_SUSPENDED = 0 ->
  let c := CreateThread cfg host attrs stack fn arg flags tidp w in
  c.1 <> NULL ->
  c.1 = Zpos (brk w) /\
  exists t, heap c.2 !! c.1 = Some t /\
            started t = true /\ lpStartAddress t = fn /\ lpParameter t = arg /\
            detached t = false /\ exited t = false /\
            Type_ t = HANDLE_TYPE_THREAD /\
            existsb (is_pthread_create c.1) (since w c.2) = true /\
            forallb (fun e => negb (is_Call_start e)) (since w c.2) = true.
Proof.
  intros Hfl c Hc. subst c.
  destruct (CreateThread cfg host attrs stack fn arg flags tidp w)
    as [c1 w'] eqn:E.
  cbn [fst snd] in *.
  destruct w as [hp bk nt tr0 le sf tl tlist once mt mid idx].
  unfold CreateThread, calloc_WINPR_THREAD in E. wnorm_in E.
  case_zero E (calloc sizeof_WINPR_THREAD) EC.
  { inversion E; subst. exfalso. apply Hc. reflexivity. }
  change (Z.pos bk =? NULL) with false in E. wnorm_in E.
  rewrite ?alter_insert_eq in E.
  case_zero E (winpr_event_init (Z.pos bk)) E1; [create_failed E Hc |].
  case_zero E (pthread_mutex_init (Z.pos bk) mutex) E2; [| create_failed E Hc].
  case_zero E (apc_init (Z.pos bk)) E3; [create_failed E Hc |].
  case_zero E (pthread_mutex_init (Z.pos bk) threadIsReadyMutex) E4;
    [| create_failed E Hc].
  case_zero E (pthread_mutex_init (Z.pos bk) threadReadyMutex) E5;
    [| create_failed E Hc].
  case_zero E (pthread_cond_init (Z.pos bk) threadIsReady) E6;
    [| create_failed E Hc].
  case_zero E (pthread_cond_init (Z.pos bk) threadReady) E7;
    [| create_failed E Hc].
  rewrite ?alter_insert_eq in E.
  use_InitOnce E.
  rewrite Hfl in E. change (0 =? 0) with true in E. wnorm_in E.
  use_StartThread E (lookup_insert_eq hp (Z.pos bk)
    (set_field F_Mode WINPR_FD_READ
       (set_field F_Type HANDLE_TYPE_THREAD
          (set_field F_lpThreadAttributes attrs
             (set_field F_lpStartAddress fn
                (set_field F_lpParameter arg
                   (set_field F_dwStackSize stack zeroed))))))).
  destruct ok; wnorm_in E; [| create_failed E Hc].
  inversion E; subst; clear E.
  split; [reflexivity |]. exists t'.
  destruct Hm as (Hs & Hty & _ & Hd & _ & Hex & _ & _ & Hp & Hf & _).
  split; [wflat; rewrite insert_insert_eq; apply lookup_insert_eq |].
  repeat (split; [assumption |]).
  erewrite since_app by (wflat; rewrite <- ?app_assoc; reflexivity).
  rewrite !existsb_app, !forallb_app, (Hc0 eq_refl), Hq0,
    (quiet_no_Call_start _ Hq), !orb_true_r.
  split; reflexivity.
Qed.

(** Cases on the condition the evaluation in [E] is stuck on. *)
Ltac case_if E :=
  match type of E with
  | context [if ?c then _ else _] => destruct c eqn:?
  end;
  wnorm_in E.

(** The code of the launcher from the label [exit] on only adds to the
    trace and calls no start routine, whatever the host answers. *)
Lemma thread_launcher_exit_quiet cfg host (h rc : Z) (w : World) :
  h <> NULL ->
  exists evs,
    trace (thread_launcher_exit cfg host h rc w).2 = trace w ++ evs /\
    forallb (fun e => negb (is_Call_start e)) evs = true.
Proof.
  intros Hn.
  destruct (thread_launcher_exit cfg host h rc w) as [u w'] eqn:E.
  destruct w as [hp bk nt tr0 le sf tl tlist once mt mid idx].
  unfold thread_launcher_exit in E. wnorm_in E.
  case_if E; (case_zero E (winpr_event_set h) ES);
    repeat case_if E; try use_cleanup E Hn;
    inversion E; subst; clear E; eexists;
    (split; [wflat; rewrite <- ?app_assoc; reflexivity |]);
    rewrite ?forallb_app, ?(quiet_no_Call_start _ Hq); reflexivity.
Qed.

Lemma handshake_no_call (h : Z) (tr : list Event) :
  forallb (fun e => negb (is_Call_start e)) tr = true ->
  forall stage, handshake_before_call h stage tr = true.
Proof.
  induction tr as [|e tr IH]; [done |].
  cbn [forallb]. intros H stage. apply andb_prop in H as [He H].
  destruct e; try discriminate He; cbn [handshake_before_call];
    try apply (IH H).
  - destruct c; apply (IH H).
  - destruct c; [destruct m |]; apply (IH H).
Qed.

(** The end of a launcher run that goes to the label [exit] without
    having called the start routine. *)
Ltac finish_exit E Hn :=
  match type of E with
  | thread_launcher_exit ?cfg ?host ?h ?rc ?W = (_, ?w') =>
      let evs := fresh "evs" in
      let Etr := fresh "Etr" in
      let Hq := fresh "Hq" in
      destruct (thread_launcher_exit_quiet cfg host h rc W Hn)
        as (evs & Etr & Hq);
      rewrite E in Etr; cbn [snd trace] in Etr;
      apply handshake_no_call;
      erewrite since_app
        by (rewrite Etr; cbn [trace]; rewrite <- ?app_assoc; reflexivity);
      rewrite ?forallb_app, Hq; reflexivity
  end.

(** The call of the start routine, reached by the evaluation in [E]:
    its result [res], the world [wc] it leaves and what it appended to
    the trace. *)
Ltac run_user E user Huser :=
  match type of E with
  | context [user ?f ?p ?W] =>
      let sfx := fresh "sfx" in
      let Hsfx := fresh "Hsfx" in
      let res := fresh "res" in
      let wc := fresh "wc" in
      let Eu := fresh "Eu" in
      destruct (Huser f p W) as (sfx & Hsfx);
      destruct (user f p W) as [res wc] eqn:Eu;
      cbn [snd trace] in Hsfx; wnorm_in E
  end.

(** Whatever the host answers and whatever the start routine does, the
    launcher calls the start routine only after it has signalled
    [threadReady] and made its bounded wait on [threadIsReady]. *)
Lemma thread_launcher_handshake cfg host user (h : Z) (w : World) :
  appends_only user ->
  handshake_before_call h 0
    (since w (thread_launcher cfg host user h w).2) = true.
Proof.
  intros Huser.
  destruct (thread_launcher cfg host user h w) as [u w'] eqn:E.
  cbn [snd].
  destruct w as [hp bk nt tr0 le sf tl tlist once mt mid idx].
  unfold thread_launcher in E.
  destruct (h =? NULL) eqn:Hn; wnorm_in E.
  { inversion E; subst; clear E.
    erewrite since_app by (wflat; reflexivity). reflexivity. }
  apply Z.eqb_neq in Hn.
  unfold do_TlsSetValue in E. wnorm_in E.
  case_zero E (TlsSetValue idx h) ET; [finish_exit E Hn |].
  destruct (lpStartAddress (read hp mt h) =? NULL) eqn:Ef; wnorm_in E;
    [finish_exit E Hn |].
  case_zero E (pthread_mutex_lock h threadIsReadyMutex) EL;
    [| finish_exit E Hn].
  case_zero E (pthread_cond_signal h threadReady) ES;
    [| finish_exit E Hn].
  assert (Hgo : forall (w1 : World) (tr1 : list Event),
    trace w1 = tr0 ++
      [TlsSetValue idx h; pthread_mutex_lock h threadIsReadyMutex;
       pthread_cond_signal h threadReady;
       pthread_cond_timedwait h threadIsReady threadIsReadyMutex 1 0;
       pthread_mutex_unlock h threadIsReadyMutex;
       Call_start (lpStartAddress (read hp mt h)) (lpParameter (read hp mt h))] ++ tr1 ->
    handshake_before_call h 0
      (since {| heap := hp; brk := bk; next_tid := nt; trace := tr0;
                last_error := le; self := sf; tls := tl; thread_list := tlist;
                threads_InitOnce := once; mainThread := mt;
                mainThreadId := mid; currentThreadTlsIndex := idx |} w1) = true).
  { intros w1 tr1 H1. erewrite since_app by (cbn [trace]; exact H1).
    cbn [handshake_before_call app]. rewrite Z.eqb_refl. reflexivity. }
  destruct (WITH_THREAD_LIST cfg);
    [unfold ListDictionary_Contains in E; wnorm_in E;
     destruct tlist as [l|]; wnorm_in E; [case_if E |] |];
    wnorm_in E; try (finish_exit E Hn).
  all: case_zero E (pthread_mutex_unlock h threadIsReadyMutex) EU;
    [| finish_exit E Hn].
  all: unfold call_start in E; wnorm_in E.
  all: run_user E user Huser.
  all: destruct res as [rc|]; wnorm_in E.
  all: try (destruct (thread_launcher_exit_quiet cfg host h rc wc Hn)
              as (evs & Etr & Hq);
            rewrite E in Etr; cbn [snd] in Etr;
            apply (Hgo w' (sfx ++ evs));
            rewrite Etr, Hsfx, <- ?app_assoc; reflexivity).
  all: inversion E; subst; clear E; apply (Hgo w' sfx);
    rewrite Hsfx, <- ?app_assoc; reflexivity.
Qed.

(** A successful [ResumeThread] of a pending thread has spawned the OS
    thread. *)
Lemma ResumeThread_spawns cfg host (h : Z) (w : World) (t : WINPR_THREAD) :
  h <> NULL -> h <> INVALID_HANDLE_VALUE -> heap w !! h = Some t ->
  started t = false ->
  let r := ResumeThread cfg host h w in
  r.1 = 0 ->
  existsb (is_pthread_create h) (since w r.2) = true.
Proof.
  intros Hn Hi Hl Hs r. subst r. apply Z.eqb_neq in Hn, Hi.
  destruct (ResumeThread cfg host h w) as [res w'] eqn:E. cbn [fst snd].
  destruct w as [hp bk nt tr0 le sf tl tlist once mt mid idx].
  cbn [heap] in Hl.
  unfold ResumeThread, winpr_Handle_GetInfo in E. wnorm_in E.
  rewrite Hn, Hi, Hl in E. wnorm_in E.
  case_zero E (pthread_mutex_lock h mutex) EL;
    [| inversion E; discriminate].
  rewrite (read_live _ _ _ Hl), Hs in E. wnorm_in E.
  use_StartThread E Hl.
  destruct ok; wnorm_in E; [| inversion E; discriminate].
  case_zero E (pthread_mutex_unlock h mutex) EU;
    [| inversion E; discriminate].
  inversion E; subst; clear E. intros _.
  erewrite since_app by (wflat; rewrite <- ?app_assoc; reflexivity).
  rewrite !existsb_app, (Hc eq_refl), !orb_true_r. reflexivity.
Qed.

Lemma winpr_StartThread_spawns cfg host (h : Z) (w : World) (t : WINPR_THREAD) :
  heap w !! h = Some t ->
  let r := winpr_StartThread cfg host h w in
  r.1 = true ->
  existsb (is_pthread_create h) (since w r.2) = true.
Proof.
  intros Hl r. subst r.
  destruct (winpr_StartThread_spec cfg host h w t Hl)
    as (ok & evs & t' & nt' & tl' & E & _ & _ & Hc).
  rewrite E. cbn [fst snd]. intros ->.
  erewrite since_app by (destruct w; wflat; reflexivity).
  exact (Hc eq_refl).
Qed.

(** The call of a start routine that returns, by the hypothesis [Huser]
    on it. *)
Ltac user_returns E user Huser Hl :=
  match type of E with
  | context [user ?f ?p ?W] =>
      destruct (Huser W _ Hl) as (wc' & t' & Eu & Hl' & He' & Hd' & Hs');
      rewrite Eu in E; clear Eu; wnorm_in E
  end.

(** Evaluation on a host where every call succeeds. *)
Ltac host_run E Hh :=
  repeat (rewrite ?Hh in E by reflexivity; cbn [host_success] in E;
          change (truth 1) with true in E;
          change (truth 0) with false in E;
          change (1 =? 0) with false in E;
          change (0 =? 0) with true in E;
          change (0 =? TLS_OUT_OF_INDEXES) with false in E;
          progress wnorm_in E).


(** The one-time initialisation on a host where every call it makes
    succeeds. *)
Lemma InitOnce_ok cfg host (w : World) :
  host_succeeds_but_join host ->
  exists evs tl' mt' mid' idx',
    InitOnceExecuteOnce_initializeThreads cfg host w
    = (tt, with_statics true mt' mid' idx'
             (with_thread_list tl' (with_trace (fun tr => tr ++ evs) w))) /\
    forallb (fun e => negb (is_thread_call e)) evs = true /\
    (registry_ready cfg w -> WITH_THREAD_LIST cfg = true ->
     exists l, tl' = Some l).
Proof.
  intros Hh.
  destruct (InitOnceExecuteOnce_initializeThreads cfg host w) as [u w'] eqn:E.
  destruct w as [hp bk nt tr0 le sf tl tlist once mt mid idx].
  unfold InitOnceExecuteOnce_initializeThreads, initializeThreads in E.
  wnorm_in E. destruct once; wnorm_in E.
  { inversion E; subst; clear E. exists [], tlist, mt, mid, idx.
    split; [wflat; rewrite app_nil_r; reflexivity |].
    split; [reflexivity |].
    intros [Hr | [Hr | Hr]] HTL; cbn in Hr; congruence. }
  host_run E Hh.
  destruct (WITH_THREAD_LIST cfg); wnorm_in E; host_run E Hh;
    inversion E; subst; clear E; eexists _, _, _, _, _;
    (split; [wflat; rewrite <- ?app_assoc; reflexivity |]);
    (split; [reflexivity |]); intros _ HTL; [eexists; reflexivity | discriminate].
Qed.

Ltac use_InitOnce_ok E Hh :=
  match type of E with
  | context [InitOnceExecuteOnce_initializeThreads ?cfg ?host ?W] =>
      let evs := fresh "evs" in
      let tl' := fresh "tl'" in
      let EI := fresh "EI" in
      let Hq := fresh "Hq" in
      let Hr := fresh "Hr" in
      destruct (InitOnce_ok cfg host W Hh)
        as (evs & tl' & ? & ? & ? & EI & Hq & Hr);
      rewrite EI in E; clear EI; wnorm_in E
  end.


(** The start sequence on a host where every call it makes succeeds. *)
Lemma winpr_StartThread_ok cfg host (h : Z) (w : World) (t : WINPR_THREAD) :
  host_succeeds_but_join host ->
  heap w !! h = Some t ->
  (WITH_THREAD_LIST cfg = true -> exists l, thread_list w = Some l) ->
  exists tl',
    winpr_StartThread cfg host h w
    = (true,
       with_heap
         (insert h (set_thread (Zpos (next_tid w))
                      (set_event_latch false (set_field F_started TRUE t))))
         (with_next_tid (Pos.succ (next_tid w))
            (with_thread_list tl'
               (with_trace
                  (fun tr => tr ++ start_sequence cfg h (dwStackSize t)) w)))).
Proof.
  intros Hh Hl Hreg.
  destruct (winpr_StartThread cfg host h w) as [ok w'] eqn:E.
  destruct w as [hp bk nt tr0 le sf tl tlist once mt mid idx].
  cbn [heap thread_list] in Hl, Hreg.
  unfold winpr_StartThread in E. wnorm_in E.
  rewrite (read_live _ _ _ Hl) in E.
  unfold start_sequence.
  destruct (0 <? dwStackSize t); wnorm_in E;
    rewrite (alter_live _ _ _ _ Hl) in E;
    host_run E Hh; rewrite ?alter_insert_eq in E;
    (destruct (WITH_THREAD_LIST cfg);
     [destruct (Hreg eq_refl) as (l & ->);
      unfold do_ListDictionary_Add in E; wnorm_in E; host_run E Hh |];
     wnorm_in E);
    unfold do_pthread_create in E; wnorm_in E; host_run E Hh;
    rewrite ?alter_insert_eq in E;
    inversion E; subst; clear E; eexists;
    wflat; rewrite <- ?app_assoc; reflexivity.
Qed.



Lemma CreateThread_started_ok cfg host
      (attrs stack fn arg flags tidp : Z) (w : World) :
  host_succeeds_but_join host ->
  Z.land flags CREATE_SUSPENDED = 0 ->
  registry_ready cfg w ->
  exists evs tl' once' mt' mid' idx',
    CreateThread cfg host attrs stack fn arg flags tidp w
    = (Zpos (brk w),
       with_heap
         (insert (Zpos (brk w))
            (set_thread (Zpos (next_tid w))
               (set_event_latch false
                  (set_field F_started TRUE
                     (set_field F_Mode WINPR_FD_READ
                        (set_field F_Type HANDLE_TYPE_THREAD
                           (set_field F_lpThreadAttributes attrs
                              (set_field F_lpStartAddress fn
                                 (set_field F_lpParameter arg
                                    (set_field F_dwStackSize stack
                                       zeroed))))))))))
         (with_brk (Pos.succ (brk w))
            (with_next_tid (Pos.succ (next_tid w))
               (with_statics once' mt' mid' idx'
                  (with_thread_list tl'
                     (with_trace (fun tr => tr ++ evs) w)))))).
Proof.
  intros Hh Hfl Hready.
  destruct (CreateThread cfg host attrs stack fn arg flags tidp w)
    as [c1 w'] eqn:E.
  destruct w as [hp bk nt tr0 le sf tl tlist once mt mid idx].
  unfold CreateThread, calloc_WINPR_THREAD in E. wnorm_in E.
  host_run E Hh.
  change (Z.pos bk =? NULL) with false in E. wnorm_in E.
  host_run E Hh.
  rewrite ?alter_insert_eq in E.
  use_InitOnce_ok E Hh. rewrite Hfl in E.
  change (0 =? 0) with true in E. wnorm_in E.
  match type of E with
  | context [winpr_StartThread cfg host ?h ?W] =>
      destruct (winpr_StartThread_ok cfg host h W _ Hh
                  (lookup_insert_eq _ _ _) (Hr Hready)) as (tl'0 & ES);
      rewrite ES in E; clear ES; wnorm_in E
  end.
  inversion E; subst; clear E. eexists _, _, _, _, _, _.
  wflat. rewrite ?insert_insert_eq, <- ?app_assoc. reflexivity.
Qed.

(** ** Properties *)

(** *** Exit code of a thread that runs to completion *)

(** C1.  Let [h] be the non-NULL result of [CreateThread] with start
    routine [fn], argument [arg] and no CREATE_SUSPENDED.  When the
    launcher runs on that object as Create left it, its calls to the
    host succeeding, and [fn arg] returns [rc] while it records no exit
    on the object and leaves the handle open, then after the launcher
    the signal latch of the object is set and [GetExitCodeThread] yields
    exactly [rc]. *)
Theorem thread_exit_code_is_start_routine_result :
  forall cfg host user (attrs stack fn arg flags tidp : Z)
         (w0 w : World) (rc : Z),
    Z.land flags CREATE_SUSPENDED = 0 ->
    let c := CreateThread cfg host attrs stack fn arg flags tidp w0 in
    let h := c.1 in
    h <> NULL -> fn <> NULL ->
    heap w !! h = heap c.2 !! h ->
    registry_knows cfg w h ->
    (forall tr, host tr (TlsSetValue (currentThreadTlsIndex w) h) <> 0) ->
    (forall tr, host tr (pthread_mutex_lock h threadIsReadyMutex) = 0) ->
    (forall tr, host tr (pthread_cond_signal h threadReady) = 0) ->
    (forall tr, host tr (pthread_mutex_unlock h threadIsReadyMutex) = 0) ->
    (forall tr, host tr (winpr_event_set h) <> 0) ->
    (forall wc t, heap wc !! h = Some t ->
       exists wc' t',
         user fn arg wc = (Some rc, wc') /\ heap wc' !! h = Some t' /\
         exited t' = exited t /\ detached t' = detached t /\
         started t' = started t) ->
    let w2 := (thread_launcher cfg host user h w).2 in
    event (obj w2 h) = true /\
    (GetExitCodeThread h w2).1 = Some rc.
Proof.
  intros cfg host user attrs stack fn arg flags tidp w0 w rc Hfl c h
         Hn Hfn Hsame Hreg HT HL HS HU HE Huser w2.
  subst w2.
  destruct (CreateThread_started_spec cfg host attrs stack fn arg flags tidp
              w0 Hfl Hn)
    as (Hh & t & Hl & Hst & Hf & Hp & Hd & Hex & Hty & _).
  fold c in Hh, Hl. fold h in Hh, Hl. rewrite Hl in Hsame.
  assert (Hi : (h =? INVALID_HANDLE_VALUE) = false)
    by (rewrite Hh; reflexivity).
  clearbody h. clear c Hl Hh.
  assert (Hn' := Hn). apply Z.eqb_neq in Hn, Hfn.
  destruct (thread_launcher cfg host user h w) as [u w'] eqn:E.
  cbn [snd].
  destruct w as [hp bk nt tr0 le sf tl tlist once mt mid idx].
  cbn [heap currentThreadTlsIndex] in Hsame, HT.
  unfold registry_knows, listed in Hreg. wflat_in Hreg.
  unfold thread_launcher in E. rewrite Hn in E. wnorm_in E.
  unfold do_TlsSetValue in E. wnorm_in E.
  rewrite (truth_nonzero _ (HT _)) in E. wnorm_in E.
  rewrite (read_live _ _ _ Hsame), Hf, Hfn in E. wnorm_in E.
  host_zero E HL.
  rewrite HS in E. change (0 =? 0) with true in E. wnorm_in E.
  destruct (WITH_THREAD_LIST cfg);
    [destruct Hreg as [Hreg | (l & -> & Hex')]; [discriminate Hreg |];
     unfold ListDictionary_Contains in E; wnorm_in E; rewrite Hex' in E |];
    wnorm_in E.
  all: host_zero E HU.
  all: rewrite (read_live _ _ _ Hsame), Hp in E.
  all: unfold call_start in E; wnorm_in E.
  all: user_returns E user Huser Hsame.
  all: destruct wc' as [hpc bkc ntc trc lec sfc tlc tlistc oncec mtc midc idxc];
    cbn [heap] in Hl'.
  all: unfold thread_launcher_exit in E; wnorm_in E.
  all: rewrite (alter_live _ _ _ _ Hl'), ?read_insert in E.
  all: change (exited (set_apc [] t')) with (exited t') in E.
  all: rewrite He', Hex in E; wnorm_in E.
  all: rewrite ?alter_insert_eq in E.
  all: host_nonzero E HE.
  all: rewrite ?alter_insert_eq, ?read_insert in E.
  all: change (detached (set_event_latch true
                  (set_field F_dwExitCode rc (set_apc [] t'))))
         with (detached t') in E.
  all: change (started (set_event_latch true
                  (set_field F_dwExitCode rc (set_apc [] t'))))
         with (started t') in E.
  all: rewrite Hd', Hs', Hd, Hst in E; wnorm_in E.
  all: inversion E; subst; clear E.
  all: split; [wflat; rewrite read_insert; reflexivity |].
  all: unfold GetExitCodeThread, winpr_Handle_GetInfo; wnorm.
  all: rewrite Hn, Hi, lookup_insert_eq; wnorm.
  all: rewrite read_insert; reflexivity.
Qed.

(** [CreateThread(NULL, 0, 7, 9, 0, NULL)], then the launcher with a
    start routine that returns 42. *)
Lemma thread_exit_code_is_start_routine_result_witness :
  let h := (CreateThread build_default host_ok 0 0 7 9 0 0 boot).1 in
  let w2 := (thread_launcher build_default host_ok returns_42 h
               (inside build_default)).2 in
  event (obj w2 h) = true /\ (GetExitCodeThread h w2).1 = Some 42.
Proof.
  apply (thread_exit_code_is_start_routine_result build_default host_ok
           returns_42 0 0 7 9 0 0 boot (inside build_default) 42).
  - reflexivity.
  - vm_compute. lia.
  - unfold NULL. lia.
  - vm_compute. reflexivity.
  - left. reflexivity.
  - intros tr. vm_compute. lia.
  - intros tr. reflexivity.
  - intros tr. reflexivity.
  - intros tr. reflexivity.
  - intros tr. vm_compute. lia.
  - intros wc t Hl. exists wc, t. repeat split; [exact Hl | reflexivity ..].
Defined.

(** *** Order of the start-up rendezvous *)

(** C2.  In every run of the launcher, whatever the host answers, the
    call of the start routine comes after the launcher has signalled
    [threadReady] (launcherReady) and made its wait on [threadIsReady]
    (creatorReady), a wait bounded by a one-second timespec; and the
    start sequence, [CreateThread] without CREATE_SUSPENDED and
    [ResumeThread] on a pending thread report success only after the
    spawn of the OS thread has been attempted, the creator itself never
    calling the start routine. *)
Theorem startup_rendezvous_order :
  (forall cfg host user (h : Z) (w : World),
      appends_only user ->
      handshake_before_call h 0
        (since w (thread_launcher cfg host user h w).2) = true) /\
  (forall cfg host (h : Z) (w : World) (t : WINPR_THREAD),
      heap w !! h = Some t ->
      let r := winpr_StartThread cfg host h w in
      r.1 = true ->
      existsb (is_pthread_create h) (since w r.2) = true) /\
  (forall cfg host (attrs stack fn arg flags tidp : Z) (w : World),
      Z.land flags CREATE_SUSPENDED = 0 ->
      let c := CreateThread cfg host attrs stack fn arg flags tidp w in
      c.1 <> NULL ->
      existsb (is_pthread_create c.1) (since w c.2) = true /\
      forallb (fun e => negb (is_Call_start e)) (since w c.2) = true) /\
  (forall cfg host (h : Z) (w : World) (t : WINPR_THREAD),
      h <> NULL -> h <> INVALID_HANDLE_VALUE -> heap w !! h = Some t ->
      started t = false ->
      let r := ResumeThread cfg host h w in
      r.1 = 0 ->
      existsb (is_pthread_create h) (since w r.2) = true).
Proof.
  split; [exact thread_launcher_handshake |].
  split; [exact winpr_StartThread_spawns |].
  split; [| exact ResumeThread_spawns].
  intros cfg host attrs stack fn arg flags tidp w Hfl c Hc.
  destruct (CreateThread_started_spec cfg host attrs stack fn arg flags tidp
              w Hfl Hc)
    as (_ & t & _ & _ & _ & _ & _ & _ & _ & Hspawn & Hquiet).
  split; assumption.
Qed.

(** The launcher of the running thread of [running], with a start
    routine that returns 42. *)
Lemma startup_rendezvous_order_witness :
  handshake_before_call 1 0
    (since (inside build_default)
       (thread_launcher build_default host_ok returns_42 1
          (inside build_default)).2) = true.
Proof.
  apply (proj1 startup_rendezvous_order build_default host_ok returns_42 1
           (inside build_default)).
  intros f p w. exists []. cbn. rewrite app_nil_r. reflexivity.
Defined.

(** *** Terminate *)

(** C3 as announced fails on the locking: terminating the running thread
    of [running] stores the flag and the exit code before the mutex is
    taken, and the cancellation request is the call made while the mutex
    is held. *)
Lemma TerminateThread_locking_counterexample :
  let w := running build_default in
  let tr := since w (TerminateThread build_default host_ok 1 7 w).2 in
  flag_stores_under_mutex 1 tr = false /\
  cancel_outside_any_lock tr = false /\
  tr = [Store 1 F_exited TRUE; Store 1 F_dwExitCode 7;
        pthread_mutex_lock 1 mutex; pthread_cancel 100;
        pthread_mutex_unlock 1 mutex; winpr_event_set 1].
Proof. vm_compute. repeat split; reflexivity. Qed.

(** C3, amended.  On a valid handle, [TerminateThread] first marks the
    object exited and stores the exit code, with no lock held; it then
    takes the object's mutex, issues the cancellation request under it
    (a log line instead on a platform without forced cancellation) and
    releases the mutex; the mutex having been locked and unlocked, it
    sets the signal latch and returns TRUE, and [GetExitCodeThread] then
    yields the given code. *)
Theorem TerminateThread_marks_exited :
  forall cfg host (h code : Z) (w : World) (t : WINPR_THREAD),
    h <> NULL -> h <> INVALID_HANDLE_VALUE -> heap w !! h = Some t ->
    (forall tr, host tr (pthread_mutex_lock h mutex) = 0) ->
    (forall tr, host tr (pthread_mutex_unlock h mutex) = 0) ->
    (forall tr, host tr (winpr_event_set h) <> 0) ->
    let r := TerminateThread cfg host h code w in
    r.1 = true /\
    since w r.2 =
      [Store h F_exited TRUE; Store h F_dwExitCode code;
       pthread_mutex_lock h mutex;
       (if ANDROID cfg
        then WLog WLOG_ERR "Function not supported on this platform!"
        else pthread_cancel (thread t));
       pthread_mutex_unlock h mutex;
       winpr_event_set h] /\
    heap r.2 !! h =
      Some (set_event_latch true
              (set_field F_dwExitCode code (set_field F_exited TRUE t))) /\
    (GetExitCodeThread h r.2).1 = Some code.
Proof.
  intros cfg host h code w t Hn Hi Hl HL HU HS r. subst r.
  apply Z.eqb_neq in Hn, Hi.
  destruct (TerminateThread cfg host h code w) as [ok w'] eqn:E.
  destruct w as [hp bk nt tr0 le sf tl tlist once mt mid idx].
  cbn [heap] in Hl.
  unfold TerminateThread, winpr_Handle_GetInfo in E. wnorm_in E.
  rewrite Hn, Hi, Hl in E. wnorm_in E.
  rewrite (alter_live _ _ _ _ Hl), alter_insert_eq in E.
  host_zero E HL.
  destruct (ANDROID cfg); wnorm_in E; host_zero E HU; host_nonzero E HS;
    rewrite ?alter_insert_eq, ?read_insert in E;
    inversion E; subst; clear E; cbn [fst snd];
    (split; [reflexivity |]);
    (split; [apply since_app; wflat; rewrite <- ?app_assoc; reflexivity |]);
    (split; [wflat; apply lookup_insert_eq |]);
    unfold GetExitCodeThread, winpr_Handle_GetInfo; wnorm;
    rewrite Hn, Hi, lookup_insert_eq; wnorm;
    rewrite read_insert; reflexivity.
Qed.

(** Terminating the running thread of [running] with code 7. *)
Lemma TerminateThread_marks_exited_witness :
  (GetExitCodeThread 1
     (TerminateThread build_default host_ok 1 7 (running build_default)).2).1
  = Some 7.
Proof.
  apply (TerminateThread_marks_exited build_default host_ok 1 7
           (running build_default) (obj (running build_default) 1)).
  - unfold NULL. lia.
  - unfold INVALID_HANDLE_VALUE. lia.
  - vm_compute. reflexivity.
  - intros tr. reflexivity.
  - intros tr. reflexivity.
  - intros tr. vm_compute. lia.
Defined.

(** *** Self exit *)

(** C4 as announced fails.  In the default build [ExitThread] is empty:
    called from the running thread of [running], with no exit recorded,
    it returns and leaves the world as it was, so the code 7 is not
    stored and the latch is not set.  In the build with the thread list
    it records the exit but makes no call to the callback-queue drain
    [apc_cleanupThread]. *)
Lemma ExitThread_counterexample :
  (let w := inside build_default in
   let r := ExitThread build_default host_ok 7 w in
   exited (obj w 1) = false /\
   r = (Returns, w) /\
   dwExitCode (obj r.2 1) <> 7 /\
   event (obj r.2 1) = false) /\
  (let w := inside build_thread_list in
   let r := ExitThread build_thread_list host_ok 7 w in
   exited (obj w 1) = false /\
   r.1 = ThreadExits 7 /\
   existsb is_apc_cleanupThread (since w r.2) = false).
Proof. vm_compute. repeat split; try reflexivity. discriminate. Qed.

(** C4, amended.  In a build without the thread list [ExitThread] does
    nothing and returns.  In a build with it, called from a thread whose
    registry entry is the live object [h], it marks the object exited
    and stores the exit code (whether or not an exit was recorded
    before), both between the lock and the unlock of the registry, sets
    the signal latch, then destroys the object itself if it is detached
    or was never started and otherwise leaves it alive for a later
    Close, and ends the calling thread with the exit code. *)
Theorem ExitThread_records_exit :
  forall cfg host (code : Z) (w : World),
    (WITH_THREAD_LIST cfg = false ->
       ExitThread cfg host code w = (Returns, w)) /\
    (forall (l : list Z) (h : Z) (t : WINPR_THREAD),
       WITH_THREAD_LIST cfg = true ->
       thread_list w = Some l ->
       hd_error (List.filter (fun x => thread (obj w x) =? self w) l) = Some h ->
       h <> NULL -> heap w !! h = Some t ->
       (forall tr, host tr (winpr_event_set h) <> 0) ->
       let r := ExitThread cfg host code w in
       let t' := set_event_latch true
                   (set_field F_dwExitCode code (set_field F_exited TRUE t)) in
       r.1 = ThreadExits code /\
       (exists between,
          since w r.2 =
            [ListDictionary_Lock; Store h F_exited TRUE;
             Store h F_dwExitCode code; ListDictionary_Unlock;
             winpr_event_set h] ++ between ++ [pthread_exit code] /\
          if detached t || negb (started t)
          then List.filter is_release between = releases h /\
               heap r.2 !! h = None
          else between = [] /\ heap r.2 !! h = Some t')).
Proof.
  intros cfg host code w. split.
  - intros ETL. unfold ExitThread. rewrite ETL. reflexivity.
  - intros l h t ETL Hlist Hhd Hn Hl HS r t'. subst r t'.
    destruct (ExitThread cfg host code w) as [c w'] eqn:E.
    destruct w as [hp bk nt tr0 le sf tl tlist once mt mid idx].
    cbn [heap thread_list] in Hl, Hlist. subst tlist. wflat_in Hhd.
    unfold ExitThread, ListDictionary_Contains, ListDictionary_GetItemValue in E.
    rewrite ETL in E. wnorm_in E.
    rewrite (hd_filter_existsb _ _ _ Hhd), (hd_filter_hd _ _ _ Hhd) in E.
    wnorm_in E.
    rewrite (alter_live _ _ _ _ Hl), ?alter_insert_eq in E.
    host_nonzero E HS.
    rewrite ?alter_insert_eq, ?read_insert in E.
    set (t1 := set_event_latch true
                 (set_field F_dwExitCode code (set_field F_exited TRUE t))) in *.
    change (dwExitCode t1) with code in E.
    change (detached t1) with (detached t) in E.
    change (started t1) with (started t) in E.
    destruct (detached t), (started t); wnorm_in E;
      try (use_cleanup E Hn); inversion E; subst; clear E; cbn [fst snd];
      (split; [reflexivity |]);
      [exists evs | exists evs | exists [] | exists evs];
      (split; [apply since_app; wflat; rewrite <- ?app_assoc; reflexivity |]);
      cbn [orb negb]; split;
      try reflexivity; try exact Hrel; wflat;
      try apply lookup_delete_eq; apply lookup_insert_eq.
Qed.

(** [ExitThread(7)] from the running thread of [running], in the build
    with the thread list. *)
Lemma ExitThread_records_exit_witness :
  (ExitThread build_thread_list host_ok 7 (inside build_thread_list)).1
  = ThreadExits 7.
Proof.
  apply (proj2 (ExitThread_records_exit build_thread_list host_ok 7
                  (inside build_thread_list))
           [1] 1 (obj (inside build_thread_list) 1)).
  - reflexivity.
  - vm_compute. reflexivity.
  - vm_compute. reflexivity.
  - unfold NULL. lia.
  - vm_compute. reflexivity.
  - intros tr. vm_compute. lia.
Defined.

(** *** Suspended creation and Resume *)






(** *** Close *)



(** *** Teardown *)

(** C7 as announced fails: tearing down the running thread of [running]
    releases the callback-queue context first and the object's mutex
    after the rendezvous primitives, which is not the announced order
    (mutexes, rendezvous primitives, signal primitive, callback-queue
    context). *)
Lemma cleanup_handle_order_counterexample :
  let w := running build_default in
  let w' := (cleanup_handle build_default host_ok 1 w).2 in
  announced_release_order (since w w') = false /\
  hd_error (List.filter is_release (since w w')) = Some (apc_uninit 1).
Proof. vm_compute. split; reflexivity. Qed.

(** C7, amended.  Destroying a thread object releases its
    callback-queue context, then its two rendezvous condition variables,
    then its two rendezvous mutexes, then its own mutex, then its signal
    primitive, then its memory: each exactly once and in that order,
    whatever any of the releases reports, and the object is gone from
    the heap afterwards.  No other release and no call that starts, runs
    or stops a thread is made. *)
Theorem cleanup_handle_release_order :
  forall cfg host (h : Z) (w : World),
    h <> NULL ->
    let w' := (cleanup_handle cfg host h w).2 in
    List.filter is_release (since w w') = releases h /\
    heap w' !! h = None /\
    forallb (fun e => negb (is_thread_call e)) (since w w') = true.
Proof.
  intros cfg host h w Hn w'. subst w'.
  destruct (cleanup_handle_spec cfg host h w Hn) as (evs & tl' & E & Hf & Hq).
  rewrite E. cbn [snd].
  rewrite (since_app w _ evs) by reflexivity.
  split; [exact Hf | split; [| exact Hq]].
  cbn [heap with_heap]. apply lookup_delete_eq.
Qed.

(** The teardown of a running thread on a host where every release
    fails. *)
Lemma cleanup_handle_release_order_witness :
  let w := running build_default in
  let w' := (cleanup_handle build_default host_failing 1 w).2 in
  List.filter is_release (since w w') = releases 1 /\
  heap w' !! 1 = None /\
  forallb (fun e => negb (is_thread_call e)) (since w w') = true.
Proof.
  apply (cleanup_handle_release_order build_default host_failing 1
           (running build_default)).
  unfold NULL. lia.
Defined.

(** *** Suspend, and Resume of a started thread *)

(** C8.  [SuspendThread] fails on every handle: it makes no call to the
    threading primitive, logs "not implemented", sets the last error to
    ERROR_CALL_NOT_IMPLEMENTED and returns [(DWORD)-1], leaving every
    object as it was.  [ResumeThread] on an already started object
    changes no object and, the object's mutex being lockable, returns 0
    after a warning-level log, with no error set. *)
Theorem SuspendThread_fails_ResumeThread_started_noop :
  (forall (hThread : Z) (w : World),
      let r := SuspendThread hThread w in
      r.1 = 4294967295 /\
      since w r.2 = [WLog WLOG_ERR "SuspendThread: not implemented";
                     SetLastError ERROR_CALL_NOT_IMPLEMENTED] /\
      last_error r.2 = ERROR_CALL_NOT_IMPLEMENTED /\
      heap r.2 = heap w) /\
  (forall cfg host (h : Z) (w : World) (t : WINPR_THREAD),
      h <> NULL -> h <> INVALID_HANDLE_VALUE ->
      heap w !! h = Some t -> started t = true ->
      let r := ResumeThread cfg host h w in
      heap r.2 = heap w /\ last_error r.2 = last_error w /\
      ((forall tr, host tr (pthread_mutex_lock h mutex) = 0) ->
       (forall tr, host tr (pthread_mutex_unlock h mutex) = 0) ->
       r.1 = 0 /\
       since w r.2 = [pthread_mutex_lock h mutex;
                      WLog WLOG_WARN "Thread already started!";
                      pthread_mutex_unlock h mutex])).
Proof.
  split.
  - intros hThread w r. subst r. unfold SuspendThread. wsimpl.
    repeat split. trace_eq.
  - intros cfg host h w t Hn Hi Hl Hs r. subst r.
    apply Z.eqb_neq in Hn, Hi.
    destruct w as [hp bk nt tr0 le sf tl tlist once mt mid idx].
    cbn [heap] in Hl.
    unfold ResumeThread, winpr_Handle_GetInfo. wsimpl.
    rewrite Hn, Hi, Hl. wsimpl.
    destruct (truth (host tr0 (pthread_mutex_lock h mutex))) eqn:EL;
      wsimpl.
    + split; [reflexivity | split; [reflexivity |]]. intros HL _.
      rewrite HL in EL. discriminate EL.
    + unfold obj. wsimpl. rewrite (read_live _ _ _ Hl), Hs. wsimpl.
      match goal with
      | |- context [truth (host ?a ?b)] => destruct (truth (host a b)) eqn:EU
      end; wsimpl.
      * split; [reflexivity | split; [reflexivity |]]. intros _ HU.
        rewrite HU in EU. discriminate EU.
      * split; [reflexivity | split; [reflexivity |]]. intros _ _.
        split; [reflexivity | trace_eq].
Qed.

(** A started thread and a host where every call succeeds. *)
Lemma SuspendThread_fails_ResumeThread_started_noop_witness :
  (ResumeThread build_default host_ok 1 (running build_default)).1 = 0.
Proof.
  apply (proj2 SuspendThread_fails_ResumeThread_started_noop
           build_default host_ok 1 (running build_default)
           (obj (running build_default) 1)).
  - unfold NULL. lia.
  - unfold INVALID_HANDLE_VALUE. lia.
  - vm_compute. reflexivity.
  - vm_compute. reflexivity.
  - intros tr. reflexivity.
  - intros tr. reflexivity.
Defined.

(** *** Failed submission of a user APC *)

(** C9 as announced fails for a NULL callback: on the NULL handle, which
    refers to no thread object, the call returns 1 and not the failure
    value 0, and the last error is not set. *)
Lemma QueueUserAPC_failure_counterexample :
  not_a_thread boot NULL /\
  (QueueUserAPC host_ok NULL NULL 0 boot).1 = 1 /\
  (QueueUserAPC host_ok NULL NULL 0 boot).1 <> 0 /\
  last_error (QueueUserAPC host_ok NULL NULL 0 boot).2
    <> ERROR_INVALID_PARAMETER.
Proof.
  split; [by left |]. vm_compute. repeat split; discriminate.
Qed.

(** C9, amended.  With a non-NULL callback, when the handle does not
    refer to a thread object or the bridge item cannot be allocated,
    [QueueUserAPC] sets the last error to ERROR_INVALID_PARAMETER and
    returns 0; no object changes, in the heap or in the static
    [mainThread], so nothing is queued, and no start routine or callback
    is called. *)
Theorem QueueUserAPC_submission_failure :
  forall host (pfnAPC hThread dwData : Z) (w : World),
    pfnAPC <> NULL ->
    not_a_thread w hThread \/ host (trace w) (calloc sizeof_UserApcItem) = NULL ->
    let r := QueueUserAPC host pfnAPC hThread dwData w in
    r.1 = 0 /\
    last_error r.2 = ERROR_INVALID_PARAMETER /\
    heap r.2 = heap w /\
    mainThread r.2 = mainThread w /\
    (forall item, ~ In (apc_register hThread item) (since w r.2)) /\
    forallb (fun e => negb (is_Call_start e)) (since w r.2) = true.
Proof.
  intros host pfnAPC h dwData w Hf Hfail r. subst r.
  apply Z.eqb_neq in Hf.
  destruct w as [hp bk nt tr0 le sf tl tlist once mt mid idx].
  unfold not_a_thread, obj in Hfail. cbn [heap trace mainThread] in Hfail.
  assert (Hinvalid :
    let r := (let '(_, w1) := WLog_ERR "hThread is not a thread"
                {| heap := hp; brk := bk; next_tid := nt; trace := tr0;
                   last_error := le; self := sf; tls := tl;
                   thread_list := tlist; threads_InitOnce := once;
                   mainThread := mt; mainThreadId := mid;
                   currentThreadTlsIndex := idx |} in
              let '(_, w2) := do_SetLastError ERROR_INVALID_PARAMETER w1 in
              (0, w2)) in
    r.1 = 0 /\ last_error r.2 = ERROR_INVALID_PARAMETER /\
    heap r.2 = hp /\ mainThread r.2 = mt /\
    (forall item, ~ In (apc_register h item)
       (since {| heap := hp; brk := bk; next_tid := nt; trace := tr0;
                 last_error := le; self := sf; tls := tl;
                 thread_list := tlist; threads_InitOnce := once;
                 mainThread := mt; mainThreadId := mid;
                 currentThreadTlsIndex := idx |} r.2)) /\
    forallb (fun e => negb (is_Call_start e))
       (since {| heap := hp; brk := bk; next_tid := nt; trace := tr0;
                 last_error := le; self := sf; tls := tl;
                 thread_list := tlist; threads_InitOnce := once;
                 mainThread := mt; mainThreadId := mid;
                 currentThreadTlsIndex := idx |} r.2) = true).
  { wsimpl. since_norm. repeat split; try reflexivity.
    intros item Hin. simpl in Hin. intuition discriminate. }
  cbv zeta in Hinvalid.
  unfold QueueUserAPC, winpr_Handle_GetInfo, bind, ret.
  rewrite Hf.
  destruct (h =? NULL) eqn:E1; [exact Hinvalid |].
  destruct (h =? INVALID_HANDLE_VALUE) eqn:E2; [exact Hinvalid |].
  cbn [orb heap mainThread].
  apply Z.eqb_neq in E1, E2.
  assert (Haccepted :
    Type_ (read hp mt h) = HANDLE_TYPE_THREAD ->
    (hp !! h = None -> h = mainThread_addr) ->
    host tr0 (calloc sizeof_UserApcItem) = NULL).
  { intros Hty Hm. destruct Hfail as [Hnt | Hc]; [exfalso | exact Hc].
    destruct Hnt as [Hnt | [Hnt | [[Hnone Hne] | Hnt]]]; try done.
    exact (Hne (Hm Hnone)). }
  destruct (hp !! h) as [t|] eqn:El;
    [| destruct (h =? mainThread_addr) eqn:Em; [| exact Hinvalid]].
  all: unfold load, get, obj; cbn [heap mainThread].
  all: destruct (Type_ (read hp mt h) =? HANDLE_TYPE_THREAD) eqn:Ety;
    cbn [negb]; [| exact Hinvalid].
  all: apply Z.eqb_eq in Ety.
  all: unfold call; cbn [trace];
    rewrite (Haccepted Ety ltac:(first [discriminate | intros _; apply Z.eqb_eq; assumption]));
    change (NULL =? NULL) with true.
  all: wsimpl; since_norm; repeat split; try reflexivity;
    intros item Hin; simpl in Hin; intuition discriminate.
Qed.

(** A handle to no object, the address of [mainThread] before the
    statics are initialised (its type is still 0), and an allocation
    that fails. *)
Lemma QueueUserAPC_submission_failure_witness :
  (QueueUserAPC host_ok 5 77 0 boot).1 = 0 /\
  (QueueUserAPC host_ok 5 mainThread_addr 0 boot).1 = 0 /\
  (QueueUserAPC host_failing 5 1 0 (running build_default)).1 = 0.
Proof.
  split; [| split].
  - apply (QueueUserAPC_submission_failure host_ok 5 77 0 boot).
    + unfold NULL. lia.
    + left. right. right. left. split; [vm_compute; reflexivity |].
      unfold mainThread_addr. lia.
  - apply (QueueUserAPC_submission_failure host_ok 5 mainThread_addr 0 boot).
    + unfold NULL. lia.
    + left. right. right. right. vm_compute. discriminate.
  - apply (QueueUserAPC_submission_failure host_failing 5 1 0
             (running build_default)).
    + unfold NULL. lia.
    + right. vm_compute. reflexivity.
Defined.

(** The handle of the main thread, on the other hand, refers to a
    thread object once the statics are initialised: a submission on it
    succeeds and queues the item on [mainThread]. *)
Lemma QueueUserAPC_accepts_main_thread :
  (_GetCurrentThread build_default host_ok (running build_default)).1
  = mainThread_addr /\
  (QueueUserAPC host_ok 5 mainThread_addr 0 (running build_default)).1 = 1 /\
  apc (mainThread
         (QueueUserAPC host_ok 5 mainThread_addr 0 (running build_default)).2)
  = [user_apc_item 5 0].
Proof.
  vm_compute. repeat split; reflexivity.
Qed.

(** *** User APC with a NULL callback *)

(** C10.  With a NULL callback, [QueueUserAPC] returns 1 whatever the
    handle and the data are, and leaves the whole world as it was: the
    handle is not looked at, no last error is set, nothing is logged or
    queued.  1 is also what a successful submission returns. *)
Theorem QueueUserAPC_null_callback_returns_1 :
  (forall host (hThread dwData : Z) (w : World),
      QueueUserAPC host NULL hThread dwData w = (1, w)) /\
  (forall host (pfnAPC hThread dwData : Z) (w : World) (t : WINPR_THREAD),
      pfnAPC <> NULL ->
      hThread <> NULL -> hThread <> INVALID_HANDLE_VALUE ->
      heap w !! hThread = Some t -> Type_ t = HANDLE_TYPE_THREAD ->
      host (trace w) (calloc sizeof_UserApcItem) <> NULL ->
      let r := QueueUserAPC host pfnAPC hThread dwData w in
      r.1 = 1 /\
      apc (obj r.2 hThread) = apc t ++ [user_apc_item pfnAPC dwData]).
Proof.
  split.
  - intros host hThread dwData w. reflexivity.
  - intros host pfnAPC h dwData w t Hf Hn Hi Hl Hty Hc r. subst r.
    apply Z.eqb_neq in Hf, Hn, Hi, Hc.
    destruct w as [hp bk nt tr0 le sf tl tlist once mt mid idx].
    cbn [heap trace] in Hl, Hc.
    unfold QueueUserAPC, winpr_Handle_GetInfo. wsimpl.
    rewrite Hf. wsimpl. rewrite Hn, Hi, Hl. wsimpl.
    unfold obj. wsimpl. rewrite (read_live _ _ _ Hl), Hty.
    change (HANDLE_TYPE_THREAD =? HANDLE_TYPE_THREAD) with true. wsimpl.
    rewrite Hc. wsimpl. split; [reflexivity |].
    rewrite (alter_live _ _ _ _ Hl), read_insert. reflexivity.
Qed.

(** A submission to the running thread of [running]. *)
Lemma QueueUserAPC_null_callback_returns_1_witness :
  (QueueUserAPC host_ok 5 1 0 (running build_default)).1 = 1.
Proof.
  apply (proj2 QueueUserAPC_null_callback_returns_1
           host_ok 5 1 0 (running build_default)
           (obj (running build_default) 1)).
  - unfold NULL. lia.
  - unfold NULL. lia.
  - unfold INVALID_HANDLE_VALUE. lia.
  - vm_compute. reflexivity.
  - vm_compute. reflexivity.
  - vm_compute. lia.
Defined.

(** ** More evaluation lemmas *)

Lemma since_same (w w' : World) : trace w' = trace w -> since w w' = [].
Proof. intros H. apply since_app. rewrite H, app_nil_r. reflexivity. Qed.

Lemma GetExitCodeThread_live (h : Z) (w : World) (t : WINPR_THREAD) :
  h <> NULL -> h <> INVALID_HANDLE_VALUE -> heap w !! h = Some t ->
  GetExitCodeThread h w = (Some (dwExitCode t), w).
Proof.
  intros Hn Hi Hl. apply Z.eqb_neq in Hn, Hi.
  unfold GetExitCodeThread, winpr_Handle_GetInfo, bind, load, get, ret, obj.
  rewrite Hn, Hi, Hl. cbn [orb]. rewrite (read_live _ _ _ Hl).
  reflexivity.
Qed.

(** Cases on whether the host answers 0 to the call [ev] the evaluation
    in [E] has reached, the answer staying visible in [H]. *)
Ltac host_case E ev H :=
  match type of E with
  | context [?f ?a ev] =>
      match type of f with
      | list Event -> Event -> Z =>
          let r := fresh "r" in
          set (r := f a ev) in E; unfold truth in E;
          destruct (r =? 0) eqn:H; try rewrite H in E; subst r
      end
  end;
  wnorm_in E.

(** Reading a flag through the updates of other fields. *)
Ltac flags_in E :=
  repeat match type of E with
  | context [detached (set_event_latch ?b ?x)] =>
      change (detached (set_event_latch b x)) with (detached x) in E
  | context [started (set_event_latch ?b ?x)] =>
      change (started (set_event_latch b x)) with (started x) in E
  | context [exited (set_event_latch ?b ?x)] =>
      change (exited (set_event_latch b x)) with (exited x) in E
  | context [detached (set_field F_dwExitCode ?b ?x)] =>
      change (detached (set_field F_dwExitCode b x)) with (detached x) in E
  | context [started (set_field F_dwExitCode ?b ?x)] =>
      change (started (set_field F_dwExitCode b x)) with (started x) in E
  | context [detached (set_apc ?b ?x)] =>
      change (detached (set_apc b x)) with (detached x) in E
  | context [started (set_apc ?b ?x)] =>
      change (started (set_apc b x)) with (started x) in E
  | context [exited (set_apc ?b ?x)] =>
      change (exited (set_apc b x)) with (exited x) in E
  end.

Lemma setup_no_release (evs : list Event) :
  forallb is_setup_call evs = true -> List.filter is_release evs = [].
Proof.
  induction evs as [|e evs IH]; [done |].
  cbn [forallb List.filter]. intros H. apply andb_prop in H as [He H].
  rewrite (IH H). by destruct e.
Qed.

(** The one-time initialisation makes setup calls only and touches the
    statics, the registry and the trace only. *)
Lemma InitOnce_setup cfg host (w : World) :
  exists evs tl' once' mt' mid' idx',
    InitOnceExecuteOnce_initializeThreads cfg host w
    = (tt, with_statics once' mt' mid' idx'
             (with_thread_list tl' (with_trace (fun tr => tr ++ evs) w))) /\
    forallb is_setup_call evs = true.
Proof.
  destruct (InitOnceExecuteOnce_initializeThreads cfg host w) as [u w'] eqn:E.
  destruct w as [hp bk nt tr0 le sf tl tlist once mt mid idx].
  unfold InitOnceExecuteOnce_initializeThreads, initializeThreads in E.
  wnorm_in E. destruct once; wnorm_in E.
  { inversion E; subst; clear E. exists [], tlist, true, mt, mid, idx.
    split; [wflat; rewrite app_nil_r; reflexivity | reflexivity]. }
  case_zero E (apc_init mainThread_addr) EA.
  { inversion E; subst; clear E. eexists _, _, _, _, _, _.
    split; [wflat; rewrite <- ?app_assoc; reflexivity | reflexivity]. }
  forget_host E.
  destruct (r0 =? TLS_OUT_OF_INDEXES); wnorm_in E;
    (destruct (WITH_THREAD_LIST cfg); wnorm_in E;
     [case_zero E ListDictionary_New EN |]);
    inversion E; subst; clear E; eexists _, _, _, _, _, _;
    (split; [wflat; rewrite <- ?app_assoc; reflexivity | reflexivity]).
Qed.

Ltac start_done E :=
  inversion E; subst; clear E;
  eexists _, _, _, _, _; split; [wflat; rewrite <- ?app_assoc; reflexivity |];
  split; [repeat split; reflexivity |]; reflexivity.

(** The start sequence on a live object makes setup calls only. *)
Lemma winpr_StartThread_setup cfg host (h : Z) (w : World) (t : WINPR_THREAD) :
  heap w !! h = Some t ->
  exists ok evs t' nt' tl',
    winpr_StartThread cfg host h w
    = (ok, with_heap (insert h t')
             (with_next_tid nt'
                (with_thread_list tl' (with_trace (fun tr => tr ++ evs) w)))) /\
    start_marks t t' /\
    forallb is_setup_call evs = true.
Proof.
  intros Hl.
  destruct (winpr_StartThread cfg host h w) as [ok w'] eqn:E.
  destruct w as [hp bk nt tr0 le sf tl tlist once mt mid idx].
  cbn [heap] in Hl.
  unfold winpr_StartThread in E. wnorm_in E.
  rewrite (read_live _ _ _ Hl) in E.
  destruct (0 <? dwStackSize t); wnorm_in E.
  all: rewrite (alter_live _ _ _ _ Hl) in E.
  all: case_zero E (winpr_event_reset h) ER; rewrite ?alter_insert_eq in E.
  all: case_zero E (pthread_mutex_lock h threadReadyMutex) EL.
  all: try start_done E.
  all: destruct (WITH_THREAD_LIST cfg);
    [unfold do_ListDictionary_Add in E; wnorm_in E;
     destruct tlist as [l|]; wnorm_in E;
     [case_zero E (ListDictionary_Add h) EA |] |]; wnorm_in E.
  all: try start_done E.
  all: unfold do_pthread_create in E; wnorm_in E;
    case_zero E (pthread_create h) EC;
    rewrite ?alter_insert_eq in E.
  all: try start_done E.
  all: case_zero E (pthread_mutex_unlock h threadReadyMutex) EU.
  all: try start_done E.
  all: case_zero E (pthread_cond_signal h threadIsReady) ES.
  all: start_done E.
Qed.

Ltac use_InitOnce_setup E :=
  match type of E with
  | context [InitOnceExecuteOnce_initializeThreads ?cfg ?host ?W] =>
      let evs := fresh "evs" in
      let EI := fresh "EI" in
      let Hq := fresh "Hq" in
      destruct (InitOnce_setup cfg host W)
        as (evs & ? & ? & ? & ? & ? & EI & Hq);
      rewrite EI in E; clear EI; wnorm_in E
  end.

Ltac use_StartThread_setup E Hl :=
  match type of E with
  | context [winpr_StartThread ?cfg ?host ?h ?W] =>
      let ok := fresh "ok" in
      let evs := fresh "evs" in
      let t' := fresh "t'" in
      let ES := fresh "ES" in
      let Hm := fresh "Hm" in
      let Hq := fresh "Hq" in
      destruct (winpr_StartThread_setup cfg host h W _ Hl)
        as (ok & evs & t' & ? & ? & ES & Hm & Hq);
      rewrite ES in E; clear ES; wnorm_in E
  end.

Ltac filter_releases :=
  rewrite ?List.filter_app;
  repeat match goal with
  | H : forallb is_setup_call ?e = true |- context [List.filter is_release ?e] =>
      rewrite (setup_no_release e H)
  | H : List.filter is_release ?e = _ |- context [List.filter is_release ?e] =>
      rewrite H
  end;
  reflexivity.

(** A failure path of [CreateThread] after the allocation: the teardown
    runs and the result is NULL. *)
Ltac create_fails E Hn :=
  use_cleanup E Hn; inversion E; subst; clear E;
  eexists _, _, _, _, _, _, _, _, _;
  (split; [wflat; rewrite ?delete_insert_eq, <- ?app_assoc; reflexivity |]);
  right; left; split; [reflexivity |]; split; [reflexivity |];
  filter_releases.

(** The three outcomes of [CreateThread], whatever the host answers: the
    allocation fails and nothing else is done; a later step fails and
    the object is torn down; or the handle of a new object is
    returned. *)
Lemma CreateThread_outcome cfg host (attrs stack fn arg flags tidp : Z) (w : World) :
  let h := Zpos (brk w) in
  exists evs hp' bk' nt' tl' once' mt' mid' idx',
    let c := CreateThread cfg host attrs stack fn arg flags tidp w in
    c.2 = with_heap (fun _ => hp')
            (with_brk bk'
               (with_next_tid nt'
                  (with_statics once' mt' mid' idx'
                     (with_thread_list tl'
                        (with_trace (fun tr => tr ++ evs) w))))) /\
    ((c.1 = NULL /\ hp' = heap w /\ evs = [calloc sizeof_WINPR_THREAD]) \/
     (c.1 = NULL /\ hp' = delete h (heap w) /\
      List.filter is_release evs = releases h) \/
     (c.1 = h /\ exists t, hp' = <[h := t]> (heap w) /\
                           created attrs stack fn arg flags t /\
                           List.filter is_release evs = [])).
Proof.
  intros h. subst h.
  destruct (CreateThread cfg host attrs stack fn arg flags tidp w)
    as [c1 w'] eqn:E.
  cbn [fst snd].
  destruct w as [hp bk nt tr0 le sf tl tlist once mt mid idx].
  cbn [brk heap].
  assert (Hn : Z.pos bk <> NULL) by discriminate.
  unfold CreateThread, calloc_WINPR_THREAD in E. wnorm_in E.
  case_zero E (calloc sizeof_WINPR_THREAD) EC.
  { inversion E; subst; clear E. eexists _, _, _, _, _, _, _, _, _.
    split; [wflat; reflexivity |]. left. repeat split. }
  change (Z.pos bk =? NULL) with false in E. wnorm_in E.
  rewrite ?alter_insert_eq in E.
  case_zero E (winpr_event_init (Z.pos bk)) E1; [create_fails E Hn |].
  case_zero E (pthread_mutex_init (Z.pos bk) mutex) E2; [| create_fails E Hn].
  case_zero E (apc_init (Z.pos bk)) E3; [create_fails E Hn |].
  case_zero E (pthread_mutex_init (Z.pos bk) threadIsReadyMutex) E4;
    [| create_fails E Hn].
  case_zero E (pthread_mutex_init (Z.pos bk) threadReadyMutex) E5;
    [| create_fails E Hn].
  case_zero E (pthread_cond_init (Z.pos bk) threadIsReady) E6;
    [| create_fails E Hn].
  case_zero E (pthread_cond_init (Z.pos bk) threadReady) E7;
    [| create_fails E Hn].
  rewrite ?alter_insert_eq in E.
  use_InitOnce_setup E.
  destruct (Z.land flags CREATE_SUSPENDED =? 0) eqn:Hfl; wnorm_in E.
  - use_StartThread_setup E (lookup_insert_eq hp (Z.pos bk)
      (set_field F_Mode WINPR_FD_READ
         (set_field F_Type HANDLE_TYPE_THREAD
            (set_field F_lpThreadAttributes attrs
               (set_field F_lpStartAddress fn
                  (set_field F_lpParameter arg
                     (set_field F_dwStackSize stack zeroed))))))).
    destruct ok; wnorm_in E; [| create_fails E Hn].
    inversion E; subst; clear E.
    eexists _, _, _, _, _, _, _, _, _.
    split; [wflat; rewrite ?insert_insert_eq, <- ?app_assoc; reflexivity |].
    right; right. split; [reflexivity |]. exists t'.
    split; [reflexivity |].
    split; [| filter_releases].
    destruct Hm as (Hs & Hty & Hmo & Hd & Hj & Hex & Hc & Hst & Hp & Hf & Hat & Hap).
    unfold created. rewrite Hfl.
    repeat split; try assumption.
    intros Hne. apply Z.eqb_eq in Hfl. contradiction.
  - case_zero E (winpr_event_set (Z.pos bk)) ES; [create_fails E Hn |].
    rewrite ?alter_insert_eq in E.
    inversion E; subst; clear E.
    eexists _, _, _, _, _, _, _, _, _.
    split; [wflat; rewrite ?insert_insert_eq, <- ?app_assoc; reflexivity |].
    right; right. split; [reflexivity |]. eexists.
    split; [reflexivity |].
    split; [| filter_releases].
    unfold created. rewrite Hfl. repeat split.
Qed.

(** The code of the launcher from the label [exit] on, run on a live
    object, whatever the host answers. *)
Lemma thread_launcher_exit_spec cfg host (h rc : Z) (w : World) (t : WINPR_THREAD) :
  h <> NULL -> heap w !! h = Some t ->
  exists latch rel tl',
    thread_launcher_exit cfg host h rc w
    = (tt, with_heap
             (fun hp => if detached t || negb (started t)
                        then delete h hp
                        else <[h := exit_object rc latch t]> hp)
             (with_thread_list tl'
                (with_trace (fun tr => tr ++ exit_calls h rc t ++ rel) w))) /\
    ((forall tr, host tr (winpr_event_set h) <> 0) -> latch = true) /\
    (if detached t || negb (started t)
     then List.filter is_release rel = releases h
     else rel = [] /\ tl' = thread_list w).
Proof.
  intros Hn Hl.
  destruct (thread_launcher_exit cfg host h rc w) as [u w'] eqn:E.
  destruct w as [hp bk nt tr0 le sf tl tlist once mt mid idx].
  cbn [heap] in Hl.
  unfold thread_launcher_exit in E. wnorm_in E.
  rewrite (alter_live _ _ _ _ Hl), ?read_insert in E.
  flags_in E.
  unfold exit_calls, exit_object.
  destruct (exited t) eqn:Ex; wnorm_in E; rewrite ?alter_insert_eq in E.
  all: host_case E (winpr_event_set h) ES;
    [pose (latch := false) | pose (latch := true)].
  all: rewrite ?alter_insert_eq, ?read_insert in E.
  all: flags_in E.
  all: destruct (detached t) eqn:Ed, (started t) eqn:Est; wnorm_in E.
  all: try use_cleanup E Hn.
  all: inversion E; subst; clear E.
  all: exists latch; subst latch.
  all: try (exists evs, tl'); try (exists [], tlist).
  all: cbn [orb negb].
  all: (split; [wflat; rewrite ?delete_insert_eq, ?app_nil_r, <- ?app_assoc;
                reflexivity |]).
  all: split; [| first [exact Hrel | split; reflexivity]].
  all: try (intros _; reflexivity).
  all: intros HS; apply Z.eqb_eq in ES; exfalso; exact (HS _ ES).
Qed.

Ltac exit_world E :=
  match type of E with
  | thread_launcher_exit _ _ _ _ ?W0 = _ => exists W0
  end.

Ltac call_world E user :=
  match type of E with
  | context [user _ _ (Build_World ?a ?b ?c (?T ++ _) ?d ?e ?f ?g ?i ?j ?k ?l)] =>
      exists (Build_World a b c T d e f g i j k l)
  end.

Ltac split_user user :=
  match goal with
  | |- context [user ?f ?p ?W1] => destruct (user f p W1) as [[?|] ?]
  end.

Ltac handshake_failed E :=
  exit_world E;
  (split; [reflexivity |]);
  (split; [eexists; split; [cbn [trace]; rewrite <- ?app_assoc; reflexivity
                           | reflexivity] |]);
  left; symmetry; exact E.

(** A run of the launcher on a live object, whatever the host answers:
    after calls that change the trace and the current-thread slot only,
    it either goes to the label [exit] with the exit code 0, or calls
    the start routine and, when that returns, goes to [exit] with its
    result. *)
Lemma thread_launcher_cases cfg host user (h : Z) (w : World) (t : WINPR_THREAD) :
  h <> NULL -> heap w !! h = Some t ->
  exists W,
    W = with_tls (fun _ => tls W) (with_trace (fun _ => trace W) w) /\
    (exists pre, trace W = trace w ++ pre /\
                 forallb (fun e => negb (is_Call_start e)) pre = true) /\
    (thread_launcher cfg host user h w = thread_launcher_exit cfg host h 0 W \/
     (lpStartAddress t <> NULL /\
      tls W = <[self w := h]> (tls w) /\
      thread_launcher cfg host user h w
      = (let '(res, wc) :=
           user (lpStartAddress t) (lpParameter t)
             (with_trace
                (fun tr => tr ++ [Call_start (lpStartAddress t) (lpParameter t)])
                W) in
         match res with
         | Some rc => thread_launcher_exit cfg host h rc wc
         | None => (tt, wc)
         end))).
Proof.
  intros Hn Hl. assert (Hn' := Hn). apply Z.eqb_neq in Hn'.
  destruct (thread_launcher cfg host user h w) as [u w'] eqn:E.
  destruct w as [hp bk nt tr0 le sf tl tlist once mt mid idx].
  cbn [heap] in Hl.
  unfold thread_launcher in E. rewrite Hn' in E. wnorm_in E.
  unfold do_TlsSetValue in E. wnorm_in E.
  case_zero E (TlsSetValue idx h) ET; [handshake_failed E |].
  rewrite (read_live _ _ _ Hl) in E.
  destruct (lpStartAddress t =? NULL) eqn:Ef; wnorm_in E;
    [handshake_failed E |].
  case_zero E (pthread_mutex_lock h threadIsReadyMutex) EL;
    [| handshake_failed E].
  case_zero E (pthread_cond_signal h threadReady) ES;
    [| handshake_failed E].
  destruct (WITH_THREAD_LIST cfg);
    [unfold ListDictionary_Contains in E; wnorm_in E;
     destruct tlist as [l|]; wnorm_in E; [case_if E |] |];
    wnorm_in E; try (handshake_failed E).
  all: case_zero E (pthread_mutex_unlock h threadIsReadyMutex) EU;
    [| handshake_failed E].
  all: unfold call_start in E; wnorm_in E.
  all: rewrite ?(read_live _ _ _ Hl) in E.
  all: call_world E user.
  all: (split; [reflexivity |]).
  all: (split; [eexists; split; [cbn [trace]; rewrite <- ?app_assoc; reflexivity
                                | reflexivity] |]).
  all: right; split; [apply Z.eqb_neq; exact Ef |]; split; [reflexivity |].
  all: rewrite <- E; wflat.
  all: split_user user; reflexivity.
Qed.

Lemma cases_heap (w W : World) f g :
  W = with_tls f (with_trace g w) -> heap W = heap w.
Proof. intros ->. destruct w. reflexivity. Qed.

Lemma thread_launcher_keeps_recorded_exit cfg host user (h : Z) (w : World)
      (t : WINPR_THREAD) :
  h <> NULL -> heap w !! h = Some t ->
  exited t = true -> detached t = false -> started t = true ->
  keeps_object user h ->
  exists t2, heap (thread_launcher cfg host user h w).2 !! h = Some t2 /\
             dwExitCode t2 = dwExitCode t /\ exited t2 = true.
Proof.
  intros Hn Hl Hex Hd Hs Hk.
  destruct (thread_launcher_cases cfg host user h w t Hn Hl)
    as (W & HW & _ & [E | (_ & _ & E)]); rewrite E; clear E.
  - apply cases_heap in HW. rewrite <- HW in Hl.
    destruct (thread_launcher_exit_spec cfg host h 0 W t Hn Hl)
      as (latch & rel & tl' & E & _ & _).
    rewrite E, Hd, Hs. cbn [snd orb negb]. clear E.
    eexists. split; [destruct W; wflat; apply lookup_insert_eq |].
    unfold exit_object. rewrite Hex.
    destruct latch; (split; [reflexivity | exact Hex]).
  - apply cases_heap in HW. rewrite <- HW in Hl.
    match goal with
    | |- context [user ?f ?a ?W1] =>
        assert (Hl1 : heap W1 !! h = Some t) by (destruct W; exact Hl);
        destruct (Hk f a W1 t Hl1) as (t' & Hl' & Hex' & Hd' & Hs' & Hc');
        destruct (user f a W1) as [[rc|] wc]
    end; cbn [snd] in Hl'.
    + destruct (thread_launcher_exit_spec cfg host h rc wc t' Hn Hl')
        as (latch & rel & tl' & E & _ & _).
      rewrite E, Hd', Hs', Hd, Hs. cbn [snd orb negb]. clear E.
      eexists. split; [destruct wc; wflat; apply lookup_insert_eq |].
      unfold exit_object. rewrite Hex', Hex.
      destruct latch; (split; [exact Hc' | exact (eq_trans Hex' Hex)]).
    + exists t'. cbn [snd]. repeat split; congruence.
Qed.

(** [TerminateThread] on a valid handle records the exit whatever the
    host answers. *)
Lemma TerminateThread_records cfg host (h code : Z) (w : World) (t : WINPR_THREAD) :
  h <> NULL -> h <> INVALID_HANDLE_VALUE -> heap w !! h = Some t ->
  exists latch evs,
    (TerminateThread cfg host h code w).2
    = with_heap (insert h
        ((if latch : bool then set_event_latch true else id)
           (set_field F_dwExitCode code (set_field F_exited TRUE t))))
        (with_trace (fun tr => tr ++ evs) w).
Proof.
  intros Hn Hi Hl. apply Z.eqb_neq in Hn, Hi.
  destruct (TerminateThread cfg host h code w) as [ok w'] eqn:E. cbn [snd].
  destruct w as [hp bk nt tr0 le sf tl tlist once mt mid idx].
  cbn [heap] in Hl.
  unfold TerminateThread, winpr_Handle_GetInfo in E. wnorm_in E.
  rewrite Hn, Hi, Hl in E. wnorm_in E.
  rewrite (alter_live _ _ _ _ Hl), alter_insert_eq in E.
  case_zero E (pthread_mutex_lock h mutex) EL.
  - destruct (ANDROID cfg); wnorm_in E;
      (case_zero E (pthread_mutex_unlock h mutex) EU;
       [case_zero E (winpr_event_set h) ES |]);
      rewrite ?alter_insert_eq in E;
      inversion E; subst; clear E;
      first [ exists true; eexists; wflat; rewrite <- ?app_assoc; reflexivity
            | exists false; eexists; wflat; rewrite <- ?app_assoc; reflexivity ].
  - inversion E; subst; clear E.
    exists false; eexists; wflat; rewrite <- ?app_assoc; reflexivity.
Qed.

Lemma thread_launcher_destroys_detached cfg host user (h : Z) (w : World)
      (t : WINPR_THREAD) :
  h <> NULL -> heap w !! h = Some t ->
  detached t || negb (started t) = true ->
  keeps_object user h -> returns user ->
  heap (thread_launcher cfg host user h w).2 !! h = None.
Proof.
  intros Hn Hl Hgo Hk Hr.
  destruct (thread_launcher_cases cfg host user h w t Hn Hl)
    as (W & HW & _ & [E | (_ & _ & E)]); rewrite E; clear E.
  - apply cases_heap in HW. rewrite <- HW in Hl.
    destruct (thread_launcher_exit_spec cfg host h 0 W t Hn Hl)
      as (latch & rel & tl' & E & _ & _).
    rewrite E, Hgo. cbn [snd]. destruct W; wflat. apply lookup_delete_eq.
  - apply cases_heap in HW. rewrite <- HW in Hl.
    match goal with
    | |- context [user ?f ?a ?W1] =>
        assert (Hl1 : heap W1 !! h = Some t) by (destruct W; exact Hl);
        destruct (Hk f a W1 t Hl1) as (t' & Hl' & Hex' & Hd' & Hs' & Hc');
        specialize (Hr f a W1);
        destruct (user f a W1) as [[rc|] wc]
    end; cbn [fst snd] in Hl', Hr; [| congruence].
    destruct (thread_launcher_exit_spec cfg host h rc wc t' Hn Hl')
      as (latch & rel & tl' & E & _ & _).
    rewrite E, Hd', Hs', Hgo. cbn [snd]. destruct wc; wflat.
    apply lookup_delete_eq.
Qed.

(** [ResumeThread] on a started thread, whatever the host answers. *)
Lemma ResumeThread_started_spawns_nothing cfg host (h : Z) (w : World)
      (t : WINPR_THREAD) :
  h <> NULL -> h <> INVALID_HANDLE_VALUE -> heap w !! h = Some t ->
  started t = true ->
  let r := ResumeThread cfg host h w in
  existsb (is_pthread_create h) (since w r.2) = false /\
  heap r.2 = heap w /\
  ((forall tr, host tr (pthread_mutex_lock h mutex) = 0) ->
   (forall tr, host tr (pthread_mutex_unlock h mutex) = 0) -> r.1 = 0).
Proof.
  intros Hn Hi Hl Hs r. subst r. apply Z.eqb_neq in Hn, Hi.
  destruct (ResumeThread cfg host h w) as [res w'] eqn:E.
  destruct w as [hp bk nt tr0 le sf tl tlist once mt mid idx].
  cbn [heap] in Hl.
  unfold ResumeThread, winpr_Handle_GetInfo in E. wnorm_in E.
  rewrite Hn, Hi, Hl in E. wnorm_in E.
  host_case E (pthread_mutex_lock h mutex) EL.
  - rewrite (read_live _ _ _ Hl), Hs in E. wnorm_in E.
    host_case E (pthread_mutex_unlock h mutex) EU;
      inversion E; subst; clear E; cbn [fst snd];
      (erewrite since_app by (wflat; rewrite <- ?app_assoc; reflexivity));
      (split; [reflexivity |]); (split; [reflexivity |]); intros HL HU;
      [reflexivity |].
    rewrite HU in EU. discriminate EU.
  - inversion E; subst; clear E; cbn [fst snd].
    (erewrite since_app by (wflat; rewrite <- ?app_assoc; reflexivity)).
    split; [reflexivity |]. split; [reflexivity |]. intros HL HU.
    rewrite HL in EL. discriminate EL.
Qed.

Lemma lock_run_app host h0 m (a b : list Event) :
  forall pre held,
    lock_run host h0 m pre (a ++ b) held
    = match lock_run host h0 m pre a held with
      | Some x => lock_run host h0 m (pre ++ a) b x
      | None => None
      end.
Proof.
  induction a as [|e a IH]; intros pre held.
  - cbn. rewrite app_nil_r. reflexivity.
  - assert (Hpre : (pre ++ [e]) ++ a = pre ++ e :: a)
      by (rewrite <- app_assoc; reflexivity).
    cbn [app lock_run].
    destruct e; rewrite ?IH, ?Hpre; try reflexivity.
    + destruct ((h =? h0) && mutex_id_eqb m0 m); [destruct held |];
        rewrite ?IH, ?Hpre; reflexivity.
    + destruct ((h =? h0) && mutex_id_eqb m0 m); [destruct held |];
        rewrite ?IH, ?Hpre; reflexivity.
    + destruct ((h =? h0) && mutex_id_eqb m0 m && negb held);
        rewrite ?IH, ?Hpre; reflexivity.
    + destruct held; rewrite ?IH, ?Hpre; reflexivity.
Qed.

Ltac lock_eval Eh EL :=
  repeat (progress (cbn [lock_run mutex_id_eqb andb negb app];
                    rewrite ?Eh, ?EL)).

Ltac start_locks E EL :=
  inversion E; subst; clear E;
  eexists; split; [cbn [snd trace]; rewrite <- ?app_assoc; reflexivity |];
  let h0 := fresh "h0" in let m := fresh "m" in let held := fresh "held" in
  let Eh := fresh "Eh" in
  intros h0 m held; unfold start_effect; cbn [trace];
  destruct (_ =? h0) eqn:Eh; destruct m, held;
  lock_eval Eh EL; reflexivity.

(** What the start sequence does to the mutexes, whatever the host
    answers. *)
Lemma winpr_StartThread_locks cfg host (h : Z) (w : World) :
  exists evs,
    trace (winpr_StartThread cfg host h w).2 = trace w ++ evs /\
    forall h0 m held,
      lock_run host h0 m (trace w) evs held = start_effect h h0 m held.
Proof.
  destruct (winpr_StartThread cfg host h w) as [ok w'] eqn:E.
  destruct w as [hp bk nt tr0 le sf tl tlist once mt mid idx].
  unfold winpr_StartThread in E. wnorm_in E.
  destruct (0 <? dwStackSize (read hp mt h)); wnorm_in E.
  all: host_case E (winpr_event_reset h) ER; idtac.
  all: host_case E (pthread_mutex_lock h threadReadyMutex) EL.
  all: try (start_locks E EL).
  all: destruct (WITH_THREAD_LIST cfg);
    [unfold do_ListDictionary_Add in E; wnorm_in E;
     destruct tlist as [l|]; wnorm_in E;
     [host_case E (ListDictionary_Add h) EA |] |]; wnorm_in E.
  all: try (start_locks E EL).
  all: unfold do_pthread_create in E; wnorm_in E;
    host_case E (pthread_create h) EC.
  all: try (start_locks E EL).
  all: host_case E (pthread_mutex_unlock h threadReadyMutex) EU.
  all: try (start_locks E EL).
  all: host_case E (pthread_cond_signal h threadIsReady) ES.
  all: start_locks E EL.
Qed.

Lemma TerminateThread_discipline cfg host (h code : Z) (w : World)
      (h0 : Z) (m : mutex_id) :
  lock_discipline host h0 m (trace w)
    (since w (TerminateThread cfg host h code w).2).
Proof.
  destruct (TerminateThread cfg host h code w) as [ok w'] eqn:E. cbn [snd].
  destruct w as [hp bk nt tr0 le sf tl tlist once mt mid idx].
  unfold TerminateThread, winpr_Handle_GetInfo in E. wnorm_in E.
  destruct (h =? NULL) eqn:Hn; wnorm_in E;
    [inversion E; subst; clear E; rewrite since_same by reflexivity; reflexivity |].
  destruct (h =? INVALID_HANDLE_VALUE) eqn:Hi; wnorm_in E;
    [inversion E; subst; clear E; rewrite since_same by reflexivity; reflexivity |].
  destruct (hp !! h) as [t|] eqn:Hl; wnorm_in E;
    [| destruct (h =? mainThread_addr) eqn:Hm; wnorm_in E;
       [| inversion E; subst; clear E; rewrite since_same by reflexivity;
          reflexivity]].
  all: host_case E (pthread_mutex_lock h mutex) EL;
    [destruct (ANDROID cfg); wnorm_in E;
     host_case E (pthread_mutex_unlock h mutex) EU;
     try host_case E (winpr_event_set h) ES |];
    inversion E; subst; clear E;
    (erewrite since_app by (wflat; rewrite <- ?app_assoc; reflexivity));
    unfold lock_discipline; cbn [trace];
    destruct (h =? h0) eqn:Eh; destruct m; lock_eval Eh EL; reflexivity.
Qed.

Lemma ThreadCleanupHandle_discipline host (h : Z) (w : World)
      (h0 : Z) (m : mutex_id) :
  lock_discipline host h0 m (trace w)
    (since w (ThreadCleanupHandle host h w).2).
Proof.
  destruct (ThreadCleanupHandle host h w) as [res w'] eqn:E. cbn [snd].
  destruct w as [hp bk nt tr0 le sf tl tlist once mt mid idx].
  unfold ThreadCleanupHandle, ThreadIsHandled in E. wnorm_in E.
  destruct (h =? NULL) eqn:Hn; wnorm_in E;
    [inversion E; subst; clear E;
     (erewrite since_app by (wflat; rewrite <- ?app_assoc; reflexivity));
     reflexivity |].
  destruct (Type_ (read hp mt h) =? HANDLE_TYPE_THREAD) eqn:Hty; wnorm_in E;
    [| inversion E; subst; clear E;
       (erewrite since_app by (wflat; rewrite <- ?app_assoc; reflexivity));
       reflexivity].
  host_case E (pthread_mutex_lock h mutex) EL.
  2:{ inversion E; subst; clear E;
      (erewrite since_app by (wflat; rewrite <- ?app_assoc; reflexivity));
      unfold lock_discipline; cbn [trace];
      destruct (h =? h0) eqn:Eh; destruct m; lock_eval Eh EL; reflexivity. }
  destruct (joined (read hp mt h)) eqn:Ej; wnorm_in E.
  - host_case E (pthread_mutex_unlock h mutex) EU;
      inversion E; subst; clear E;
      (erewrite since_app by (wflat; rewrite <- ?app_assoc; reflexivity));
      unfold lock_discipline; cbn [trace];
      destruct (h =? h0) eqn:Eh; destruct m; lock_eval Eh EL; reflexivity.
  - host_case E (pthread_join (thread (read hp mt h))) EJ;
      [host_case E (pthread_mutex_unlock h mutex) EU |];
      inversion E; subst; clear E;
      (erewrite since_app by (wflat; rewrite <- ?app_assoc; reflexivity));
      unfold lock_discipline; cbn [trace];
      destruct (h =? h0) eqn:Eh; destruct m; lock_eval Eh EL; reflexivity.
Qed.

Lemma ResumeThread_discipline cfg host (h : Z) (w : World)
      (h0 : Z) (m : mutex_id) :
  lock_discipline host h0 m (trace w)
    (since w (ResumeThread cfg host h w).2).
Proof.
  destruct (ResumeThread cfg host h w) as [res w'] eqn:E. cbn [snd].
  destruct w as [hp bk nt tr0 le sf tl tlist once mt mid idx].
  unfold ResumeThread, winpr_Handle_GetInfo in E. wnorm_in E.
  destruct (h =? NULL) eqn:Hn; wnorm_in E;
    [inversion E; subst; clear E; rewrite since_same by reflexivity; reflexivity |].
  destruct (h =? INVALID_HANDLE_VALUE) eqn:Hi; wnorm_in E;
    [inversion E; subst; clear E; rewrite since_same by reflexivity; reflexivity |].
  destruct (hp !! h) as [t|] eqn:Hl; wnorm_in E;
    [| destruct (h =? mainThread_addr) eqn:Hm; wnorm_in E;
       [| inversion E; subst; clear E; rewrite since_same by reflexivity;
          reflexivity]].
  all: host_case E (pthread_mutex_lock h mutex) EL;
    [| inversion E; subst; clear E;
       (erewrite since_app by (wflat; rewrite <- ?app_assoc; reflexivity));
       unfold lock_discipline; cbn [trace];
       destruct (h =? h0) eqn:Eh; destruct m; lock_eval Eh EL; reflexivity].
  all: destruct (started (read hp mt h)) eqn:Es; wnorm_in E;
    [host_case E (pthread_mutex_unlock h mutex) EU;
     inversion E; subst; clear E;
     (erewrite since_app by (wflat; rewrite <- ?app_assoc; reflexivity));
     unfold lock_discipline; cbn [trace];
     destruct (h =? h0) eqn:Eh; destruct m; lock_eval Eh EL; reflexivity |].
  all: match type of E with
       | context [winpr_StartThread ?c ?f ?x ?W] =>
           destruct (winpr_StartThread_locks c f x W) as (evs & Htr & Hrun);
           destruct (winpr_StartThread c f x W) as [ok W2]
       end.
  all: cbn [snd trace] in Htr, Hrun.
  all: destruct W2 as [hp2 bk2 nt2 tr2 le2 sf2 tl2 tlist2 once2 mt2 mid2 idx2].
  all: cbn [trace] in Htr; subst tr2; wnorm_in E.
  all: destruct ok; wnorm_in E;
      [host_case E (pthread_mutex_unlock h mutex) EU |];
      inversion E; subst; clear E;
      (erewrite since_app by (wflat; rewrite <- ?app_assoc; reflexivity));
      unfold lock_discipline; cbn [trace];
      change (pthread_mutex_lock h mutex :: evs ++ [pthread_mutex_unlock h mutex])
        with ([pthread_mutex_lock h mutex] ++ evs ++ [pthread_mutex_unlock h mutex]);
      rewrite !lock_run_app;
      cbn [lock_run app]; rewrite ?EL;
      destruct (h =? h0) eqn:Eh; destruct m;
      cbn [mutex_id_eqb andb negb]; rewrite ?EL;
      rewrite lock_run_app, Hrun;
      unfold start_effect; rewrite ?Eh; cbn [mutex_id_eqb andb negb lock_run];
      rewrite ?Eh; reflexivity.
Qed.

(** Calls that are none on a mutex, made with the mutex released,
    leave it released. *)
Lemma lock_run_quiet host h0 m (evs : list Event) :
  forallb (fun e => negb (is_mutex_call e)) evs = true ->
  forall pre, lock_run host h0 m pre evs false = Some false.
Proof.
  induction evs as [|e evs IH]; [reflexivity |].
  cbn [forallb]. intros H pre. apply andb_prop in H as [He H].
  destruct e; try discriminate He; cbn [lock_run]; apply (IH H).
Qed.

Lemma no_mutex_log (b : bool) lvl msg :
  forallb (fun e => negb (is_mutex_call e))
    (if b then [WLog lvl msg] else []) = true.
Proof. by destruct b. Qed.

Lemma cleanup_handle_no_mutex cfg host (h : Z) (w : World) :
  h <> NULL ->
  exists evs,
    trace (cleanup_handle cfg host h w).2 = trace w ++ evs /\
    forallb (fun e => negb (is_mutex_call e)) evs = true.
Proof.
  intros Hn. apply Z.eqb_neq in Hn.
  destruct (cleanup_handle cfg host h w) as [u w'] eqn:E.
  destruct w as [hp bk nt tr0 le sf tl tlist once mt mid idx].
  unfold cleanup_handle in E. rewrite Hn in E. unfold WLog_ERR in E.
  repeat (first [ progress wsimpl_in E | forget_host E
                | rewrite bind_when_emit in E ]).
  wflat_in E.
  destruct (WITH_THREAD_LIST cfg);
    [unfold do_ListDictionary_Remove in E; destruct tlist |];
    wnorm_in E; inversion E; subst; clear E;
    eexists; cbn [snd trace];
    (split; [rewrite <- ?app_assoc; reflexivity |]);
    rewrite ?forallb_app, ?no_mutex_log; reflexivity.
Qed.

Lemma thread_launcher_exit_no_mutex cfg host (h rc : Z) (w : World) :
  h <> NULL ->
  exists evs,
    trace (thread_launcher_exit cfg host h rc w).2 = trace w ++ evs /\
    forallb (fun e => negb (is_mutex_call e)) evs = true.
Proof.
  intros Hn.
  destruct (thread_launcher_exit cfg host h rc w) as [u w'] eqn:E.
  destruct w as [hp bk nt tr0 le sf tl tlist once mt mid idx].
  unfold thread_launcher_exit in E. wnorm_in E.
  case_if E; (host_case E (winpr_event_set h) ES);
    repeat case_if E;
    try (match type of E with
         | context [cleanup_handle ?c ?ho ?hh ?W] =>
             destruct (cleanup_handle_no_mutex c ho hh W Hn) as (evs & Etr & Hq);
             destruct (cleanup_handle c ho hh W) as [uu W2]; cbn [snd] in Etr
         end);
    inversion E; subst; clear E; eexists; cbn [snd];
    (split; [rewrite ?Etr; cbn [trace]; rewrite <- ?app_assoc; reflexivity |]);
    rewrite ?forallb_app, ?Hq; reflexivity.
Qed.

(** The end of a launcher run that goes to the label [exit] without
    having called the start routine. *)
Ltac exit_locks E Hn Eh EL :=
  match type of E with
  | thread_launcher_exit ?cfg ?host ?h ?rc ?W = (_, ?w') =>
      let evs := fresh "evs" in
      let Etr := fresh "Etr" in
      let Hq := fresh "Hq" in
      destruct (thread_launcher_exit_no_mutex cfg host h rc W Hn)
        as (evs & Etr & Hq);
      rewrite E in Etr; cbn [snd trace] in Etr;
      erewrite since_app
        by (rewrite Etr; cbn [trace]; rewrite <- ?app_assoc; reflexivity);
      unfold lock_discipline; cbn [trace];
      lock_eval Eh EL;
      rewrite ?(lock_run_quiet _ _ _ _ Hq); reflexivity
  end.

Ltac run_quiet_user E user Huser :=
  match type of E with
  | context [user ?f ?p ?W] =>
      let sfx := fresh "sfx" in
      let Hsfx := fresh "Hsfx" in
      let Hqs := fresh "Hqs" in
      let res := fresh "res" in
      let wc := fresh "wc" in
      let Eu := fresh "Eu" in
      destruct (Huser f p W) as (sfx & Hsfx & Hqs);
      destruct (user f p W) as [res wc] eqn:Eu;
      cbn [snd trace] in Hsfx; wnorm_in E
  end.

(** [ThreadCleanupHandle] on a thread object, whatever the host answers:
    [j] tells whether this call joined the thread. *)
Lemma ThreadCleanupHandle_spec host (h : Z) (w : World) (t : WINPR_THREAD) :
  h <> NULL -> heap w !! h = Some t -> Type_ t = HANDLE_TYPE_THREAD ->
  exists res evs (j : bool),
    ThreadCleanupHandle host h w
    = (res, with_heap (insert h (if j then set_field F_joined TRUE t else t))
              (with_trace (fun tr => tr ++ evs) w)) /\
    (res = WAIT_OBJECT_0 \/ res = WAIT_FAILED) /\
    (res = WAIT_OBJECT_0 -> joined t || j = true) /\
    (joined t = true -> j = false) /\
    (joined t = true -> existsb is_pthread_join evs = false) /\
    (j = true -> In (pthread_join (thread t)) evs).
Proof.
  intros Hn Hl Hty. apply Z.eqb_neq in Hn.
  destruct (ThreadCleanupHandle host h w) as [res w'] eqn:E.
  destruct w as [hp bk nt tr0 le sf tl tlist once mt mid idx].
  cbn [heap] in Hl.
  unfold ThreadCleanupHandle, ThreadIsHandled in E. wnorm_in E.
  rewrite (read_live _ _ _ Hl), Hn, Hty in E.
  change (HANDLE_TYPE_THREAD =? HANDLE_TYPE_THREAD) with true in E. wnorm_in E.
  host_case E (pthread_mutex_lock h mutex) EL.
  2:{ inversion E; subst; clear E. exists WAIT_FAILED, [pthread_mutex_lock h mutex], false.
      split; [wflat; rewrite (insert_id _ _ _ Hl); reflexivity |].
      repeat split; try tauto; try discriminate. }
  rewrite (read_live _ _ _ Hl) in E.
  destruct (joined t) eqn:Ej; wnorm_in E.
  - host_case E (pthread_mutex_unlock h mutex) EU;
      inversion E; subst; clear E; eexists _, _, false;
      (split; [wflat; rewrite (insert_id _ _ _ Hl), <- ?app_assoc; reflexivity |]);
      repeat split; try tauto; try discriminate.
  - rewrite (read_live _ _ _ Hl) in E.
    host_case E (pthread_join (thread t)) EJ.
    + rewrite (alter_live _ _ _ _ Hl) in E.
      host_case E (pthread_mutex_unlock h mutex) EU;
        inversion E; subst; clear E; eexists _, _, true;
        (split; [wflat; rewrite <- ?app_assoc; reflexivity |]);
        repeat split; try tauto; try discriminate;
        intros _; cbn; tauto.
    + inversion E; subst; clear E; eexists _, _, false.
      (split; [wflat; rewrite (insert_id _ _ _ Hl), <- ?app_assoc; reflexivity |]).
      repeat split; try tauto; try discriminate.
Qed.

Ltac attr_done E :=
  inversion E; subst; clear E; cbn [snd];
  (erewrite since_app by (wflat; rewrite <- ?app_assoc; reflexivity));
  repeat split; reflexivity.

(** ** Further properties *)

(** *** The handle operations *)

(** X1.  The handle operations check the handle first.  On NULL, or on
    a pointer to an object whose type is not HANDLE_TYPE_THREAD (an
    object of the heap, or the static [mainThread] before the statics
    are initialised), [ThreadIsHandled] returns FALSE, [ThreadGetFd]
    returns -1 and [ThreadCleanupHandle] returns WAIT_FAILED; each sets
    the last error to ERROR_INVALID_HANDLE and does nothing else: no
    lock, no join.  On a thread object, of the heap or the static
    [mainThread] once it is initialised, [ThreadIsHandled] returns TRUE
    and [ThreadGetFd] the read descriptor of the object's event, both
    leaving the world as it is. *)
Theorem handle_operations_check_the_handle :
  forall event_fd host (handle : Z) (w : World),
    (foreign_handle w handle ->
       ThreadIsHandled handle w = (false, refused w) /\
       ThreadGetFd event_fd handle w = (-1, refused w) /\
       ThreadCleanupHandle host handle w = (WAIT_FAILED, refused w)) /\
    (handle <> NULL -> Type_ (obj w handle) = HANDLE_TYPE_THREAD ->
       ThreadIsHandled handle w = (true, w) /\
       ThreadGetFd event_fd handle w = (event_fd handle, w)).
Proof.
  intros event_fd host handle w. split.
  - intros Hf.
    assert (E : ThreadIsHandled handle w = (false, refused w)).
    { destruct w as [hp bk nt tr0 le sf tl tlist once mt mid idx].
      unfold ThreadIsHandled, refused. wnorm.
      destruct Hf as [-> | Hty]; [reflexivity |].
      unfold obj in Hty. cbn [heap mainThread] in Hty. apply Z.eqb_neq in Hty.
      rewrite Hty. destruct (handle =? NULL); reflexivity. }
    split; [exact E |].
    split; [unfold ThreadGetFd | unfold ThreadCleanupHandle];
      unfold bind at 1; rewrite E; reflexivity.
  - intros Hn Hty. apply Z.eqb_neq in Hn.
    assert (E : ThreadIsHandled handle w = (true, w)).
    { destruct w as [hp bk nt tr0 le sf tl tlist once mt mid idx].
      unfold ThreadIsHandled. wnorm.
      unfold obj in Hty. cbn [heap mainThread] in Hty. rewrite Hn, Hty.
      reflexivity. }
    split; [exact E |].
    unfold ThreadGetFd, bind. rewrite E. reflexivity.
Qed.


(** The NULL handle; the running thread of [running]; and the handle of
    the main thread, the address of the static [mainThread], before the
    statics are initialised and after. *)
Lemma handle_operations_check_the_handle_witness :
  ThreadGetFd fd_of_address NULL boot = (-1, refused boot) /\
  ThreadGetFd fd_of_address 1 (running build_default)
  = (4, running build_default) /\
  ThreadIsHandled mainThread_addr boot = (false, refused boot) /\
  ThreadIsHandled mainThread_addr (running build_default)
  = (true, running build_default).
Proof.
  split; [| split; [| split]].
  - apply (proj1 (handle_operations_check_the_handle fd_of_address host_ok
                    NULL boot)).
    left. reflexivity.
  - apply (proj2 (handle_operations_check_the_handle fd_of_address host_ok
                    1 (running build_default))).
    + unfold NULL. lia.
    + vm_compute. reflexivity.
  - apply (proj1 (handle_operations_check_the_handle fd_of_address host_ok
                    mainThread_addr boot)).
    right. vm_compute. discriminate.
  - apply (proj2 (handle_operations_check_the_handle fd_of_address host_ok
                    mainThread_addr (running build_default))).
    + unfold NULL, mainThread_addr. lia.
    + vm_compute. reflexivity.
Defined.


(** X2.  [ThreadCleanupHandle] joins a thread at most once.  On a
    thread object it returns WAIT_OBJECT_0 or WAIT_FAILED, whatever the
    host answers.  When the object is already marked joined it calls no
    [pthread_join] and changes no object.  When it returns WAIT_OBJECT_0
    the object is marked joined, so that a second call, whatever the
    host answers then, calls no [pthread_join] and changes no object. *)
Theorem ThreadCleanupHandle_joins_once :
  forall host host' (h : Z) (w : World) (t : WINPR_THREAD),
    h <> NULL -> heap w !! h = Some t -> Type_ t = HANDLE_TYPE_THREAD ->
    let r1 := ThreadCleanupHandle host h w in
    let r2 := ThreadCleanupHandle host' h r1.2 in
    (r1.1 = WAIT_OBJECT_0 \/ r1.1 = WAIT_FAILED) /\
    (joined t = true ->
       existsb is_pthread_join (since w r1.2) = false /\ heap r1.2 = heap w) /\
    (r1.1 = WAIT_OBJECT_0 ->
       joined (obj r1.2 h) = true /\
       existsb is_pthread_join (since r1.2 r2.2) = false /\
       heap r2.2 = heap r1.2).
Proof.
  intros host host' h w t Hn Hl Hty r1 r2.
  destruct (ThreadCleanupHandle_spec host h w t Hn Hl Hty)
    as (res & evs & j & E1 & Hres & Hok & Hj & Hnone & _).
  assert (Hl1 : heap r1.2 !! h = Some (if j then set_field F_joined TRUE t else t))
    by (subst r1; rewrite E1; cbn [snd heap with_heap with_trace];
        apply lookup_insert_eq).
  assert (Hs1 : since w r1.2 = evs)
    by (subst r1; rewrite E1; apply since_app; reflexivity).
  assert (Hr1 : r1.1 = res) by (subst r1; rewrite E1; reflexivity).
  rewrite Hr1, Hs1.
  split; [exact Hres |]. split.
  - intros Ej. split; [exact (Hnone Ej) |].
    subst r1. rewrite E1, (Hj Ej). cbn [snd heap with_heap with_trace].
    apply (insert_id _ _ _ Hl).
  - intros Hres0. specialize (Hok Hres0).
    set (t1 := if j then set_field F_joined TRUE t else t) in *.
    assert (Hj1 : joined t1 = true).
    { subst t1. destruct j; [reflexivity |]. rewrite orb_false_r in Hok. exact Hok. }
    assert (Hty1 : Type_ t1 = HANDLE_TYPE_THREAD) by (subst t1; destruct j; exact Hty).
    split; [unfold obj; rewrite (read_live _ _ _ Hl1); exact Hj1 |].
    destruct (ThreadCleanupHandle_spec host' h r1.2 t1 Hn Hl1 Hty1)
      as (res2 & evs2 & j2 & E2 & _ & _ & Hj2 & Hnone2 & _).
    subst r2. rewrite E2. cbn [snd].
    rewrite (since_app r1.2 _ evs2) by reflexivity.
    split; [exact (Hnone2 Hj1) |].
    rewrite (Hj2 Hj1). cbn [heap with_heap with_trace].
    apply (insert_id _ _ _ Hl1).
Qed.

(** The running thread of [running], joined by a first call. *)
Lemma ThreadCleanupHandle_joins_once_witness :
  let r1 := ThreadCleanupHandle host_ok 1 (running build_default) in
  let r2 := ThreadCleanupHandle host_ok 1 r1.2 in
  joined (obj r1.2 1) = true /\
  existsb is_pthread_join (since r1.2 r2.2) = false /\
  heap r2.2 = heap r1.2.
Proof.
  assert (Hn : 1 <> NULL) by (unfold NULL; lia).
  assert (Hl : heap (running build_default) !! 1
               = Some (obj (running build_default) 1))
    by (vm_compute; reflexivity).
  assert (Hty : Type_ (obj (running build_default) 1) = HANDLE_TYPE_THREAD)
    by (vm_compute; reflexivity).
  destruct (ThreadCleanupHandle_joins_once host_ok host_ok 1
              (running build_default) _ Hn Hl Hty) as (_ & _ & Hok).
  apply Hok. vm_compute. reflexivity.
Defined.

(** *** The one-time initialisation *)

(** X3.  In a build without the thread list [initializeThreads] returns
    TRUE on every path and touches no thread object.  When [apc_init]
    fails on the main thread it only logs: the main thread object, the
    main thread identity and the TLS index stay as they were, and no TLS
    index is allocated.  Otherwise it records the calling thread as the
    main thread, marks [mainThread] as a thread object and stores what
    [TlsAlloc] answers, TLS_OUT_OF_INDEXES included. *)
Theorem initializeThreads_never_fails :
  forall cfg host (w : World),
    WITH_THREAD_LIST cfg = false ->
    let r := initializeThreads cfg host w in
    r.1 = true /\
    heap r.2 = heap w /\
    (host (trace w) (apc_init mainThread_addr) = 0 ->
       since w r.2 = [apc_init mainThread_addr;
                      WLog WLOG_ERR "failed to initialize APC"] /\
       mainThread r.2 = mainThread w /\ mainThreadId r.2 = mainThreadId w /\
       currentThreadTlsIndex r.2 = currentThreadTlsIndex w) /\
    (host (trace w) (apc_init mainThread_addr) <> 0 ->
       mainThreadId r.2 = self w /\
       Type_ (mainThread r.2) = HANDLE_TYPE_THREAD /\
       currentThreadTlsIndex r.2
       = host (trace w ++ [apc_init mainThread_addr]) TlsAlloc).
Proof.
  intros cfg host w Hcfg r. subst r.
  destruct (initializeThreads cfg host w) as [ok w'] eqn:E.
  destruct w as [hp bk nt tr0 le sf tl tlist once mt mid idx].
  cbn [trace heap self mainThread mainThreadId currentThreadTlsIndex].
  unfold initializeThreads in E. rewrite Hcfg in E. wnorm_in E.
  host_case E (apc_init mainThread_addr) EA.
  - inversion E; subst; clear E. cbn [fst snd].
    split; [reflexivity |]. split; [reflexivity |].
    split; [| intros Hne; apply Z.eqb_eq in EA; contradiction].
    intros _. split; [apply since_app; wflat; rewrite <- ?app_assoc; reflexivity |].
    repeat split.
  - match type of E with
    | context [?x =? TLS_OUT_OF_INDEXES] => destruct (x =? TLS_OUT_OF_INDEXES)
    end; wnorm_in E;
      inversion E; subst; clear E; cbn [fst snd];
      (split; [reflexivity |]); (split; [reflexivity |]);
      (split; [intros H0; apply Z.eqb_neq in EA; contradiction |]);
      intros _; repeat split.
Qed.

(** The first initialisation on a host where every call fails. *)
Lemma initializeThreads_never_fails_witness :
  (initializeThreads build_default host_failing boot).1 = true /\
  currentThreadTlsIndex (initializeThreads build_default host_failing boot).2
  = TLS_OUT_OF_INDEXES.
Proof.
  destruct (initializeThreads_never_fails build_default host_failing boot
              eq_refl) as (Hok & _ & Hfail & _).
  split; [exact Hok |].
  destruct (Hfail eq_refl) as (_ & _ & _ & Hidx). exact Hidx.
Defined.

(** *** The launcher *)

(** X4.  A launcher run that never calls the start routine (the
    current-thread slot cannot be set, the start routine is NULL, or the
    rendezvous fails on the launcher's side) still goes through the exit
    path: on a started, not detached object with no exit recorded it
    leaves the exit code 0, drains the callback queue and calls
    [winpr_event_set], which sets the latch when it succeeds.  A waiter
    sees a thread that ended with code 0. *)
Theorem launcher_without_start_routine_exits_0 :
  forall cfg host user (h : Z) (w : World) (t : WINPR_THREAD),
    h <> NULL -> heap w !! h = Some t ->
    exited t = false -> detached t = false -> started t = true ->
    appends_only user ->
    let w2 := (thread_launcher cfg host user h w).2 in
    existsb is_Call_start (since w w2) = false ->
    exists t2, heap w2 !! h = Some t2 /\
               dwExitCode t2 = 0 /\ apc t2 = [] /\
               In (winpr_event_set h) (since w w2) /\
               ((forall tr, host tr (winpr_event_set h) <> 0) -> event t2 = true).
Proof.
  intros cfg host user h w t Hn Hl Hex Hd Hs Hu w2. subst w2.
  destruct (thread_launcher_cases cfg host user h w t Hn Hl)
    as (W & HW & (pre & Hpre & Hq) & [E | (_ & _ & E)]); rewrite E; clear E.
  - intros _. apply cases_heap in HW. rewrite <- HW in Hl.
    destruct (thread_launcher_exit_spec cfg host h 0 W t Hn Hl)
      as (latch & rel & tl' & E & Hlatch & Hrel).
    rewrite E, Hd, Hs in *. cbn [snd orb negb] in *. clear E.
    destruct Hrel as [-> _].
    exists (exit_object 0 latch t).
    split; [destruct W; wflat; apply lookup_insert_eq |].
    unfold exit_object. rewrite Hex.
    split; [by destruct latch |]. split; [by destruct latch |].
    split.
    + erewrite since_app
        by (cbn [trace with_heap with_thread_list with_trace];
            rewrite Hpre, <- ?app_assoc; reflexivity).
      unfold exit_calls. rewrite Hex. rewrite !in_app_iff. cbn [In]. tauto.
    + intros HS. rewrite (Hlatch HS). reflexivity.
  - intros Hno. exfalso.
    match type of Hno with
    | context [user ?f ?a ?W1] =>
        destruct (Hu f a W1) as (sfx & Hsfx);
        destruct (user f a W1) as [[rc|] wc] eqn:Eu
    end; cbn [snd] in Hsfx.
    + destruct (thread_launcher_exit_quiet cfg host h rc wc Hn)
        as (evs & Etr & _).
      erewrite since_app in Hno
        by (rewrite Etr, Hsfx; cbn [trace with_trace];
            rewrite Hpre, <- ?app_assoc; reflexivity).
      rewrite !existsb_app in Hno. cbn in Hno.
      rewrite orb_true_r in Hno. discriminate Hno.
    + cbn [snd] in Hno.
      erewrite since_app in Hno
        by (rewrite Hsfx; cbn [trace with_trace];
            rewrite Hpre, <- ?app_assoc; reflexivity).
      rewrite !existsb_app in Hno. cbn in Hno.
      rewrite orb_true_r in Hno. discriminate Hno.
Qed.

(** The launcher of the running thread of [running], on a host where
    every call fails. *)
Lemma launcher_without_start_routine_exits_0_witness :
  exists t2,
    heap (thread_launcher build_default host_failing returns_42 1
            (running build_default)).2 !! 1 = Some t2 /\
    dwExitCode t2 = 0 /\ apc t2 = [].
Proof.
  assert (Hn : 1 <> NULL) by (unfold NULL; lia).
  assert (Hl : heap (running build_default) !! 1
               = Some (obj (running build_default) 1))
    by (vm_compute; reflexivity).
  assert (Hu : appends_only returns_42)
    by (intros f p w; exists []; cbn; rewrite app_nil_r; reflexivity).
  destruct (launcher_without_start_routine_exits_0 build_default host_failing
              returns_42 1 (running build_default) _ Hn Hl
              eq_refl eq_refl eq_refl Hu)
    as (t2 & Hl2 & Hc & Ha & _); [vm_compute; reflexivity |].
  exists t2. split; [exact Hl2 | split; [exact Hc | exact Ha]].
Defined.

(** X5.  An exit recorded by [TerminateThread] is final.  On a valid
    handle to a started, not detached thread, whatever the host answers
    to [TerminateThread] (a FALSE result included) and to the launcher,
    and whatever the start routine returns, [GetExitCodeThread] yields
    the code given to [TerminateThread], both right after it and after
    the launcher has gone through its exit path. *)
Theorem terminated_exit_code_survives_launcher :
  forall cfg host user (h code : Z) (w : World) (t : WINPR_THREAD),
    h <> NULL -> h <> INVALID_HANDLE_VALUE -> heap w !! h = Some t ->
    started t = true -> detached t = false ->
    keeps_object user h ->
    let w1 := (TerminateThread cfg host h code w).2 in
    let w2 := (thread_launcher cfg host user h w1).2 in
    (GetExitCodeThread h w1).1 = Some code /\
    (GetExitCodeThread h w2).1 = Some code.
Proof.
  intros cfg host user h code w t Hn Hi Hl Hs Hd Hk w1 w2.
  destruct (TerminateThread_records cfg host h code w t Hn Hi Hl)
    as (latch & evs & E1).
  fold w1 in E1.
  set (t1 := (if latch then set_event_latch true else id)
               (set_field F_dwExitCode code (set_field F_exited TRUE t))) in E1.
  assert (Hl1 : heap w1 !! h = Some t1)
    by (rewrite E1; destruct w; wflat; apply lookup_insert_eq).
  assert (Hflags : exited t1 = true /\ detached t1 = false /\
                   started t1 = true /\ dwExitCode t1 = code)
    by (subst t1; destruct latch; repeat split; assumption).
  destruct Hflags as (Hex1 & Hd1 & Hs1 & Hc1).
  destruct (thread_launcher_keeps_recorded_exit cfg host user h w1 t1
              Hn Hl1 Hex1 Hd1 Hs1 Hk) as (t2 & Hl2 & Hc2 & _).
  fold w2 in Hl2.
  rewrite (GetExitCodeThread_live h w1 t1 Hn Hi Hl1),
    (GetExitCodeThread_live h w2 t2 Hn Hi Hl2).
  cbn [fst]. split; congruence.
Qed.

(** The running thread of [running], terminated with code 7 while its
    start routine goes on to return 42. *)
Lemma terminated_exit_code_survives_launcher_witness :
  let w1 := (TerminateThread build_default host_ok 1 7
               (running build_default)).2 in
  let w2 := (thread_launcher build_default host_ok returns_42 1 w1).2 in
  (GetExitCodeThread 1 w1).1 = Some 7 /\ (GetExitCodeThread 1 w2).1 = Some 7.
Proof.
  apply (terminated_exit_code_survives_launcher build_default host_ok
           returns_42 1 7 (running build_default)
           (obj (running build_default) 1)).
  - unfold NULL. lia.
  - unfold INVALID_HANDLE_VALUE. lia.
  - vm_compute. reflexivity.
  - vm_compute. reflexivity.
  - vm_compute. reflexivity.
  - intros f a wc t Hl. exists t. repeat split. exact Hl.
Defined.

(** X6.  A thread closed while it runs destroys its own object.
    [ThreadCloseHandle] on a started thread whose latch is not set
    leaves the object alive and marked detached; when the start routine
    then returns, the launcher's exit path tears the object down, so
    that it is gone from the heap, whatever the host answers. *)
Theorem thread_closed_while_running_destroys_itself :
  forall cfg host user (h : Z) (w : World) (t : WINPR_THREAD),
    h <> NULL -> h <> INVALID_HANDLE_VALUE -> heap w !! h = Some t ->
    registry_knows cfg w h ->
    started t = true -> event t = false ->
    keeps_object user h -> returns user ->
    let w1 := (ThreadCloseHandle cfg host h w).2 in
    let w2 := (thread_launcher cfg host user h w1).2 in
    heap w1 !! h = Some (set_field F_detached TRUE t) /\
    heap w2 !! h = None.
Proof.
  intros cfg host user h w t Hn Hi Hl Hreg Hs He Hk Hr w1 w2.
  destruct (ThreadCloseHandle_running cfg host h w t Hn Hi Hl Hreg Hs He)
    as (Hl1 & _).
  fold w1 in Hl1. split; [exact Hl1 |].
  apply (thread_launcher_destroys_detached cfg host user h w1 _ Hn Hl1);
    [reflexivity | exact Hk | exact Hr].
Qed.

(** The running thread of [running], closed before its start routine
    returns. *)
Lemma thread_closed_while_running_destroys_itself_witness :
  let w1 := (ThreadCloseHandle build_default host_ok 1
               (running build_default)).2 in
  let w2 := (thread_launcher build_default host_ok returns_42 1 w1).2 in
  heap w1 !! 1 = Some (set_field F_detached TRUE (obj (running build_default) 1)) /\
  heap w2 !! 1 = None.
Proof.
  apply (thread_closed_while_running_destroys_itself build_default host_ok
           returns_42 1 (running build_default)).
  - unfold NULL. lia.
  - unfold INVALID_HANDLE_VALUE. lia.
  - vm_compute. reflexivity.
  - left. reflexivity.
  - vm_compute. reflexivity.
  - vm_compute. reflexivity.
  - intros f a wc t Hl. exists t. repeat split. exact Hl.
  - intros f a wc. discriminate.
Defined.

(** The replay rejects a start routine called between the lock and the
    unlock of a mutex. *)
Lemma lock_run_rejects_call_under_lock :
  lock_run host_ok 1 threadIsReadyMutex []
    [pthread_mutex_lock 1 threadIsReadyMutex;
     pthread_cond_signal 1 threadReady;
     pthread_cond_timedwait 1 threadIsReady threadIsReadyMutex 1 0;
     Call_start 7 9;
     pthread_mutex_unlock 1 threadIsReadyMutex] false = None.
Proof. reflexivity. Qed.

(** X7.  In every run of the launcher, whatever the host answers, each
    mutex of each thread object is used in order and left released: it
    is unlocked only after a successful lock, waited on with
    [pthread_cond_timedwait] only while held, never locked twice, not
    held when the start routine is called (so the start routine is
    called with [threadIsReadyMutex] released), and not held when the
    launcher ends.  The start routine is taken to make no call on these
    mutexes itself. *)
Theorem thread_launcher_lock_discipline :
  forall cfg host user (h : Z) (w : World) (h0 : Z) (m : mutex_id),
    leaves_mutexes_alone user ->
    lock_discipline host h0 m (trace w)
      (since w (thread_launcher cfg host user h w).2).
Proof.
  intros cfg host user h w h0 m Huser.
  destruct (thread_launcher cfg host user h w) as [u w'] eqn:E.
  cbn [snd].
  destruct w as [hp bk nt tr0 le sf tl tlist once mt mid idx].
  unfold thread_launcher in E.
  destruct (h =? NULL) eqn:Hn; wnorm_in E.
  { inversion E; subst; clear E.
    erewrite since_app by (wflat; reflexivity). reflexivity. }
  apply Z.eqb_neq in Hn.
  destruct (h =? h0) eqn:Eh; destruct m.
  all: unfold do_TlsSetValue in E; wnorm_in E.
  all: host_case E (TlsSetValue idx h) ET; [exit_locks E Hn Eh ET |].
  all: destruct (lpStartAddress (read hp mt h) =? NULL) eqn:Ef; wnorm_in E;
    [exit_locks E Hn Eh ET |].
  all: host_case E (pthread_mutex_lock h threadIsReadyMutex) EL;
    [| exit_locks E Hn Eh EL].
  all: host_case E (pthread_cond_signal h threadReady) ES;
    [| exit_locks E Hn Eh EL].
  all: destruct (WITH_THREAD_LIST cfg);
    [unfold ListDictionary_Contains in E; wnorm_in E;
     destruct tlist as [l|]; wnorm_in E; [case_if E |] |];
    wnorm_in E; try (exit_locks E Hn Eh EL).
  all: host_case E (pthread_mutex_unlock h threadIsReadyMutex) EU;
    [| exit_locks E Hn Eh EL].
  all: unfold call_start in E; wnorm_in E.
  all: run_quiet_user E user Huser.
  all: destruct res as [rc|]; wnorm_in E.
  all: try (destruct (thread_launcher_exit_no_mutex cfg host h rc wc Hn)
              as (evs & Etr & Hq);
            rewrite E in Etr; cbn [snd] in Etr;
            erewrite since_app
              by (rewrite Etr, Hsfx; cbn [trace]; rewrite <- ?app_assoc;
                  reflexivity)).
  all: try (inversion E; subst; clear E;
            erewrite since_app
              by (rewrite Hsfx; cbn [trace]; rewrite <- ?app_assoc;
                  reflexivity)).
  all: unfold lock_discipline; cbn [trace]; lock_eval Eh EL.
  all: rewrite ?lock_run_app, ?(lock_run_quiet _ _ _ _ Hqs),
         ?(lock_run_quiet _ _ _ _ Hq); reflexivity.
Qed.

(** The launcher of the running thread of [running]. *)
Lemma thread_launcher_lock_discipline_witness :
  lock_discipline host_ok 1 threadIsReadyMutex (trace (inside build_default))
    (since (inside build_default)
       (thread_launcher build_default host_ok returns_42 1
          (inside build_default)).2).
Proof.
  apply (thread_launcher_lock_discipline build_default host_ok returns_42 1
           (inside build_default) 1 threadIsReadyMutex).
  intros f a w. exists []. cbn. rewrite app_nil_r. split; reflexivity.
Defined.

(** *** The start sequence *)

(** X8.  Every run of [winpr_StartThread], whatever the host answers and
    whether it succeeds or not, initialises the thread attribute object
    once, as its first call, and destroys it once, as its last call. *)
Theorem winpr_StartThread_attr_lifetime :
  forall cfg host (h : Z) (w : World),
    let tr := since w (winpr_StartThread cfg host h w).2 in
    hd_error tr = Some pthread_attr_init /\
    last tr = Some pthread_attr_destroy /\
    length (List.filter is_attr_init tr) = 1%nat /\
    length (List.filter is_attr_destroy tr) = 1%nat.
Proof.
  intros cfg host h w tr. subst tr.
  destruct (winpr_StartThread cfg host h w) as [ok w'] eqn:E.
  destruct w as [hp bk nt tr0 le sf tl tlist once mt mid idx].
  unfold winpr_StartThread in E. wnorm_in E.
  destruct (0 <? dwStackSize (read hp mt h)); wnorm_in E.
  all: host_case E (winpr_event_reset h) ER.
  all: host_case E (pthread_mutex_lock h threadReadyMutex) EL.
  all: try (attr_done E).
  all: destruct (WITH_THREAD_LIST cfg);
    [unfold do_ListDictionary_Add in E; wnorm_in E;
     destruct tlist as [l|]; wnorm_in E;
     [host_case E (ListDictionary_Add h) EA |] |]; wnorm_in E.
  all: try (attr_done E).
  all: unfold do_pthread_create in E; wnorm_in E;
    host_case E (pthread_create h) EC.
  all: try (attr_done E).
  all: host_case E (pthread_mutex_unlock h threadReadyMutex) EU.
  all: try (attr_done E).
  all: host_case E (pthread_cond_signal h threadIsReady) ES.
  all: attr_done E.
Qed.

(** X9.  [winpr_StartThread], [ResumeThread], [TerminateThread] and
    [ThreadCleanupHandle] use every mutex of every thread object in
    order and leave it released, on every path and whatever the host
    answers: a mutex is unlocked only after a successful lock, waited on
    only while held, never locked twice, and not held when the function
    returns (in particular not when the start sequence or the join
    fails). *)
Theorem lock_discipline_of_thread_operations :
  forall cfg host (h code : Z) (w : World) (h0 : Z) (m : mutex_id),
    lock_discipline host h0 m (trace w)
      (since w (winpr_StartThread cfg host h w).2) /\
    lock_discipline host h0 m (trace w)
      (since w (ResumeThread cfg host h w).2) /\
    lock_discipline host h0 m (trace w)
      (since w (TerminateThread cfg host h code w).2) /\
    lock_discipline host h0 m (trace w)
      (since w (ThreadCleanupHandle host h w).2).
Proof.
  intros cfg host h code w h0 m.
  split; [| split; [apply ResumeThread_discipline |
                    split; [apply TerminateThread_discipline |
                            apply ThreadCleanupHandle_discipline]]].
  destruct (winpr_StartThread_locks cfg host h w) as (evs & Htr & Hrun).
  rewrite (since_app _ _ _ Htr). unfold lock_discipline. rewrite Hrun.
  unfold start_effect. destruct ((h =? h0) && mutex_id_eqb threadReadyMutex m);
    reflexivity.
Qed.

(** *** CreateThread *)

(** X10.  A failed [CreateThread] leaves nothing behind.  When it
    returns NULL, [calloc] handing out addresses that are not live, the
    heap of thread objects is what it was before the call and the last
    error is unchanged; and either [calloc] was the only call made, or
    the teardown of the new object ran in full, once, whichever step had
    failed. *)
Theorem CreateThread_failure_leaves_nothing :
  forall cfg host (attrs stack fn arg flags tidp : Z) (w : World),
    heap w !! Zpos (brk w) = None ->
    let c := CreateThread cfg host attrs stack fn arg flags tidp w in
    c.1 = NULL ->
    heap c.2 = heap w /\
    last_error c.2 = last_error w /\
    (since w c.2 = [calloc sizeof_WINPR_THREAD] \/
     List.filter is_release (since w c.2) = releases (Zpos (brk w))).
Proof.
  intros cfg host attrs stack fn arg flags tidp w Hfresh c Hc.
  destruct (CreateThread_outcome cfg host attrs stack fn arg flags tidp w)
    as (evs & hp' & bk' & nt' & tl' & once' & mt' & mid' & idx' & Ew & Hcases).
  fold c in Ew, Hcases. rewrite Ew.
  rewrite (since_app w _ evs) by (destruct w; reflexivity).
  destruct w as [hp bk nt tr0 le sf tl tlist once mt mid idx].
  cbn [heap brk] in *. wflat.
  destruct Hcases as [(_ & -> & ->) | [(_ & -> & Hrel) | (Hh & _)]].
  - repeat split. left. reflexivity.
  - rewrite (delete_id _ _ Hfresh). repeat split. right. exact Hrel.
  - rewrite Hh in Hc. discriminate Hc.
Qed.

(** [CreateThread] on a host where the allocation fails, and on a host
    where the spawn of the OS thread fails. *)
Lemma CreateThread_failure_leaves_nothing_witness :
  heap (CreateThread build_default host_failing 0 0 7 9 0 0 boot).2 = heap boot /\
  List.filter is_release
    (since boot (CreateThread build_default host_no_spawn 0 0 7 9 0 0 boot).2)
  = releases 1.
Proof.
  split.
  - apply (CreateThread_failure_leaves_nothing build_default host_failing
             0 0 7 9 0 0 boot); vm_compute; reflexivity.
  - destruct (CreateThread_failure_leaves_nothing build_default host_no_spawn
                0 0 7 9 0 0 boot) as (_ & _ & [Hc | Hrel]);
      [vm_compute; reflexivity | vm_compute; reflexivity | | exact Hrel].
    vm_compute in Hc. discriminate Hc.
Defined.

(** X11.  [CreateThread] touches no other thread object.  Whatever the
    host answers, its result is NULL or the address [calloc] handed
    out; every object at another address is left as it was; and the
    last error, the calling thread and the current-thread slots are
    unchanged (a failure sets no last error). *)
Theorem CreateThread_touches_no_other_object :
  forall cfg host (attrs stack fn arg flags tidp : Z) (w : World),
    let c := CreateThread cfg host attrs stack fn arg flags tidp w in
    (c.1 = NULL \/ c.1 = Zpos (brk w)) /\
    (forall h', h' <> Zpos (brk w) -> heap c.2 !! h' = heap w !! h') /\
    last_error c.2 = last_error w /\
    self c.2 = self w /\ tls c.2 = tls w.
Proof.
  intros cfg host attrs stack fn arg flags tidp w c.
  destruct (CreateThread_outcome cfg host attrs stack fn arg flags tidp w)
    as (evs & hp' & bk' & nt' & tl' & once' & mt' & mid' & idx' & Ew & Hcases).
  fold c in Ew, Hcases. rewrite Ew.
  destruct w as [hp bk nt tr0 le sf tl tlist once mt mid idx].
  cbn [heap brk] in *. wflat.
  destruct Hcases as [(Hc & -> & _) | [(Hc & -> & _) | (Hc & t & -> & _)]];
    (split; [tauto |]); (split; [| repeat split]); intros h' Hne.
  - reflexivity.
  - apply lookup_delete_ne. congruence.
  - apply lookup_insert_ne. congruence.
Qed.

(** A second [CreateThread] leaves the running thread of [running]
    alone. *)
Lemma CreateThread_touches_no_other_object_witness :
  heap (CreateThread build_default host_ok 0 0 8 9 0 0
          (running build_default)).2 !! 1
  = heap (running build_default) !! 1.
Proof.
  apply (CreateThread_touches_no_other_object build_default host_ok
           0 0 8 9 0 0 (running build_default)).
  vm_compute. discriminate.
Defined.

(** X12.  The exit code of a new thread reads 0.  Whatever the host
    answers and whatever the creation flags are, on a handle
    [CreateThread] has just returned [GetExitCodeThread] succeeds with
    the code 0, the object having no exit recorded: a thread that has
    not ended is not told apart from one that ended with code 0. *)
Theorem new_thread_exit_code_reads_0 :
  forall cfg host (attrs stack fn arg flags tidp : Z) (w : World),
    let c := CreateThread cfg host attrs stack fn arg flags tidp w in
    c.1 <> NULL ->
    GetExitCodeThread c.1 c.2 = (Some 0, c.2) /\
    exited (obj c.2 c.1) = false.
Proof.
  intros cfg host attrs stack fn arg flags tidp w c Hc.
  destruct (CreateThread_outcome cfg host attrs stack fn arg flags tidp w)
    as (evs & hp' & bk' & nt' & tl' & once' & mt' & mid' & idx' & Ew & Hcases).
  fold c in Ew, Hcases.
  destruct Hcases as [(Hn & _) | [(Hn & _) | (Hh & t & -> & Ht & _)]];
    [contradiction | contradiction |].
  assert (Hl : heap c.2 !! c.1 = Some t)
    by (rewrite Ew, Hh; destruct w; wflat; apply lookup_insert_eq).
  destruct Ht as (_ & _ & _ & _ & _ & _ & Hcode & Hex & _).
  assert (Hi : c.1 <> INVALID_HANDLE_VALUE) by (rewrite Hh; discriminate).
  rewrite (GetExitCodeThread_live c.1 c.2 t Hc Hi Hl).
  unfold obj. rewrite (read_live _ _ _ Hl), Hcode.
  split; [reflexivity | exact Hex].
Qed.

(** A thread created suspended. *)
Lemma new_thread_exit_code_reads_0_witness :
  let c := CreateThread build_default host_ok 0 0 7 9 CREATE_SUSPENDED 0 boot in
  GetExitCodeThread c.1 c.2 = (Some 0, c.2) /\ exited (obj c.2 c.1) = false.
Proof.
  apply (new_thread_exit_code_reads_0 build_default host_ok
           0 0 7 9 CREATE_SUSPENDED 0 boot).
  vm_compute. discriminate.
Defined.

(** X13.  [CreateThread] does not check the start routine.  On a host
    where every call succeeds, a creation with a NULL start routine and
    without CREATE_SUSPENDED returns a handle; the launcher then logs
    the NULL routine, calls no start routine, takes no mutex, and goes
    through its exit path: the exit code is 0 and the latch is set. *)
Theorem CreateThread_accepts_NULL_start_routine :
  forall cfg host user (attrs stack arg flags tidp : Z) (w : World),
    host_succeeds host ->
    Z.land flags CREATE_SUSPENDED = 0 ->
    registry_ready cfg w ->
    let c := CreateThread cfg host attrs stack NULL arg flags tidp w in
    let w2 := (thread_launcher cfg host user c.1 c.2).2 in
    c.1 <> NULL /\
    since c.2 w2 = [TlsSetValue (currentThreadTlsIndex c.2) c.1;
                    WLog WLOG_ERR "Thread function argument is NULL";
                    apc_cleanupThread c.1; Store c.1 F_dwExitCode 0;
                    winpr_event_set c.1; pthread_cond_signal c.1 threadReady] /\
    dwExitCode (obj w2 c.1) = 0 /\
    event (obj w2 c.1) = true.
Proof.
  intros cfg host user attrs stack arg flags tidp w Hh Hfl Hready c w2.
  destruct (CreateThread_started_ok cfg host attrs stack NULL arg flags tidp
              w (host_succeeds_weaken _ Hh) Hfl Hready)
    as (evs & tl' & once' & mt' & mid' & idx' & Ec).
  subst w2 c. rewrite Ec. cbn [fst snd]. clear Ec.
  split; [discriminate |].
  destruct w as [hp bk nt tr0 le sf tl tlist once mt mid idx].
  cbn [brk next_tid]. wflat.
  match goal with
  | |- context [thread_launcher cfg host user ?h ?W] =>
      destruct (thread_launcher cfg host user h W) as [u w'] eqn:E
  end.
  cbn [snd].
  unfold thread_launcher in E.
  change (Z.pos bk =? NULL) with false in E. wnorm_in E.
  unfold do_TlsSetValue in E. wnorm_in E. host_run E Hh.
  rewrite read_insert in E.
  change (lpStartAddress _ =? NULL) with true in E. wnorm_in E.
  unfold thread_launcher_exit in E. wnorm_in E.
  rewrite ?alter_insert_eq, ?read_insert in E.
  change (exited (set_apc _ _)) with false in E. wnorm_in E.
  rewrite ?alter_insert_eq in E. host_run E Hh.
  rewrite ?alter_insert_eq, ?read_insert in E.
  change (detached (set_event_latch _ _)) with false in E.
  change (started (set_event_latch _ _)) with true in E.
  wnorm_in E.
  inversion E; subst; clear E.
  split; [apply since_app; wflat; rewrite <- ?app_assoc; reflexivity |].
  wflat. rewrite read_insert. split; reflexivity.
Qed.

(** [CreateThread(NULL, 0, NULL, 9, 0, NULL)] and its launcher. *)
Lemma CreateThread_accepts_NULL_start_routine_witness :
  let c := CreateThread build_default host_ok 0 0 NULL 9 0 0 boot in
  let w2 := (thread_launcher build_default host_ok returns_42 c.1 c.2).2 in
  c.1 <> NULL /\ dwExitCode (obj w2 c.1) = 0 /\ event (obj w2 c.1) = true.
Proof.
  assert (Hh : host_succeeds host_ok) by (intros tr e; reflexivity).
  assert (Hready : registry_ready build_default boot) by (left; reflexivity).
  destruct (CreateThread_accepts_NULL_start_routine build_default host_ok
              returns_42 0 0 9 0 0 boot Hh eq_refl Hready)
    as (Hc & _ & Hcode & Hlatch).
  split; [exact Hc | split; [exact Hcode | exact Hlatch]].
Defined.

(** X24.  What a handle returned by [CreateThread] refers to.  Whatever
    the host answers, a non-NULL result is the address [calloc] handed
    out, and the object there is a thread object that holds the
    arguments of the call, has exit code 0 and no exit recorded, is
    neither detached nor joined, has an empty callback queue, is marked
    started exactly when CREATE_SUSPENDED was not given, and has its
    latch set when it was given; no teardown call has been made. *)
Theorem CreateThread_returns_a_thread_object :
  forall cfg host (attrs stack fn arg flags tidp : Z) (w : World),
    let c := CreateThread cfg host attrs stack fn arg flags tidp w in
    c.1 <> NULL ->
    c.1 = Zpos (brk w) /\
    (exists t, heap c.2 !! c.1 = Some t /\
               created attrs stack fn arg flags t) /\
    List.filter is_release (since w c.2) = [].
Proof.
  intros cfg host attrs stack fn arg flags tidp w c Hc.
  destruct (CreateThread_outcome cfg host attrs stack fn arg flags tidp w)
    as (evs & hp' & bk' & nt' & tl' & once' & mt' & mid' & idx' & Ew & Hcases).
  fold c in Ew, Hcases.
  destruct Hcases as [(Hn & _) | [(Hn & _) | (Hh & t & -> & Ht & Hrel)]];
    [contradiction | contradiction |].
  split; [exact Hh |]. split.
  - exists t. split; [| exact Ht].
    rewrite Ew, Hh. cbn [heap with_heap]. apply lookup_insert_eq.
  - rewrite Ew. rewrite (since_app w _ evs) by reflexivity. exact Hrel.
Qed.

(** A thread created suspended. *)
Lemma CreateThread_returns_a_thread_object_witness :
  let c := CreateThread build_default host_ok 0 0 7 9 CREATE_SUSPENDED 0 boot in
  c.1 = 1 /\
  (exists t, heap c.2 !! c.1 = Some t /\ created 0 0 7 9 CREATE_SUSPENDED t) /\
  List.filter is_release (since boot c.2) = [].
Proof.
  apply (CreateThread_returns_a_thread_object build_default host_ok
           0 0 7 9 CREATE_SUSPENDED 0 boot).
  vm_compute. discriminate.
Defined.

(** *** Threads the diagnostic registry does not know *)

(** X14.  In a build with the thread list, a thread the registry does
    not know is left alone.  When the registry is missing or holds no
    object with the thread identity of the object at [h],
    [ThreadCloseHandle] only logs an error and returns TRUE: the object
    is neither destroyed nor detached.  When it holds no object with
    the identity of the calling thread, [ExitThread] only logs and ends
    the calling thread with code 0: no exit code is stored and no latch
    set. *)
Theorem unlisted_thread_is_left_alone :
  forall cfg host (h code : Z) (w : World),
    WITH_THREAD_LIST cfg = true ->
    (unlisted w (thread (obj w h)) ->
       let r := ThreadCloseHandle cfg host h w in
       r.1 = true /\ heap r.2 = heap w /\ thread_list r.2 = thread_list w /\
       exists msg, since w r.2 = [WLog WLOG_ERR msg]) /\
    (unlisted w (self w) ->
       let r := ExitThread cfg host code w in
       r.1 = ThreadExits 0 /\ heap r.2 = heap w /\
       exists msg, since w r.2 = [WLog WLOG_ERR msg; pthread_exit 0]).
Proof.
  intros cfg host h code w Hcfg.
  destruct w as [hp bk nt tr0 le sf tl tlist once mt mid idx].
  unfold unlisted. wflat. split.
  - intros Hu. cbv zeta.
    unfold ThreadCloseHandle, ListDictionary_Contains. rewrite Hcfg. wnorm.
    destruct Hu as [-> | (l & -> & Hex)]; [| rewrite Hex]; cbn [fst snd];
      (split; [reflexivity |]); (split; [reflexivity |]);
      (split; [reflexivity |]); eexists; apply since_app; reflexivity.
  - intros Hu. cbv zeta.
    unfold ExitThread, ListDictionary_Contains. rewrite Hcfg. wnorm.
    destruct Hu as [-> | (l & -> & Hex)]; [| rewrite Hex]; cbn [fst snd];
      (split; [reflexivity |]); (split; [reflexivity |]);
      eexists; apply since_app; wflat; rewrite <- ?app_assoc; reflexivity.
Qed.

(** The pending thread of [pending], which the start sequence has not
    registered. *)
Lemma unlisted_thread_is_left_alone_witness :
  let w := pending build_thread_list in
  (ThreadCloseHandle build_thread_list host_ok 1 w).1 = true /\
  heap (ThreadCloseHandle build_thread_list host_ok 1 w).2 = heap w.
Proof.
  destruct (proj1 (unlisted_thread_is_left_alone build_thread_list host_ok
                     1 0 (pending build_thread_list) eq_refl))
    as (Hok & Hheap & _).
  - right. exists []. split; vm_compute; reflexivity.
  - split; [exact Hok | exact Hheap].
Defined.

(** *** Operations that are not implemented or take no handle *)

(** X15.  [CreateRemoteThread] is not implemented: whatever its
    arguments are it returns NULL, logs an error and sets the last
    error to ERROR_CALL_NOT_IMPLEMENTED; it allocates no object and
    hands out no thread identity. *)
Theorem CreateRemoteThread_not_implemented :
  forall (hProcess attrs stack fn arg flags tidp : Z) (w : World),
    let r := CreateRemoteThread hProcess attrs stack fn arg flags tidp w in
    r.1 = NULL /\
    last_error r.2 = ERROR_CALL_NOT_IMPLEMENTED /\
    heap r.2 = heap w /\ next_tid r.2 = next_tid w /\ brk r.2 = brk w /\
    since w r.2 = [WLog WLOG_ERR "CreateRemoteThread: not implemented";
                   SetLastError ERROR_CALL_NOT_IMPLEMENTED].
Proof.
  intros. subst r. unfold CreateRemoteThread. wsimpl.
  repeat split. trace_eq.
Qed.

(** X16.  On a handle [winpr_Handle_GetInfo] fails on (NULL,
    INVALID_HANDLE_VALUE, or a pointer to no object), [ResumeThread]
    returns [(DWORD)-1], [TerminateThread] returns FALSE and
    [GetExitCodeThread] returns FALSE, each leaving the world as it is:
    no call is made, nothing is logged and no last error is set.  The
    handle of the main thread, the address of the static [mainThread],
    is no such handle: [GetExitCodeThread] returns TRUE on it, with the
    exit code the static holds. *)
Theorem invalid_handle_fails_silently :
  forall cfg host (hThread code : Z) (w : World),
    (rejected_by_GetInfo w hThread ->
       ResumeThread cfg host hThread w = (4294967295, w) /\
       TerminateThread cfg host hThread code w = (false, w) /\
       GetExitCodeThread hThread w = (None, w)) /\
    (heap w !! mainThread_addr = None ->
       GetExitCodeThread mainThread_addr w
       = (Some (dwExitCode (mainThread w)), w)).
Proof.
  intros cfg host h code w. split.
  - intros Hr.
    assert (E : winpr_Handle_GetInfo h w = (None, w)).
    { unfold winpr_Handle_GetInfo.
      destruct Hr as [-> | [-> | [Hnone Hm]]]; [reflexivity | reflexivity |].
      apply Z.eqb_neq in Hm. rewrite Hnone, Hm.
      destruct ((h =? NULL) || (h =? INVALID_HANDLE_VALUE)); reflexivity. }
    split; [unfold ResumeThread
           | split; [unfold TerminateThread | unfold GetExitCodeThread]];
      unfold bind at 1; rewrite E; reflexivity.
  - intros Hnone.
    unfold GetExitCodeThread, winpr_Handle_GetInfo, bind, load, get, ret, obj, read.
    rewrite Hnone.
    change ((mainThread_addr =? NULL) || (mainThread_addr =? INVALID_HANDLE_VALUE))
      with false.
    change (mainThread_addr =? mainThread_addr) with true.
    cbv beta iota. rewrite Hnone. reflexivity.
Qed.


(** The NULL handle, and the handle of the main thread. *)
Lemma invalid_handle_fails_silently_witness :
  (ResumeThread build_default host_ok NULL boot = (4294967295, boot) /\
   TerminateThread build_default host_ok NULL 7 boot = (false, boot) /\
   GetExitCodeThread NULL boot = (None, boot)) /\
  GetExitCodeThread mainThread_addr (running build_default)
  = (Some 0, running build_default).
Proof.
  split.
  - apply (proj1 (invalid_handle_fails_silently build_default host_ok NULL 7
                    boot)).
    left. reflexivity.
  - apply (proj2 (invalid_handle_fails_silently build_default host_ok NULL 7
                    (running build_default))).
    vm_compute. reflexivity.
Defined.


(** *** The current thread *)

(** X17.  Once the statics are initialised, [_GetCurrentThread] makes no
    call to the host.  In the thread recorded as the main thread it
    returns the address of [mainThread]; in another thread it returns
    what the current-thread slot holds for that thread, and when the
    slot holds nothing it returns NULL after an error-level log. *)
Theorem winpr_GetCurrentThread_lookup :
  forall cfg host (w : World),
    threads_InitOnce w = true ->
    (self w = mainThreadId w ->
       _GetCurrentThread cfg host w = (mainThread_addr, w)) /\
    (forall h, self w <> mainThreadId w -> tls w !! self w = Some h -> h <> NULL ->
       _GetCurrentThread cfg host w = (h, w)) /\
    (self w <> mainThreadId w -> tls w !! self w = None ->
       _GetCurrentThread cfg host w
       = (NULL, with_trace
                  (fun tr => tr ++ [WLog WLOG_ERR
                     "function called, but no matching entry in thread list!"]) w)).
Proof.
  intros cfg host w Ho.
  destruct w as [hp bk nt tr0 le sf tl tlist once mt mid idx].
  cbn [threads_InitOnce self mainThreadId tls] in *. subst once.
  unfold _GetCurrentThread, winpr_GetCurrentThread,
    InitOnceExecuteOnce_initializeThreads, do_TlsGetValue.
  wnorm.
  split; [intros ->; rewrite Z.eqb_refl; reflexivity |].
  split.
  - intros h Hne Hl Hn. apply not_eq_sym in Hne.
    apply Z.eqb_neq in Hne, Hn. rewrite Hne, Hl. change (default NULL (Some h)) with h.
    rewrite Hn. reflexivity.
  - intros Hne Hl. apply not_eq_sym in Hne. apply Z.eqb_neq in Hne.
    rewrite Hne, Hl. reflexivity.
Qed.

(** The creating thread of [running] is the main thread; the thread it
    created has no slot before its launcher runs. *)
Lemma winpr_GetCurrentThread_lookup_witness :
  _GetCurrentThread build_default host_ok (running build_default)
  = (mainThread_addr, running build_default) /\
  (_GetCurrentThread build_default host_ok (inside build_default)).1 = NULL.
Proof.
  split.
  - apply (proj1 (winpr_GetCurrentThread_lookup build_default host_ok
                    (running build_default) eq_refl)).
    vm_compute. reflexivity.
  - rewrite (proj2 (proj2 (winpr_GetCurrentThread_lookup build_default host_ok
                             (inside build_default) eq_refl))).
    + reflexivity.
    + vm_compute. discriminate.
    + vm_compute. reflexivity.
Defined.

(** X18.  The thread that first uses thread.c is taken as the main
    thread.  When the statics are not initialised yet and [apc_init]
    succeeds, [_GetCurrentThread] returns the address of [mainThread]
    whichever thread calls it: the calling thread is recorded as the
    main thread, [mainThread] is marked as a thread object, and the
    initialisation is marked done; no thread object changes. *)
Theorem first_caller_becomes_main_thread :
  forall cfg host (w : World),
    threads_InitOnce w = false ->
    host (trace w) (apc_init mainThread_addr) <> 0 ->
    let r := _GetCurrentThread cfg host w in
    r.1 = mainThread_addr /\
    mainThreadId r.2 = self w /\
    Type_ (mainThread r.2) = HANDLE_TYPE_THREAD /\
    threads_InitOnce r.2 = true /\
    heap r.2 = heap w.
Proof.
  intros cfg host w Ho Ha r. subst r.
  destruct (_GetCurrentThread cfg host w) as [cur w'] eqn:E.
  destruct w as [hp bk nt tr0 le sf tl tlist once mt mid idx].
  cbn [threads_InitOnce trace self] in *. subst once.
  unfold _GetCurrentThread, winpr_GetCurrentThread,
    InitOnceExecuteOnce_initializeThreads, initializeThreads in E.
  wnorm_in E.
  rewrite (truth_nonzero _ Ha) in E. wnorm_in E.
  forget_host E.
  destruct (r =? TLS_OUT_OF_INDEXES); wnorm_in E;
    (destruct (WITH_THREAD_LIST cfg); wnorm_in E;
     [case_zero E ListDictionary_New EN |]);
    rewrite Z.eqb_refl in E; inversion E; subst; clear E;
    repeat split.
Qed.

(** A first call from the thread with identity 44. *)
Lemma first_caller_becomes_main_thread_witness :
  let r := _GetCurrentThread build_default host_ok (with_self 44 boot) in
  r.1 = mainThread_addr /\ mainThreadId r.2 = 44.
Proof.
  destruct (first_caller_becomes_main_thread build_default host_ok
              (with_self 44 boot) eq_refl) as (Hr & Hid & _).
  - vm_compute. discriminate.
  - split; [exact Hr | exact Hid].
Defined.

(** X19.  A thread started through thread.c finds its own handle.  When
    the launcher runs on a started object [h] in a thread other than
    the main thread, its calls to the host succeeding, a start routine
    that asks [_GetCurrentThread] gets [h] and no other handle: the
    launcher bound the current-thread slot before the rendezvous.  The
    start routine used here compares what it gets with a handle
    [expected] and returns 1 or 0, which becomes the exit code: the exit
    code is 1 exactly when [expected] is [h]. *)
Theorem started_thread_finds_its_own_handle :
  forall cfg host (expected h : Z) (w : World) (t : WINPR_THREAD),
    h <> NULL -> heap w !! h = Some t ->
    lpStartAddress t <> NULL ->
    exited t = false -> detached t = false -> started t = true ->
    registry_knows cfg w h ->
    threads_InitOnce w = true -> self w <> mainThreadId w ->
    (forall tr, host tr (TlsSetValue (currentThreadTlsIndex w) h) <> 0) ->
    (forall tr, host tr (pthread_mutex_lock h threadIsReadyMutex) = 0) ->
    (forall tr, host tr (pthread_cond_signal h threadReady) = 0) ->
    (forall tr, host tr (pthread_mutex_unlock h threadIsReadyMutex) = 0) ->
    let w2 := (thread_launcher cfg host (current_thread_is expected cfg host)
                 h w).2 in
    dwExitCode (obj w2 h) = (if h =? expected then 1 else 0).
Proof.
  intros cfg host expected h w t Hn Hl Hf Hex Hd Hs Hreg Ho Hself HT HL HS HU w2.
  subst w2. apply Z.eqb_neq in Hn, Hf. apply not_eq_sym in Hself.
  apply Z.eqb_neq in Hself.
  destruct (thread_launcher cfg host (current_thread_is expected cfg host) h w)
    as [u w'] eqn:E.
  cbn [snd].
  destruct w as [hp bk nt tr0 le sf tl tlist once mt mid idx].
  cbn [heap currentThreadTlsIndex threads_InitOnce self mainThreadId] in *.
  subst once.
  unfold registry_knows, listed in Hreg. wflat_in Hreg.
  unfold thread_launcher in E. rewrite Hn in E. wnorm_in E.
  unfold do_TlsSetValue in E. wnorm_in E.
  rewrite (truth_nonzero _ (HT _)) in E. wnorm_in E.
  rewrite (read_live _ _ _ Hl), Hf in E. wnorm_in E.
  host_zero E HL.
  rewrite HS in E. change (0 =? 0) with true in E. wnorm_in E.
  destruct (WITH_THREAD_LIST cfg);
    [destruct Hreg as [Hreg | (l & -> & Hex')]; [discriminate Hreg |];
     unfold ListDictionary_Contains in E; wnorm_in E; rewrite Hex' in E |];
    wnorm_in E.
  all: host_zero E HU.
  all: unfold call_start, current_thread_is, _GetCurrentThread,
         winpr_GetCurrentThread, InitOnceExecuteOnce_initializeThreads,
         do_TlsGetValue in E; wnorm_in E.
  all: rewrite Hself, lookup_insert_eq in E.
  all: change (default NULL (Some h)) with h in E; rewrite Hn in E; wnorm_in E.
  all: unfold thread_launcher_exit in E; wnorm_in E.
  all: rewrite (alter_live _ _ _ _ Hl), ?read_insert in E.
  all: flags_in E; rewrite Hex in E; wnorm_in E.
  all: rewrite ?alter_insert_eq in E.
  all: host_case E (winpr_event_set h) EE.
  all: rewrite ?alter_insert_eq, ?read_insert in E.
  all: flags_in E; rewrite Hd, Hs in E; wnorm_in E.
  all: inversion E; subst; clear E.
  all: wflat; rewrite read_insert; reflexivity.
Qed.

(** The launcher of the running thread of [running], whose handle is 1:
    the start routine that expects the handle 1 returns 1. *)
Lemma started_thread_finds_its_own_handle_witness :
  dwExitCode
    (obj (thread_launcher build_default host_ok
            (current_thread_is 1 build_default host_ok) 1
            (inside build_default)).2 1) = 1.
Proof.
  apply (started_thread_finds_its_own_handle build_default host_ok 1 1
           (inside build_default) (obj (inside build_default) 1)).
  - unfold NULL. lia.
  - vm_compute. reflexivity.
  - vm_compute. discriminate.
  - vm_compute. reflexivity.
  - vm_compute. reflexivity.
  - vm_compute. reflexivity.
  - left. reflexivity.
  - vm_compute. reflexivity.
  - vm_compute. discriminate.
  - intros tr. vm_compute. discriminate.
  - intros tr. reflexivity.
  - intros tr. reflexivity.
  - intros tr. reflexivity.
Defined.

(** X20.  [GetCurrentThreadId] returns the low 32 bits of the calling
    thread's identity, a value below 2^32, and leaves the world as it
    is: two threads whose identities differ by a multiple of 2^32 get
    the same id. *)
Theorem GetCurrentThreadId_low_32_bits :
  forall (w : World),
    let r := GetCurrentThreadId w in
    r.2 = w /\ r.1 = self w mod 2 ^ 32 /\ 0 <= r.1 < 2 ^ 32.
Proof.
  intros w r. subst r. unfold GetCurrentThreadId. wsimpl.
  split; [reflexivity |].
  assert (E : DWORD_of (Z.land (DWORD_of (self w)) 4294967295) = self w mod 2 ^ 32).
  { unfold DWORD_of. change 4294967295 with (Z.ones 32).
    rewrite Z.land_ones by lia. rewrite !Z.mod_mod by lia. reflexivity. }
  rewrite E. split; [reflexivity |]. apply Z.mod_pos_bound. lia.
Qed.

(** *** User APCs *)

(** X21.  What [QueueUserAPC] queues, [userAPC] delivers once.  After a
    successful [QueueUserAPC(pfnAPC, hThread, dwData)] the last item of
    the queue of the target carries [pfnAPC] and [dwData]; [userAPC] on
    that item runs the callback [pfnAPC] on [dwData], once, and then
    marks the item for removal, the item staying marked for freeing;
    the items queued before are left as they were. *)
Theorem queued_callback_is_delivered_once :
  forall host apc_code (pfnAPC hThread dwData : Z) (w : World) (t : WINPR_THREAD),
    pfnAPC <> NULL ->
    hThread <> NULL -> hThread <> INVALID_HANDLE_VALUE ->
    heap w !! hThread = Some t -> Type_ t = HANDLE_TYPE_THREAD ->
    host (trace w) (calloc sizeof_UserApcItem) <> NULL ->
    let r := QueueUserAPC host pfnAPC hThread dwData w in
    let i := length (apc t) in
    let body := apc_code pfnAPC dwData r.2 in
    let d := userAPC apc_code hThread i r.2 in
    apc (obj r.2 hThread) !! i = Some (user_apc_item pfnAPC dwData) /\
    d = (tt, update hThread
               (fun t' => set_apc (alter mark_for_remove i (apc t')) t')
               body.2) /\
    (callback_keeps apc_code pfnAPC hThread ->
       apc (obj d.2 hThread)
       = apc t ++ [mark_for_remove (user_apc_item pfnAPC dwData)]).
Proof.
  intros host apc_code pfnAPC h dwData w t Hf Hn Hi Hl Hty Hc r i body d.
  assert (Er : r = (1, with_heap (insert h (set_apc (apc t ++ [user_apc_item pfnAPC dwData]) t))
                         (with_trace (fun tr => tr ++ [calloc sizeof_UserApcItem;
                            apc_register h (user_apc_item pfnAPC dwData)]) w))).
  { subst r. apply Z.eqb_neq in Hf, Hn, Hi, Hc.
    destruct w as [hp bk nt tr0 le sf tl tlist once mt mid idx].
    cbn [heap trace] in Hl, Hc.
    unfold QueueUserAPC, winpr_Handle_GetInfo. wnorm.
    rewrite Hf. wnorm. rewrite Hn, Hi, Hl. wnorm.
    rewrite (read_live _ _ _ Hl), Hty.
    change (HANDLE_TYPE_THREAD =? HANDLE_TYPE_THREAD) with true. wnorm.
    rewrite Hc. wnorm. statics.
    rewrite (alter_live _ _ _ _ Hl), <- ?app_assoc. reflexivity. }
  assert (Hl1 : heap r.2 !! h
                = Some (set_apc (apc t ++ [user_apc_item pfnAPC dwData]) t))
    by (rewrite Er; cbn [snd heap with_heap with_trace]; apply lookup_insert_eq).
  assert (Hi1 : (apc t ++ [user_apc_item pfnAPC dwData]) !! i
                = Some (user_apc_item pfnAPC dwData))
    by (apply list_lookup_middle; reflexivity).
  split; [unfold obj; rewrite (read_live _ _ _ Hl1); exact Hi1 |].
  assert (Ed : d = (tt, update h
               (fun t' => set_apc (alter mark_for_remove i (apc t')) t')
               body.2)).
  { subst d body. unfold userAPC, bind, load, get, obj.
    rewrite (read_live _ _ _ Hl1).
    change (apc (set_apc ?q _)) with q. rewrite Hi1.
    cbn [completion completionArg user_apc_item].
    destruct (apc_code pfnAPC dwData r.2) as [[] wb]. reflexivity. }
  split; [exact Ed |].
  intros Hk. rewrite Ed. cbn [snd]. unfold obj.
  cbn [heap update with_statics with_heap].
  specialize (Hk dwData r.2). fold body in Hk. rewrite Hl1 in Hk.
  rewrite (alter_live _ _ _ _ Hk), read_insert.
  cbn [apc set_apc]. subst i.
  rewrite <- (Nat.add_0_r (length (apc t))), alter_app_r. reflexivity.
Qed.


(** A submission to the running thread of [running], with a callback
    that does nothing. *)
Lemma queued_callback_is_delivered_once_witness :
  let r := QueueUserAPC host_ok 5 1 8 (running build_default) in
  apc (obj (userAPC idle_callback 1 0 r.2).2 1)
  = [mark_for_remove (user_apc_item 5 8)].
Proof.
  assert (H5 : 5 <> NULL) by (unfold NULL; lia).
  assert (Hn : 1 <> NULL) by (unfold NULL; lia).
  assert (Hi : 1 <> INVALID_HANDLE_VALUE) by (unfold INVALID_HANDLE_VALUE; lia).
  assert (Hl : heap (running build_default) !! 1
               = Some (obj (running build_default) 1))
    by (vm_compute; reflexivity).
  assert (Hty : Type_ (obj (running build_default) 1) = HANDLE_TYPE_THREAD)
    by (vm_compute; reflexivity).
  assert (Hc : host_ok (trace (running build_default))
                 (calloc sizeof_UserApcItem) <> NULL)
    by (vm_compute; discriminate).
  destruct (queued_callback_is_delivered_once host_ok idle_callback 5 1 8
              (running build_default) _ H5 Hn Hi Hl Hty Hc) as (_ & _ & Hq).
  apply Hq. intros data w. reflexivity.
Defined.

(** *** Resume and Terminate on their failure paths *)

(** X22.  The start of a thread is attempted once.  When [ResumeThread]
    on a pending thread has taken the object's mutex, the object is
    marked started whether the start sequence then succeeds or fails,
    and whatever the result is.  A later [ResumeThread], whatever the
    host answers, spawns no OS thread, and returns 0 when the mutex can
    be locked and unlocked: after a failed start it reports success
    although no thread runs. *)
Theorem ResumeThread_start_is_attempted_once :
  forall cfg host host' (h : Z) (w : World) (t : WINPR_THREAD),
    h <> NULL -> h <> INVALID_HANDLE_VALUE -> heap w !! h = Some t ->
    started t = false ->
    host (trace w) (pthread_mutex_lock h mutex) = 0 ->
    let r1 := ResumeThread cfg host h w in
    let r2 := ResumeThread cfg host' h r1.2 in
    started (obj r1.2 h) = true /\
    existsb (is_pthread_create h) (since r1.2 r2.2) = false /\
    ((forall tr, host' tr (pthread_mutex_lock h mutex) = 0) ->
     (forall tr, host' tr (pthread_mutex_unlock h mutex) = 0) -> r2.1 = 0).
Proof.
  intros cfg host host' h w t Hn Hi Hl Hs HL r1 r2.
  assert (Hr1 : exists t1, heap r1.2 !! h = Some t1 /\ started t1 = true).
  { subst r1 r2. assert (Hn' := Hn). assert (Hi' := Hi).
    apply Z.eqb_neq in Hn', Hi'.
    destruct (ResumeThread cfg host h w) as [res w'] eqn:E.
    destruct w as [hp bk nt tr0 le sf tl tlist once mt mid idx].
    cbn [heap trace] in Hl, HL.
    unfold ResumeThread, winpr_Handle_GetInfo in E. wnorm_in E.
    rewrite Hn', Hi', Hl in E. wnorm_in E.
    rewrite HL in E. change (truth 0) with false in E. wnorm_in E.
    rewrite (read_live _ _ _ Hl), Hs in E. wnorm_in E.
    use_StartThread_setup E Hl.
    destruct Hm as (Hst & _).
    destruct ok; wnorm_in E;
      [case_zero E (pthread_mutex_unlock h mutex) EU |];
      inversion E; subst; clear E; exists t'; cbn [snd]; wflat;
      (split; [apply lookup_insert_eq | exact Hst]). }
  destruct Hr1 as (t1 & Hl1 & Hs1).
  split; [unfold obj; rewrite (read_live _ _ _ Hl1); exact Hs1 |].
  destruct (ResumeThread_started_spawns_nothing cfg host' h r1.2 t1 Hn Hi Hl1 Hs1)
    as (Hno & _ & Hok).
  split; [exact Hno | exact Hok].
Qed.

(** The pending thread of [pending], resumed on a host where the spawn
    fails, then resumed again on a host where every call succeeds. *)
Lemma ResumeThread_start_is_attempted_once_witness :
  let r1 := ResumeThread build_default host_no_spawn 1 (pending build_default) in
  let r2 := ResumeThread build_default host_ok 1 r1.2 in
  r1.1 = 4294967295 /\
  started (obj r1.2 1) = true /\
  existsb (is_pthread_create 1) (since r1.2 r2.2) = false /\
  r2.1 = 0.
Proof.
  assert (Hn : 1 <> NULL) by (unfold NULL; lia).
  assert (Hi : 1 <> INVALID_HANDLE_VALUE) by (unfold INVALID_HANDLE_VALUE; lia).
  assert (Hl : heap (pending build_default) !! 1
               = Some (obj (pending build_default) 1))
    by (vm_compute; reflexivity).
  assert (Hs : started (obj (pending build_default) 1) = false)
    by (vm_compute; reflexivity).
  destruct (ResumeThread_start_is_attempted_once build_default host_no_spawn
              host_ok 1 (pending build_default) _ Hn Hi Hl Hs eq_refl)
    as (Hst & Hno & Hok).
  split; [vm_compute; reflexivity |].
  split; [exact Hst |]. split; [exact Hno |].
  apply Hok; intros tr; reflexivity.
Defined.

(** X25.  [ResumeThread] returns 0 or [(DWORD)-1], on every handle and
    whatever the host answers: a successful resume of a pending thread
    returns 0, never a previous suspend count. *)
Theorem ResumeThread_result_is_0_or_failure :
  forall cfg host (hThread : Z) (w : World),
    let r := ResumeThread cfg host hThread w in
    r.1 = 0 \/ r.1 = 4294967295.
Proof.
  intros cfg host h w r. subst r.
  destruct (ResumeThread cfg host h w) as [res w'] eqn:E. cbn [fst].
  destruct w as [hp bk nt tr0 le sf tl tlist once mt mid idx].
  unfold ResumeThread, winpr_Handle_GetInfo in E. wnorm_in E.
  destruct (h =? NULL) eqn:Hn; wnorm_in E;
    [inversion E; right; reflexivity |].
  destruct (h =? INVALID_HANDLE_VALUE) eqn:Hi; wnorm_in E;
    [inversion E; right; reflexivity |].
  destruct (hp !! h) as [t|] eqn:Hl; wnorm_in E;
    [| destruct (h =? mainThread_addr) eqn:Hm; wnorm_in E;
       [| inversion E; right; reflexivity]].
  all: host_case E (pthread_mutex_lock h mutex) EL;
    [| inversion E; right; reflexivity].
  all: destruct (started (read hp mt h)) eqn:Es; wnorm_in E;
    [host_case E (pthread_mutex_unlock h mutex) EU; inversion E;
     [left | right]; reflexivity |].
  all: match type of E with
       | context [winpr_StartThread ?c ?f ?x ?W] =>
           destruct (winpr_StartThread c f x W) as [ok W2]
       end.
  all: destruct W2 as [hp2 bk2 nt2 tr2 le2 sf2 tl2 tlist2 once2 mt2 mid2 idx2].
  all: destruct ok; wnorm_in E;
      [host_case E (pthread_mutex_unlock h mutex) EU |];
      inversion E; first [left; reflexivity | right; reflexivity].
Qed.

(** X23.  A [TerminateThread] that returns FALSE on a valid handle has
    still recorded the exit.  When the object's mutex cannot be locked,
    the object is marked exited with the given code, no cancellation is
    requested and the latch is left as it was.  When the mutex is
    locked but cannot be unlocked, the cancellation has been requested
    as well.  In both cases FALSE is returned and [winpr_event_set] is
    not called, so that waiters are not woken. *)
Theorem TerminateThread_failure_still_records_exit :
  forall cfg host (h code : Z) (w : World) (t : WINPR_THREAD),
    h <> NULL -> h <> INVALID_HANDLE_VALUE -> heap w !! h = Some t ->
    let r := TerminateThread cfg host h code w in
    let t' := set_field F_dwExitCode code (set_field F_exited TRUE t) in
    ((forall tr, host tr (pthread_mutex_lock h mutex) <> 0) ->
       r.1 = false /\ heap r.2 !! h = Some t' /\
       since w r.2 = [Store h F_exited TRUE; Store h F_dwExitCode code;
                      pthread_mutex_lock h mutex]) /\
    ((forall tr, host tr (pthread_mutex_lock h mutex) = 0) ->
     (forall tr, host tr (pthread_mutex_unlock h mutex) <> 0) ->
       r.1 = false /\ heap r.2 !! h = Some t' /\
       since w r.2 = [Store h F_exited TRUE; Store h F_dwExitCode code;
                      pthread_mutex_lock h mutex;
                      (if ANDROID cfg
                       then WLog WLOG_ERR "Function not supported on this platform!"
                       else pthread_cancel (thread t));
                      pthread_mutex_unlock h mutex]).
Proof.
  intros cfg host h code w t Hn Hi Hl r t'. subst r t'.
  apply Z.eqb_neq in Hn, Hi.
  destruct (TerminateThread cfg host h code w) as [ok w'] eqn:E.
  destruct w as [hp bk nt tr0 le sf tl tlist once mt mid idx].
  cbn [heap] in Hl.
  unfold TerminateThread, winpr_Handle_GetInfo in E. wnorm_in E.
  rewrite Hn, Hi, Hl in E. wnorm_in E.
  rewrite (alter_live _ _ _ _ Hl), alter_insert_eq in E.
  split.
  - intros HL. host_nonzero E HL. inversion E; subst; clear E. cbn [fst snd].
    split; [reflexivity |]. split; [wflat; apply lookup_insert_eq |].
    apply since_app. wflat. rewrite <- ?app_assoc. reflexivity.
  - intros HL HU. host_zero E HL.
    rewrite ?read_insert in E.
    destruct (ANDROID cfg); wnorm_in E; host_nonzero E HU;
      rewrite ?read_insert in E;
      inversion E; subst; clear E; cbn [fst snd];
      (split; [reflexivity |]); (split; [wflat; apply lookup_insert_eq |]);
      apply since_app; wflat; rewrite <- ?app_assoc; reflexivity.
Qed.

(** The running thread of [running], on a host where every call
    fails. *)
Lemma TerminateThread_failure_still_records_exit_witness :
  let r := TerminateThread build_default host_failing 1 7
             (running build_default) in
  r.1 = false /\
  heap r.2 !! 1
  = Some (set_field F_dwExitCode 7
            (set_field F_exited TRUE (obj (running build_default) 1))) /\
  since (running build_default) r.2
  = [Store 1 F_exited TRUE; Store 1 F_dwExitCode 7; pthread_mutex_lock 1 mutex].
Proof.
  assert (Hn : 1 <> NULL) by (unfold NULL; lia).
  assert (Hi : 1 <> INVALID_HANDLE_VALUE) by (unfold INVALID_HANDLE_VALUE; lia).
  assert (Hl : heap (running build_default) !! 1
               = Some (obj (running build_default) 1))
    by (vm_compute; reflexivity).
  apply (proj1 (TerminateThread_failure_still_records_exit build_default
                  host_failing 1 7 (running build_default) _ Hn Hi Hl)).
  intros tr. vm_compute. discriminate.
Defined.
